(** * E-commerce backend: checkout, payment reconciliation, cart and shipping

    A shallow embedding of the parts of [Backend/src] that carry the
    business rules of the shop:

    - [crud.py]: [get_valid_coupon_by_code], [add_item_to_cart],
      [delete_product], [create_order_from_cart];
    - [routers/payments.py]: [create_checkout_session], [stripe_webhook];
    - [services/shipping_service.py]: [_prepare_package_for_api];
    - [models.py]: the tables and the ORM cascades.

    Python [int] is [Z]; Python [float] (and the SQL [Float] columns) is
    the binary64 type [float] of the kernel, so every price and dimension
    is computed with the rounding the interpreter applies; a Python [str]
    is the [string] of the bytes of its UTF-8 encoding.  The database
    is a record of tables; a SQLAlchemy [Session] is a pair of the
    committed database and the view of the running transaction; functions
    that use a session live in a small state-and-exception monad. *)

From Stdlib Require Import ZArith Floats Ascii String.
From stdpp Require Import gmap strings list fin_maps pretty.

Local Open Scope Z_scope.

(* ===================================================================== *)
(** * Python builtins used by the source                                  *)
(* ===================================================================== *)

(** [float(n)] for an [int] [n], as applied implicitly by [float * int]:
    the nearest binary64 value, ties to even.  (CPython raises
    [OverflowError] beyond the binary64 range, where this function gives
    an infinity; quantities are SQL [Integer]s and stay far below.) *)
Definition float_of_int (n : Z) : float :=
  SF2Prim (binary_normalize prec emax n 0 false).

(** [int(x)] for a [float] [x]: truncation towards zero; [None] stands for
    the [ValueError] / [OverflowError] raised on NaN and infinities. *)
Definition int_of_float (x : float) : option Z :=
  match Prim2SF x with
  | S754_zero _ => Some 0
  | S754_finite s m e =>
      let magnitude :=
        if (0 <=? e) then Z.pos m * 2 ^ e else Z.pos m / 2 ^ (- e) in
      Some (if s then - magnitude else magnitude)
  | S754_infinity _ | S754_nan => None
  end.

(** [sum(xs)] over floats, as CPython computes it up to version 3.11:
    accumulation from the left, starting at [0].  ([0 + x] is [x]
    converted, so starting from the float zero is the same; an empty
    [sum] is the [int] [0], numerically equal.  From version 3.12 on
    CPython carries a compensation term for the rounding errors of a
    float sum; on a single term, and wherever the partial sums are exact,
    the compensation is zero and the result is the one computed here.) *)
Definition py_sum (xs : list float) : float :=
  fold_left PrimFloat.add xs 0%float.

(** [max(a, b)]: the first argument is kept unless the second is strictly
    greater. *)
Definition py_max2 (a b : float) : float :=
  if (a <? b)%float then b else a.

(** [max(iterable)]: the running maximum is replaced only by a strictly
    greater item; [None] stands for the [ValueError] on an empty
    iterable. *)
Definition py_max (xs : list float) : option float :=
  match xs with
  | [] => None
  | x :: rest => Some (fold_left py_max2 rest x)
  end.

(** [str(n)] for an [int]. *)
Definition str_of_int (n : Z) : string := pretty n.

(** A [str] is held as the bytes of its UTF-8 encoding, which is how the
    string literals of this file are stored.  [code_points] reads the
    code points back; [None] on bytes that encode no [str].  (A lone
    surrogate, which a [str] can hold, is read from its three-byte
    form.) *)
Definition continuation (b : N) : option N :=
  if ((128 <=? b) && (b <=? 191))%N then Some (b - 128)%N else None.

Fixpoint code_points (bytes : list N) : option (list N) :=
  match bytes with
  | [] => Some []
  | b0 :: rest =>
      if (b0 <? 128)%N then cons b0 <$> code_points rest
      else if ((194 <=? b0) && (b0 <=? 223))%N then
        match rest with
        | b1 :: rest =>
            match continuation b1 with
            | Some c1 => cons ((b0 - 192) * 64 + c1)%N <$> code_points rest
            | None => None
            end
        | _ => None
        end
      else if ((224 <=? b0) && (b0 <=? 239))%N then
        match rest with
        | b1 :: b2 :: rest =>
            match continuation b1, continuation b2 with
            | Some c1, Some c2 =>
                let c := ((b0 - 224) * 4096 + c1 * 64 + c2)%N in
                if (2048 <=? c)%N then cons c <$> code_points rest else None
            | _, _ => None
            end
        | _ => None
        end
      else if ((240 <=? b0) && (b0 <=? 244))%N then
        match rest with
        | b1 :: b2 :: b3 :: rest =>
            match continuation b1, continuation b2, continuation b3 with
            | Some c1, Some c2, Some c3 =>
                let c := ((b0 - 240) * 262144 + c1 * 4096 + c2 * 64 + c3)%N in
                if ((65536 <=? c) && (c <=? 1114111))%N
                then cons c <$> code_points rest else None
            | _, _, _ => None
            end
        | _ => None
        end
      else None
  end.

(** [Py_UNICODE_ISSPACE] on the code points from 127 on. *)
Definition unicode_space (c : N) : bool :=
  ((c =? 133) || (c =? 160) || (c =? 5760)
   || (8192 <=? c) && (c <=? 8202)
   || (c =? 8232) || (c =? 8233) || (c =? 8239) || (c =? 8287)
   || (c =? 12288))%N.

(** The code points from 127 on that are decimal digits come in runs of
    ten, from the digit zero to the digit nine; these are the zeros, in
    version 14.0 of the Unicode database, the one of CPython 3.11 (a
    later version adds runs for new scripts). *)
Definition decimal_zeros : list N :=
  [1632; 1776; 1984; 2406; 2534; 2662; 2790; 2918;
   3046; 3174; 3302; 3430; 3558; 3664; 3792; 3872;
   4160; 4240; 6112; 6160; 6470; 6608; 6784; 6800;
   6992; 7088; 7232; 7248; 42528; 43216; 43264; 43472;
   43504; 43600; 44016; 65296; 66720; 68912; 69734; 69872;
   69942; 70096; 70384; 70736; 70864; 71248; 71360; 71472;
   71904; 72016; 72784; 73040; 73120; 92768; 92864; 93008;
   120782; 120792; 120802; 120812; 120822; 123200; 123632; 125264;
   130032]%N.

(** [Py_UNICODE_TODECIMAL] on the code points from 127 on. *)
Definition unicode_decimal (c : N) : option N :=
  (λ zero, c - zero)%N
    <$> head (filter (λ zero, (zero ≤ c < zero + 10)%N) decimal_zeros).

(** [_PyUnicode_TransformDecimalAndSpaceToASCII] on one code point: a
    code point below 127 stays, a space becomes the ASCII space and a
    decimal digit the ASCII digit of its value; anything else makes the
    literal invalid. *)
Definition to_ascii (c : N) : option ascii :=
  if (c <? 127)%N then Some (ascii_of_N c)
  else if unicode_space c then Some " "%char
  else (λ d, ascii_of_N (48 + d)) <$> unicode_decimal c.

Definition ascii_form (s : string) : option (list ascii) :=
  code_points (N_of_ascii <$> list_ascii_of_string s) ≫= mapM to_ascii.

(** [Py_ISSPACE], the white space [PyLong_FromString] skips on both
    sides of the literal: the space and the characters 9 to 13. *)
Definition is_space (c : ascii) : bool :=
  let n := N_of_ascii c in
  ((9 <=? n) && (n <=? 13) || (n =? 32))%N.

Definition digit_of (c : ascii) : option Z :=
  let n := N_of_ascii c in
  if ((48 <=? n) && (n <=? 57))%N then Some (Z.of_N n - 48) else None.

Fixpoint lstrip (s : list ascii) : list ascii :=
  match s with
  | c :: rest => if is_space c then lstrip rest else s
  | [] => []
  end.

Definition strip (s : list ascii) : list ascii :=
  rev (lstrip (rev (lstrip s))).

(** Digits of an integer literal: single underscores are allowed between
    digits.  [after_digit] tells whether the previous character was a
    digit, [acc] is the value read so far. *)
Fixpoint parse_digits (after_digit : bool) (acc : Z) (s : list ascii)
  : option Z :=
  match s with
  | [] => if after_digit then Some acc else None
  | c :: rest =>
      match digit_of c with
      | Some d => parse_digits true (10 * acc + d) rest
      | None =>
          if (Ascii.eqb c "_" && after_digit)%bool
          then match rest with
               | [] => None
               | _ => parse_digits false acc rest
               end
          else None
      end
  end.

(** [int(s)] for a [str] [s], in base ten, as [PyLong_FromUnicodeObject]
    computes it: the spaces and decimal digits of every script are
    brought to ASCII, then white space is skipped on both sides and an
    optional sign and the digits are read.  [None] stands for
    [ValueError].  (The limit that CPython, from 3.11 on, puts on the
    number of digits, 4300 unless configured otherwise, is not part of
    this function: a Stripe metadata value has at most 500
    characters.) *)
Definition int_of_str (s : string) : option Z :=
  chars ← ascii_form s;
  match strip chars with
  | [] => None
  | c :: rest =>
      if Ascii.eqb c "-" then Z.opp <$> parse_digits false 0 rest
      else if Ascii.eqb c "+" then parse_digits false 0 rest
      else parse_digits false 0 (c :: rest)
  end.

(* ===================================================================== *)
(** * models.py: rows of the tables                                       *)
(* ===================================================================== *)

(** Primary keys of [products] and [orders] are the keys of the maps that
    hold these tables, so the rows carry no [id] field of their own. *)

Module Product.
Record t := mk {
  sku : string;
  name : string;
  price : float;
  stock : Z;
  weight_kg : float;
  height_cm : float;
  width_cm : float;
  length_cm : float
}.
Definition set_stock (n : Z) (p : t) : t :=
  mk (sku p) (name p) (price p) n
     (weight_kg p) (height_cm p) (width_cm p) (length_cm p).
End Product.

Module Coupon.
Record t := mk {
  id : Z;
  code : string;
  discount_percent : float;
  expires_at : option Z;   (* a point in time, [None] for NULL *)
  is_active : bool
}.
End Coupon.

Module Cart.
Record t := mk {
  id : Z;
  user_id : Z;
  coupon_id : option Z
}.
Definition set_coupon_id (c : option Z) (x : t) : t :=
  mk (id x) (user_id x) c.
End Cart.

Module CartItem.
Record t := mk {
  id : Z;
  cart_id : Z;
  product_id : Z;
  quantity : Z
}.
Definition set_quantity (q : Z) (x : t) : t :=
  mk (id x) (cart_id x) (product_id x) q.
End CartItem.

Module OrderItem.
Record t := mk {
  product_id : option Z;   (* nullable foreign key *)
  quantity : Z;
  price_at_purchase : float
}.
End OrderItem.

Module Order.
Record t := mk {
  user_id : Z;
  created_at : Z;
  total_price : float;
  discount_amount : float;
  coupon_code_used : option string;
  status : string;
  payment_intent_id : option string;
  items : list OrderItem.t
}.
Definition set_status (st : string) (o : t) : t :=
  mk (user_id o) (created_at o) (total_price o) (discount_amount o)
     (coupon_code_used o) st (payment_intent_id o) (items o).
Definition set_payment_intent_id (pi : option string) (o : t) : t :=
  mk (user_id o) (created_at o) (total_price o) (discount_amount o)
     (coupon_code_used o) (status o) pi (items o).
End Order.

Module ProductReview.
Record t := mk {
  id : Z;
  product_id : Z;
  user_id : Z;
  rating : Z
}.
End ProductReview.

(** [schemas.CartItemCreate]: the body of "add to cart". *)
Module CartItemCreate.
Record t := mk {
  product_id : Z;
  quantity : Z
}.
End CartItemCreate.

(* ===================================================================== *)
(** * The database and the session                                        *)
(* ===================================================================== *)

(** Tables read only through their primary key are finite maps; tables
    scanned with [filter(...).first()] are lists in storage order, so
    that [first()] is the head of the filtered list. *)
Record Db := mkDb {
  products : gmap Z Product.t;
  reviews : list ProductReview.t;
  coupons : list Coupon.t;
  carts : list Cart.t;
  cart_items : list CartItem.t;
  orders : gmap Z Order.t
}.

Definition set_products (m : gmap Z Product.t) (db : Db) : Db :=
  mkDb m (reviews db) (coupons db) (carts db) (cart_items db) (orders db).
Definition set_reviews (l : list ProductReview.t) (db : Db) : Db :=
  mkDb (products db) l (coupons db) (carts db) (cart_items db) (orders db).
Definition set_carts (l : list Cart.t) (db : Db) : Db :=
  mkDb (products db) (reviews db) (coupons db) l (cart_items db) (orders db).
Definition set_cart_items (l : list CartItem.t) (db : Db) : Db :=
  mkDb (products db) (reviews db) (coupons db) (carts db) l (orders db).
Definition set_orders (m : gmap Z Order.t) (db : Db) : Db :=
  mkDb (products db) (reviews db) (coupons db) (carts db) (cart_items db) m.

(** A session: [stored] is the committed database, [live] what the
    running transaction sees (the rows loaded in the identity map with
    their pending changes). *)
Record Session := mkSession {
  stored : Db;
  live : Db
}.

(** The session a request receives from [get_db]. *)
Definition open_session (db : Db) : Session := mkSession db db.

(** Exceptions raised or caught by the modelled code. *)
Inductive exn :=
| OrderCreationError (message : string) (status_code : Z)
| HTTPException (status_code : Z) (detail : string)
| StripeError (message : string) (user_message : option string)
| DatabaseError (message : string)
| ValueError (message : string)
| OtherError (message : string).

(** [str(e)].  Starlette prints an [HTTPException] as "status: detail". *)
Definition str_of_exn (e : exn) : string :=
  match e with
  | OrderCreationError m _ => m
  | HTTPException c d => str_of_int c +:+ ": " +:+ d
  | StripeError m _ => m
  | DatabaseError m => m
  | ValueError m => m
  | OtherError m => m
  end.

Inductive outcome (A : Type) :=
| Return (a : A)
| Raise (e : exn).
Arguments Return {A} a.
Arguments Raise {A} e.

(** Code running against a session: it returns or raises, and in both
    cases leaves a session behind. *)
Definition M (A : Type) : Type := Session → outcome A * Session.

Definition ret {A} (a : A) : M A := λ s, (Return a, s).
Definition raise {A} (e : exn) : M A := λ s, (Raise e, s).
Definition bind {A B} (m : M A) (k : A → M B) : M B :=
  λ s, match m s with
       | (Return a, s') => k a s'
       | (Raise e, s') => (Raise e, s')
       end.

(** [try: body except Exception as e: handler(e)] *)
Definition try_except {A} (body : M A) (handler : exn → M A) : M A :=
  λ s, match body s with
       | (Return a, s') => (Return a, s')
       | (Raise e, s') => handler e s'
       end.

Declare Scope py_scope.
Delimit Scope py_scope with py.
Notation "x <- m ;; k" := (bind m (λ x, k))
  (at level 100, m at next level, right associativity) : py_scope.
Notation "m ;;; k" := (bind m (λ _, k))
  (at level 100, right associativity) : py_scope.

Definition get_live : M Db := λ s, (Return (live s), s).
Definition put_live (db : Db) : M unit :=
  λ s, (Return tt, mkSession (stored s) db).
Definition modify_live (f : Db → Db) : M unit :=
  λ s, (Return tt, mkSession (stored s) (f (live s))).

(** What the database server answers to a [COMMIT] of the state [db]:
    [None] when it accepts, [Some msg] when it refuses or is unreachable,
    which SQLAlchemy raises as an exception. *)
Definition Backend : Type := Db → option string.

(** [db.commit()] *)
Definition commit (be : Backend) : M unit :=
  λ s, match be (live s) with
       | None => (Return tt, mkSession (live s) (live s))
       | Some msg => (Raise (DatabaseError msg), s)
       end.

(** [db.rollback()], also what [db.close()] does to an open transaction. *)
Definition rollback : M unit :=
  λ s, (Return tt, mkSession (stored s) (stored s)).

(** One request: [get_db] opens a session, the handler runs, the session
    is closed; what remains is the committed database. *)
Definition run_request {A} (handler : M A) (db : Db) : outcome A * Db :=
  let '(r, s) := handler (open_session db) in (r, stored s).

(** The store of the test suite, an in-memory SQLite database, accepts
    every commit. *)
Definition sqlite_backend : Backend := λ _, None.

(* ===================================================================== *)
(** * crud.py                                                             *)
(* ===================================================================== *)

Local Open Scope py_scope.

(** [get_product]: [filter(Product.id == product_id).first()]. *)
Definition get_product (db : Db) (product_id : Z) : option Product.t :=
  products db !! product_id.

(** [get_order_by_id] *)
Definition get_order_by_id (db : Db) (order_id : Z) : option Order.t :=
  orders db !! order_id.

(** The relationship [Cart.items]. *)
Definition Cart_items (db : Db) (cart : Cart.t) : list CartItem.t :=
  filter (λ it, CartItem.cart_id it = Cart.id cart) (cart_items db).

(** The relationship [Cart.coupon]. *)
Definition Cart_coupon (db : Db) (cart : Cart.t) : option Coupon.t :=
  match Cart.coupon_id cart with
  | Some k => head (filter (λ c, Coupon.id c = k) (coupons db))
  | None => None
  end.

(** [Coupon.expires_at.is_(None) | (Coupon.expires_at > now)] *)
Definition not_expired (now : Z) (c : Coupon.t) : bool :=
  match Coupon.expires_at c with
  | None => true
  | Some t => now <? t
  end.

(** [get_valid_coupon_by_code]; [now] is [datetime.now(timezone.utc)]. *)
Definition get_valid_coupon_by_code (db : Db) (now : Z) (code : string)
  : option Coupon.t :=
  head (filter (λ c, not_expired now c = true)
         (filter (λ c, Coupon.is_active c = true)
           (filter (λ c, Coupon.code c = code) (coupons db)))).

(** [get_cart_by_user_id] *)
Definition get_cart_by_user_id (db : Db) (user_id : Z) : option Cart.t :=
  head (filter (λ c, Cart.user_id c = user_id) (carts db)).

(** [filter_by(cart_id=cart_id, product_id=product_id).first()] on
    [cart_items]. *)
Definition cart_line (db : Db) (cart_id product_id : Z) : option CartItem.t :=
  head (filter (λ it, CartItem.cart_id it = cart_id
                      ∧ CartItem.product_id it = product_id)
               (cart_items db)).

(** The primary key an auto-increment column gives to a new row: one
    more than the greatest key in use, starting at 1. *)
Definition next_key (keys : list Z) : Z := 1 + foldr Z.max 0 keys.

Definition new_cart_item_id (db : Db) : Z :=
  next_key (CartItem.id <$> cart_items db).

Definition new_order_id (db : Db) : Z :=
  next_key (fst <$> map_to_list (orders db)).

(** An attribute assignment on a loaded row reaches the row with the
    same primary key. *)
Definition update_cart_item (row : CartItem.t) (f : CartItem.t → CartItem.t)
    (db : Db) : Db :=
  set_cart_items
    ((λ it, if decide (CartItem.id it = CartItem.id row) then f it else it)
       <$> cart_items db) db.

(** [add_item_to_cart] *)
Definition add_item_to_cart (be : Backend) (cart_id : Z)
    (item : CartItemCreate.t) : M (option CartItem.t) :=
  db <- get_live;;
  match get_product db (CartItemCreate.product_id item) with
  | None => ret None
  | Some product =>
      let db_cart_item := cart_line db cart_id (CartItemCreate.product_id item) in
      let current_quantity :=
        match db_cart_item with
        | Some it => CartItem.quantity it
        | None => 0
        end in
      let requested_quantity := current_quantity + CartItemCreate.quantity item in
      if Product.stock product <? requested_quantity then ret None
      else
        db_cart_item <-
          match db_cart_item with
          | Some it =>
              put_live (update_cart_item it (CartItem.set_quantity requested_quantity) db);;;
              ret (CartItem.set_quantity requested_quantity it)
          | None =>
              let it := CartItem.mk (new_cart_item_id db) cart_id
                          (CartItemCreate.product_id item)
                          (CartItemCreate.quantity item) in
              put_live (set_cart_items (cart_items db ++ [it]) db);;;
              ret it
          end;;
        commit be;;;
        ret (Some db_cart_item)
  end.

(** [db.delete(db_product)]: the unit of work removes the product and,
    through [cascade="all, delete-orphan"] on [Product.reviews], its
    reviews.  [models.py] declares no relationship from [Product] to
    [CartItem] or [OrderItem], so the ORM leaves those tables alone. *)
Definition session_delete_product (product_id : Z) : M unit :=
  modify_live (λ db,
    set_reviews
      (filter (λ r, ProductReview.product_id r ≠ product_id) (reviews db))
      (set_products (delete product_id (products db)) db)).

(** [delete_product] *)
Definition delete_product (be : Backend) (product_id : Z)
  : M (option Product.t) :=
  db <- get_live;;
  match get_product db product_id with
  | Some db_product =>
      session_delete_product product_id;;;
      commit be;;;
      ret (Some db_product)
  | None => ret None
  end.

(** The [for item in cart.items] loop of [create_order_from_cart]: each
    product is fetched again, checked, debited, and an [OrderItem] is
    appended to [order_items_to_create]. *)
Fixpoint reserve_stock (items : list CartItem.t)
    (order_items_to_create : list OrderItem.t) : M (list OrderItem.t) :=
  match items with
  | [] => ret order_items_to_create
  | item :: rest =>
      db <- get_live;;
      match products db !! CartItem.product_id item with
      | None =>
          raise (OrderCreationError
                   ("Produto com ID " +:+ str_of_int (CartItem.product_id item)
                    +:+ " não existe mais.") 400)
      | Some product =>
          if Product.stock product <? CartItem.quantity item
          then raise (OrderCreationError
                        ("Estoque insuficiente para o produto '"
                         +:+ Product.name product +:+ "'.") 400)
          else
            put_live (set_products
                        (<[CartItem.product_id item :=
                             Product.set_stock
                               (Product.stock product - CartItem.quantity item)
                               product]> (products db)) db);;;
            reserve_stock rest
              (order_items_to_create ++
                 [OrderItem.mk (Some (CartItem.product_id item))
                               (CartItem.quantity item)
                               (Product.price product)])
      end
  end.

(** [item.product.price * item.quantity], the amount of one cart line at
    the current price of its product; [None] when [item.product] is
    [None], the product being gone. *)
Definition line_price (db : Db) (item : CartItem.t) : option float :=
  (λ p, (Product.price p * float_of_int (CartItem.quantity item))%float)
    <$> products db !! CartItem.product_id item.

(** [item.product.price * item.quantity for item in cart.items if item.product] *)
Definition line_amounts (db : Db) (items : list CartItem.t) : list float :=
  omap (line_price db) items.

Definition empty_cart_error : exn :=
  OrderCreationError "Carrinho vazio. Não é possível criar um pedido." 400.

Definition coupon_invalid_error : exn :=
  OrderCreationError "O cupom aplicado não é mais válido." 400.

(** The [try] ... [except] block of [create_order_from_cart]: stock is
    reserved line by line, the order is added, the cart is emptied and
    the transaction committed; on any exception the session is rolled
    back and the exception leaves as an [OrderCreationError]. *)
Definition checkout_transaction (be : Backend) (now : Z) (user_id : Z)
    (cart : Cart.t) (items : list CartItem.t)
    (total_price discount_amount : float) (coupon_code_used : option string)
  : M (Z * Order.t) :=
  try_except
    (order_items_to_create <- reserve_stock items [];;
     db <- get_live;;
     let order_id := new_order_id db in
     let new_order :=
       Order.mk user_id now total_price discount_amount
                coupon_code_used "pending_payment" None
                order_items_to_create in
     (* db.add(new_order) *)
     modify_live (λ d, set_orders (<[order_id := new_order]> (orders d)) d);;;
     (* cart.coupon_id = None *)
     modify_live (λ d, set_carts
       ((λ c, if decide (Cart.id c = Cart.id cart)
              then Cart.set_coupon_id None c else c) <$> carts d) d);;;
     (* db.query(CartItem).filter(CartItem.cart_id == cart.id).delete() *)
     modify_live (λ d, set_cart_items
       (filter (λ it, CartItem.cart_id it ≠ Cart.id cart) (cart_items d)) d);;;
     commit be;;;
     (* db.refresh(new_order) *)
     db <- get_live;;
     match orders db !! order_id with
     | Some o => ret (order_id, o)
     | None => raise (OtherError "Could not refresh instance")
     end)
    (λ e,
       rollback;;;
       match e with
       | OrderCreationError _ _ => raise e
       | _ => raise (OrderCreationError
                       ("Ocorreu um erro inesperado: " +:+ str_of_exn e) 500)
       end).

(** [create_order_from_cart]; [user_id] is [user.id], [now] the clock
    (read by the coupon check and by the [created_at] default). *)
Definition create_order_from_cart (be : Backend) (now : Z) (user_id : Z)
  : M (Z * Order.t) :=
  db <- get_live;;
  match get_cart_by_user_id db user_id with
  | None => raise empty_cart_error
  | Some cart =>
      let items := Cart_items db cart in
      match items with
      | [] => raise empty_cart_error
      | _ :: _ =>
          let subtotal := py_sum (line_amounts db items) in
          discount <-
            match Cart_coupon db cart with
            | Some coupon =>
                match get_valid_coupon_by_code db now (Coupon.code coupon) with
                | None => raise coupon_invalid_error
                | Some valid_coupon =>
                    ret ((subtotal * (Coupon.discount_percent valid_coupon / 100))%float,
                         Some (Coupon.code valid_coupon))
                end
            | None => ret (0%float, None)
            end;;
          let discount_amount := fst discount in
          let coupon_code_used := snd discount in
          let total_price := (subtotal - discount_amount)%float in
          checkout_transaction be now user_id cart items
            total_price discount_amount coupon_code_used
      end
  end.

(* ===================================================================== *)
(** * routers/payments.py                                                 *)
(* ===================================================================== *)

(** One entry of [line_items] sent to Stripe. *)
Record LineItem := mkLineItem {
  li_currency : string;
  li_name : string;
  li_unit_amount : Z;
  li_quantity : Z
}.

(** [checkout_session.payment_intent]: null, an identifier, or an
    expanded object; only an identifier passes [isinstance(_, str)]. *)
Inductive payment_intent_value :=
| PI_null
| PI_id (s : string)
| PI_object.

Record StripeSession := mkStripeSession {
  url : option string;
  payment_intent : payment_intent_value
}.

(** [stripe.checkout.Session.create], given the line items and the
    [order_id] put in the metadata: it returns a session or raises. *)
Definition Stripe : Type := list LineItem → string → outcome StripeSession.

(** The relationship [OrderItem.product]. *)
Definition OrderItem_product (db : Db) (item : OrderItem.t) : option Product.t :=
  match OrderItem.product_id item with
  | Some k => products db !! k
  | None => None
  end.

(** The loop that fills [line_items]; [int(...)] raises on a price that
    is not finite. *)
Fixpoint build_line_items (db : Db) (items : list OrderItem.t)
    (line_items : list LineItem) : outcome (list LineItem) :=
  match items with
  | [] => Return line_items
  | item :: rest =>
      let amount := (OrderItem.price_at_purchase item * 100)%float in
      match int_of_float amount with
      | None =>
          Raise (if is_nan amount
                 then ValueError "cannot convert float NaN to integer"
                 else OtherError "cannot convert float infinity to integer")
      | Some unit_amount =>
          build_line_items db rest
            (line_items ++
               [mkLineItem "brl"
                  (match OrderItem_product db item with
                   | Some p => Product.name p
                   | None => "Produto Removido"
                   end)
                  unit_amount (OrderItem.quantity item)])
      end
  end.

Definition lift {A} (r : outcome A) : M A := λ s, (r, s).

(** Truth value of an optional string: [None] and the empty string are
    false. *)
Definition truthy (s : option string) : bool :=
  match s with
  | None | Some EmptyString => false
  | Some _ => true
  end.

(** [create_checkout_session]; the value returned is the [checkout_url]
    of the JSON body. *)
Definition create_checkout_session (stripe : Stripe) (be : Backend)
    (order_id : Z) : M string :=
  db <- get_live;;
  match get_order_by_id db order_id with
  | None => raise (HTTPException 404 "Order not found")
  | Some order =>
      if decide (Order.status order = "paid")
      then raise (HTTPException 400 "Order has already been paid.")
      else
        line_items <- lift (build_line_items db (Order.items order) []);;
        try_except
          (checkout_session <- lift (stripe line_items (str_of_int order_id));;
           if negb (truthy (url checkout_session))
           then raise (HTTPException 500 "Stripe did not return a checkout URL.")
           else
             match payment_intent checkout_session with
             | PI_id payment_intent_id =>
                 modify_live (λ d, set_orders
                   (<[order_id := Order.set_payment_intent_id
                                    (Some payment_intent_id) order]> (orders d)) d);;;
                 commit be
             | _ => ret tt
             end;;;
             ret (default EmptyString (url checkout_session)))
          (λ e,
             match e with
             | StripeError msg user_message =>
                 raise (HTTPException 400
                          ("Stripe error: " +:+
                           (if truthy user_message
                            then default msg user_message else msg)))
             | _ =>
                 raise (HTTPException 500
                          ("An unexpected error occurred: " +:+ str_of_exn e))
             end)
  end.

(** The [checkout.session] object of a webhook event, as far as the
    handler reads it; [metadata] is the empty dictionary when absent. *)
Record CheckoutSessionObject := mkCheckoutSessionObject {
  metadata : gmap string string;
  payment_status : option string;
  event_payment_intent : option string
}.

Record Event := mkEvent {
  type : string;
  data_object : CheckoutSessionObject
}.

(** What [stripe.Webhook.construct_event] makes of the request body, the
    signature header and the shared secret. *)
Inductive construct_event_result :=
| InvalidPayload          (* ValueError *)
| InvalidSignature        (* SignatureVerificationError *)
| Verified (event : Event).

(** The JSON body of the acknowledgement. *)
Record Ack := mkAck {
  ack_status : string;
  ack_detail : option string
}.

(** [stripe_webhook] *)
Definition stripe_webhook (be : Backend) (constructed : construct_event_result)
  : M Ack :=
  match constructed with
  | InvalidPayload => raise (HTTPException 400 "Invalid webhook payload")
  | InvalidSignature => raise (HTTPException 400 "Invalid webhook signature")
  | Verified event =>
      if decide (type event = "checkout.session.completed") then
        let session := data_object event in
        let order_id_str := metadata session !! "order_id" in
        if negb (truthy order_id_str)
        then ret (mkAck "success" (Some "Webhook ignored, no order_id."))
        else
          try_except
            (match int_of_str (default EmptyString order_id_str) with
             | None => raise (ValueError "invalid literal for int() with base 10")
             | Some order_id =>
                 db <- get_live;;
                 match get_order_by_id db order_id with
                 | Some order =>
                     if bool_decide (Order.status order ≠ "paid")
                        && bool_decide (payment_status session = Some "paid")
                     then
                       modify_live (λ d, set_orders
                         (<[order_id :=
                              Order.set_payment_intent_id (event_payment_intent session)
                                (Order.set_status "paid" order)]> (orders d)) d);;;
                       commit be
                     else ret tt
                 | None => ret tt
                 end
             end)
            (λ e, raise (HTTPException 500
                           "Database processing failed. Webhook will be retried."));;;
          ret (mkAck "success" None)
      else ret (mkAck "success" None)
  end.

(* ===================================================================== *)
(** * services/shipping_service.py                                        *)
(* ===================================================================== *)

Set Warnings "-inexact-float".
Definition MIN_HEIGHT_CM : float := 1.0.
Definition MIN_WIDTH_CM : float := 10.0.
Definition MIN_LENGTH_CM : float := 15.0.
Definition MIN_WEIGHT_KG : float := 0.05.
Set Warnings "inexact-float".

Record Package := mkPackage {
  weight : float;
  height : float;
  width : float;
  length : float
}.

(** A cart line with its product loaded: [CartItem.product] is declared
    [Mapped["Product"]] and [get_cart_by_user_id] loads it eagerly. *)
Definition LoadedItem : Type := CartItem.t * Product.t.

(** [item.quantity] as the float it becomes in [x * item.quantity]. *)
Definition item_qty (item : LoadedItem) : float :=
  float_of_int (CartItem.quantity (fst item)).

(** [_prepare_package_for_api]; the empty dictionary is [None]. *)
Definition _prepare_package_for_api (items : list LoadedItem)
  : outcome (option Package * float) :=
  match items with
  | [] => Return (None, 0%float)
  | _ :: _ =>
      let total_weight :=
        py_sum ((λ item, (Product.weight_kg (snd item) * item_qty item)%float) <$> items) in
      let total_value :=
        py_sum ((λ item, (Product.price (snd item) * item_qty item)%float) <$> items) in
      let final_height :=
        py_sum ((λ item, (Product.height_cm (snd item) * item_qty item)%float) <$> items) in
      match py_max ((λ item, Product.width_cm (snd item)) <$> items),
            py_max ((λ item, Product.length_cm (snd item)) <$> items) with
      | Some final_width, Some final_length =>
          Return (Some (mkPackage (py_max2 total_weight MIN_WEIGHT_KG)
                                  (py_max2 final_height MIN_HEIGHT_CM)
                                  (py_max2 final_width MIN_WIDTH_CM)
                                  (py_max2 final_length MIN_LENGTH_CM)),
                  total_value)
      | _, _ => Raise (ValueError "max() arg is an empty sequence")
      end
  end.

(* ===================================================================== *)
(** * Quantities the statements speak about                               *)
(* ===================================================================== *)

(** [total] is the sum of [xs], added up in the order of the list: the
    sum of no number is 0, and the sum of [xs] followed by [x] is the sum
    of [xs] plus [x], rounded to binary64 as every addition of floats
    is. *)
Inductive sums_to : list float → float → Prop :=
| sums_to_nil : sums_to [] 0%float
| sums_to_snoc xs total x :
    sums_to xs total → sums_to (xs ++ [x]) (total + x)%float.

(** [m] is one of [xs] and no element of [xs] is above it. *)
Definition greatest_of (xs : list float) (m : float) : Prop :=
  m ∈ xs ∧ ∀ x, x ∈ xs → (x <=? m)%float = true.

(** [r] is [x], or [minimum] when [x] is below it. *)
Definition floored_at (minimum x r : float) : Prop :=
  ((x <? minimum)%float = true → r = minimum)
  ∧ ((x <? minimum)%float = false → r = x).

(** The amount of a cart line: the current price of its product times
    the quantity. *)
Definition line_amount (db : Db) (it : CartItem.t) (a : float) : Prop :=
  ∃ p, products db !! CartItem.product_id it = Some p
       ∧ a = (Product.price p * float_of_int (CartItem.quantity it))%float.

(** The order of the floats that are numbers, on their specification:
    [x] is below or equal to [y]. *)
Definition SFle (x y : spec_float) : Prop :=
  match SFcompare x y with
  | Some Lt | Some Eq => True
  | _ => False
  end.

(** An integer that fits the 64 bits of an SQL integer, so that the
    driver can bind it as the parameter of a query. *)
Definition sql_integer (k : Z) : Prop := - 2 ^ 63 ≤ k < 2 ^ 63.

(** Sum of a list of integers. *)
Definition Zsum (l : list Z) : Z := foldr Z.add 0 l.

(** Units of product [k] recorded on a list of order items. *)
Definition ordered_quantity (k : Z) (ois : list OrderItem.t) : Z :=
  Zsum (OrderItem.quantity <$>
          filter (λ oi, OrderItem.product_id oi = Some k) ois).

(** Total stock held in the catalogue. *)
Definition total_stock (m : gmap Z Product.t) : Z :=
  map_fold (λ _ p acc, Product.stock p + acc) 0 m.

(** No product has a negative stock. *)
Definition stock_nonneg (m : gmap Z Product.t) : Prop :=
  ∀ k p, m !! k = Some p → 0 ≤ Product.stock p.

(** A cart line that cannot be served from the catalogue [m]: its product
    is gone, or has less stock than the line asks for. *)
Definition unavailable (m : gmap Z Product.t) (it : CartItem.t) : Prop :=
  match m !! CartItem.product_id it with
  | None => True
  | Some p => Product.stock p < CartItem.quantity it
  end.

(** At most one line per product in each cart. *)
Definition one_line_per_product (db : Db) : Prop :=
  NoDup ((λ it, (CartItem.cart_id it, CartItem.product_id it)) <$> cart_items db).

(** Coupon codes are unique ([unique=True] on [Coupon.code]). *)
Definition coupon_codes_unique (db : Db) : Prop :=
  NoDup (Coupon.code <$> coupons db).

(** The session holds no uncommitted change. *)
Definition clean (s : Session) : Prop := live s = stored s.

(** The order item recorded for a line served from the catalogue [m]. *)
Definition recorded (m : gmap Z Product.t) (it : CartItem.t) (oi : OrderItem.t)
  : Prop :=
  OrderItem.product_id oi = Some (CartItem.product_id it)
  ∧ OrderItem.quantity oi = CartItem.quantity it
  ∧ ∃ p, m !! CartItem.product_id it = Some p
         ∧ OrderItem.price_at_purchase oi = Product.price p.

(** The committed database after a checkout that debited the catalogue
    to [db1] and recorded order [o] under key [oid] for cart [cart]. *)
Definition after_checkout (cart : Cart.t) (oid : Z) (o : Order.t) (db1 : Db)
  : Db :=
  set_cart_items
    (filter (λ it, CartItem.cart_id it ≠ Cart.id cart) (cart_items db1))
    (set_carts
       ((λ c, if decide (Cart.id c = Cart.id cart)
              then Cart.set_coupon_id None c else c) <$> carts db1)
       (set_orders (<[oid := o]> (orders db1)) db1)).

(** The key that must be unique among cart lines. *)
Definition line_key (it : CartItem.t) : Z * Z :=
  (CartItem.cart_id it, CartItem.product_id it).

(** The three conditions of the coupon query: the code matches, the
    coupon is active, and it has no expiry or expires strictly after
    [now]. *)
Definition coupon_valid (now : Z) (code : string) (c : Coupon.t) : Prop :=
  Coupon.code c = code
  ∧ Coupon.is_active c = true
  ∧ (Coupon.expires_at c = None
     ∨ ∃ t, Coupon.expires_at c = Some t ∧ now < t).

(** The database after the unit of work has deleted product [k]. *)
Definition without_product (k : Z) (db : Db) : Db :=
  set_reviews (filter (λ r, ProductReview.product_id r ≠ k) (reviews db))
    (set_products (delete k (products db)) db).

(** The three answers of the webhook. *)
Definition ack_success : Ack := mkAck "success" None.
Definition ack_ignored : Ack := mkAck "success" (Some "Webhook ignored, no order_id.").
Definition webhook_retry_error : exn :=
  HTTPException 500 "Database processing failed. Webhook will be retried.".

(** The order an event pays: status [paid], payment intent recorded. *)
Definition mark_paid (session : CheckoutSessionObject) (o : Order.t) : Order.t :=
  Order.set_payment_intent_id (event_payment_intent session)
    (Order.set_status "paid" o).

(** The integer an event's metadata names as its order. *)
Definition event_order_id (ev : Event) : option Z :=
  metadata (data_object ev) !! "order_id" ≫= int_of_str.

(** The database in which event [ev] has paid order [o], stored under
    key [k]. *)
Definition paid_by (ev : Event) (k : Z) (o : Order.t) (db : Db) : Db :=
  set_orders (<[k := mark_paid (data_object ev) o]> (orders db)) db.

(** The database in which order [o] carries the provider's payment
    identifier. *)
Definition with_payment_intent (order_id : Z) (pid : string) (o : Order.t)
    (db : Db) : Db :=
  set_orders (<[order_id := Order.set_payment_intent_id (Some pid) o]> (orders db)) db.

(** The answer of the catch-all handler of [create_checkout_session]. *)
Definition unexpected_error (e : exn) : exn :=
  HTTPException 500 ("An unexpected error occurred: " +:+ str_of_exn e).

(* ===================================================================== *)
(** * Scenarios taken from the test suite                                 *)
(* ===================================================================== *)

(** The product of [tests/test_coupons.py], with a given stock. *)
Definition sample_product (stock : Z) : Product.t :=
  Product.mk "PROD-CUP-01" "Produto para Cupom" 100 stock 0.5 5 20 20.

(** User 7 owns cart 1, which holds [quantity] units of product 1. *)
Definition shop (stock quantity : Z) (coupons : list Coupon.t)
    (applied : option Z) : Db :=
  mkDb {[ 1 := sample_product stock ]} [] coupons
       [Cart.mk 1 7 applied] [CartItem.mk 1 1 1 quantity] ∅.

Definition PEDIDO20 : Coupon.t := Coupon.mk 1 "PEDIDO20" 20 None true.

(** A coupon that expired at time 50. *)
Definition NATAL10 : Coupon.t := Coupon.mk 2 "NATAL10" 10 (Some 50) true.

(** Stock 5, two units in the cart. *)
Definition shop_in_stock : Db := shop 5 2 [] None.

(** Stock fell to 1 after five units were put in the cart. *)
Definition shop_short_stock : Db := shop 1 5 [] None.

(** Two units at 100.00 and the coupon PEDIDO20. *)
Definition shop_pedido20 : Db := shop 10 2 [PEDIDO20] (Some 1).

(** A second product, at 50.00. *)
Definition second_product (stock : Z) : Product.t :=
  Product.mk "PROD-CUP-02" "Segundo Produto" 50 stock 0.25 2 25 10.

(** One unit at 100.00, two units at 50.00, and the coupon PEDIDO20. *)
Definition shop_two_lines : Db :=
  mkDb {[ 1 := sample_product 10; 2 := second_product 10 ]} [] [PEDIDO20]
       [Cart.mk 1 7 (Some 1)] [CartItem.mk 1 1 1 1; CartItem.mk 2 1 2 2] ∅.

(** Two units in the cart and a coupon that has expired. *)
Definition shop_expired_coupon : Db := shop 10 2 [NATAL10] (Some 2).

(** An empty cart to which the expired coupon is still attached. *)
Definition shop_empty_cart_expired_coupon : Db :=
  mkDb {[ 1 := sample_product 10 ]} [] [NATAL10] [Cart.mk 1 7 (Some 2)] [] ∅.

(** Product 1 is in a cart, in a past order, and has a review. *)
Definition past_order (status : string) : Order.t :=
  Order.mk 7 0 200 0 None status None [OrderItem.mk (Some 1) 2 100].

Definition shop_with_history (status : string) : Db :=
  mkDb {[ 1 := sample_product 5 ]} [ProductReview.mk 1 1 7 5] []
       [Cart.mk 1 7 None] [CartItem.mk 1 1 1 2] {[ 1 := past_order status ]}.

(** A verified [checkout.session.completed] event for the order named
    [order_id], reporting [status]. *)
Definition completed_event (order_id : string) (status : string) : Event :=
  mkEvent "checkout.session.completed"
    (mkCheckoutSessionObject {[ "order_id" := order_id ]} (Some status)
       (Some "pi_test_123")).

(** Stripe as mocked in [tests/test_payments.py]. *)
Definition stripe_mock : Stripe :=
  λ _ _, Return (mkStripeSession
                   (Some "https://checkout.stripe.com/pay/cs_test_12345")
                   (PI_id "pi_test_12345")).

(** A database server whose commits fail. *)
Definition failing_backend : Backend := λ _, Some "DB commit failed".

(** Unfolds the operations of the session monad. *)
Ltac run_py :=
  cbv beta iota zeta delta
    [bind ret raise try_except get_live put_live modify_live commit rollback lift].

(* ===================================================================== *)
(** * crud.py: the other operations on a cart                             *)
(* ===================================================================== *)

(** [remove_cart_item]; [db.delete] removes the row with the primary key
    of the loaded line. *)
Definition remove_cart_item (be : Backend) (cart_id product_id : Z)
  : M (option CartItem.t) :=
  db <- get_live;;
  match cart_line db cart_id product_id with
  | Some db_cart_item =>
      put_live (set_cart_items
                  (filter (λ it, CartItem.id it ≠ CartItem.id db_cart_item)
                          (cart_items db)) db);;;
      commit be;;;
      ret (Some db_cart_item)
  | None => ret None
  end.

(** [update_cart_item_quantity]; [db_cart_item.product] is the product
    the line references, [None] when it is gone. *)
Definition update_cart_item_quantity (be : Backend)
    (cart_id product_id quantity : Z) : M (option CartItem.t) :=
  if quantity <=? 0 then
    remove_cart_item be cart_id product_id;;;
    ret None
  else
    db <- get_live;;
    match cart_line db cart_id product_id with
    | None => ret None
    | Some db_cart_item =>
        match products db !! CartItem.product_id db_cart_item with
        | None => ret None
        | Some product =>
            if Product.stock product <? quantity then ret None
            else
              put_live (update_cart_item db_cart_item
                          (CartItem.set_quantity quantity) db);;;
              commit be;;;
              ret (Some (CartItem.set_quantity quantity db_cart_item))
        end
    end.

(** An assignment to [cart.coupon_id] reaches the row with the primary
    key of [cart]. *)
Definition set_cart_coupon (cart : Cart.t) (coupon_id : option Z) (db : Db) : Db :=
  set_carts ((λ c, if decide (Cart.id c = Cart.id cart)
                   then Cart.set_coupon_id coupon_id c else c) <$> carts db) db.

(** [db.refresh(cart)]: the row is read again through its primary key. *)
Definition refresh_cart (cart : Cart.t) : M Cart.t :=
  db <- get_live;;
  match head (filter (λ c, Cart.id c = Cart.id cart) (carts db)) with
  | Some c => ret c
  | None => raise (OtherError "Could not refresh instance")
  end.

(** [apply_coupon_to_cart] *)
Definition apply_coupon_to_cart (be : Backend) (cart : Cart.t)
    (coupon : Coupon.t) : M Cart.t :=
  modify_live (set_cart_coupon cart (Some (Coupon.id coupon)));;;
  commit be;;;
  refresh_cart cart.

(** [remove_coupon_from_cart] *)
Definition remove_coupon_from_cart (be : Backend) (cart : Cart.t) : M Cart.t :=
  modify_live (set_cart_coupon cart None);;;
  commit be;;;
  refresh_cart cart.

(* ===================================================================== *)
(** * auth.py and the routers that call the cart and order functions      *)
(* ===================================================================== *)

(** A row of [users], with the columns the modelled code reads. *)
Module User.
Record t := mk {
  id : Z;
  email : string;
  hashed_password : string;
  is_superuser : bool
}.
Definition set_hashed_password (h : string) (u : t) : t :=
  mk (id u) (email u) h (is_superuser u).
End User.

(** [get_current_superuser], given the user [get_current_user] found. *)
Definition get_current_superuser (current_user : User.t) : outcome User.t :=
  if negb (User.is_superuser current_user)
  then Raise (HTTPException 403 "The user doesn't have enough privileges")
  else Return current_user.

(** [routers/cart.py]; [current_user] is the authenticated user. *)
Module routers_cart.

(** [read_my_cart] *)
Definition read_my_cart (be : Backend) (current_user : User.t) : M Cart.t :=
  if User.is_superuser current_user then
    raise (HTTPException 403 "Superusuários não possuem carrinho de compras.")
  else
    db <- get_live;;
    match get_cart_by_user_id db (User.id current_user) with
    | Some cart => ret cart
    | None =>
        let cart := Cart.mk (next_key (Cart.id <$> carts db))
                            (User.id current_user) None in
        put_live (set_carts (carts db ++ [cart]) db);;;
        commit be;;;
        refresh_cart cart
    end.

(** [add_product_to_cart] *)
Definition add_product_to_cart (be : Backend) (item : CartItemCreate.t)
    (current_user : User.t) : M CartItem.t :=
  if User.is_superuser current_user then
    raise (HTTPException 403 "Superusuários não podem adicionar itens ao carrinho.")
  else
    db <- get_live;;
    match get_cart_by_user_id db (User.id current_user) with
    | None => raise (HTTPException 404 "Carrinho do usuário não encontrado.")
    | Some cart =>
        match get_product db (CartItemCreate.product_id item) with
        | None => raise (HTTPException 404 "Produto não encontrado.")
        | Some _ =>
            db_cart_item <- add_item_to_cart be (Cart.id cart) item;;
            match db_cart_item with
            | None => raise (HTTPException 400 "Estoque insuficiente.")
            | Some it => ret it
            end
        end
    end.

(** [update_cart_item]; [quantity] is [item_update.quantity].  A
    quantity that is not positive removes the line and answers with the
    exception of status 204. *)
Definition update_cart_item (be : Backend) (product_id quantity : Z)
    (current_user : User.t) : M CartItem.t :=
  if User.is_superuser current_user then
    raise (HTTPException 403 "Superusuários não podem modificar carrinhos.")
  else
    db <- get_live;;
    match get_cart_by_user_id db (User.id current_user) with
    | None => raise (HTTPException 404 "Carrinho do usuário não encontrado.")
    | Some cart =>
        if quantity <=? 0 then
          remove_cart_item be (Cart.id cart) product_id;;;
          raise (HTTPException 204 "No Content")
        else
          updated_item <- update_cart_item_quantity be (Cart.id cart)
                            product_id quantity;;
          match updated_item with
          | None => raise (HTTPException 404
                             "Item não encontrado no carrinho ou estoque insuficiente.")
          | Some it => ret it
          end
    end.

(** [remove_product_from_cart] *)
Definition remove_product_from_cart (be : Backend) (product_id : Z)
    (current_user : User.t) : M unit :=
  if User.is_superuser current_user then
    raise (HTTPException 403 "Superusuários não podem remover itens do carrinho.")
  else
    db <- get_live;;
    match get_cart_by_user_id db (User.id current_user) with
    | None => raise (HTTPException 404 "Carrinho do usuário não encontrado.")
    | Some cart =>
        item_removed <- remove_cart_item be (Cart.id cart) product_id;;
        match item_removed with
        | None => raise (HTTPException 404 "Produto não encontrado no carrinho.")
        | Some _ => ret tt
        end
    end.

(** [apply_coupon]; [code] is [request.code]. *)
Definition apply_coupon (be : Backend) (now : Z) (code : string)
    (current_user : User.t) : M Cart.t :=
  db <- get_live;;
  match get_cart_by_user_id db (User.id current_user) with
  | None => raise (HTTPException 404 "Carrinho não encontrado.")
  | Some cart =>
      match get_valid_coupon_by_code db now code with
      | None => raise (HTTPException 404 "Cupom inválido ou expirado.")
      | Some coupon => apply_coupon_to_cart be cart coupon
      end
  end.

(** [remove_coupon] *)
Definition remove_coupon (be : Backend) (current_user : User.t) : M Cart.t :=
  db <- get_live;;
  match get_cart_by_user_id db (User.id current_user) with
  | None => raise (HTTPException 404 "Carrinho não encontrado.")
  | Some cart =>
      match Cart_coupon db cart with
      | None => ret cart
      | Some _ => remove_coupon_from_cart be cart
      end
  end.

End routers_cart.

(** [routers/orders.py] *)
Module routers_orders.

(** [create_order] *)
Definition create_order (be : Backend) (now : Z) (current_user : User.t)
  : M (Z * Order.t) :=
  if User.is_superuser current_user then
    raise (HTTPException 403 "Superusuários não podem criar pedidos.")
  else
    try_except
      (create_order_from_cart be now (User.id current_user))
      (λ e, match e with
            | OrderCreationError message status_code =>
                raise (HTTPException status_code message)
            | _ => raise e
            end).

(** [read_single_order] *)
Definition read_single_order (order_id : Z) (current_user : User.t)
  : M Order.t :=
  db <- get_live;;
  match get_order_by_id db order_id with
  | None => raise (HTTPException 404 "Pedido não encontrado.")
  | Some order =>
      if negb (User.is_superuser current_user)
         && bool_decide (Order.user_id order ≠ User.id current_user)
      then raise (HTTPException 403 "Não autorizado a visualizar este pedido.")
      else ret order
  end.

Definition allowed_statuses : list string :=
  ["pending_payment"; "paid"; "shipped"; "delivered"; "cancelled"].

(** [update_order_status_admin], behind [get_current_superuser];
    [status] is [status_update.status]. *)
Definition update_order_status_admin (be : Backend) (order_id : Z)
    (status : string) (current_user : User.t) : M Order.t :=
  lift (get_current_superuser current_user);;;
  db <- get_live;;
  match get_order_by_id db order_id with
  | None => raise (HTTPException 404 "Pedido não encontrado.")
  | Some order_in_db =>
      if bool_decide (status ∈ allowed_statuses) then
        modify_live (λ d, set_orders
          (<[order_id := Order.set_status status order_in_db]> (orders d)) d);;;
        commit be;;;
        db <- get_live;;
        match orders db !! order_id with
        | Some reloaded_order => ret reloaded_order
        | None => raise (HTTPException 500
                           "Falha ao recarregar o pedido após a atualização.")
        end
      else raise (HTTPException 400 ("Status '" +:+ status +:+ "' é inválido."))
  end.

End routers_orders.

(** [routers/products.py] *)
Module routers_products.

(** [delete_product_endpoint], behind [get_current_superuser]; the value
    returned is the [message] of the JSON body. *)
Definition delete_product_endpoint (be : Backend) (product_id : Z)
    (current_user : User.t) : M string :=
  lift (get_current_superuser current_user);;;
  db_product <- delete_product be product_id;;
  match db_product with
  | None => raise (HTTPException 404 "Produto não encontrado.")
  | Some _ => ret "Produto deletado com sucesso."
  end.

End routers_products.

(* ===================================================================== *)
(** * crud.py and routers/auth.py: recovering a password                  *)
(* ===================================================================== *)

(** A row of [password_reset_tokens]; times are microseconds, the
    resolution of [datetime]. *)
Module PasswordResetToken.
Record t := mk {
  id : Z;
  email : string;
  token : string;
  expires_at : Z;
  used : bool
}.
Definition set_used (b : bool) (x : t) : t :=
  mk (id x) (email x) (token x) (expires_at x) b.
End PasswordResetToken.

(** The two tables of the password flow and their session, built like
    [Db] and [Session]. *)
Module accounts.

Record Db := mkDb {
  users : list User.t;
  password_reset_tokens : list PasswordResetToken.t
}.

Definition set_users (l : list User.t) (db : Db) : Db :=
  mkDb l (password_reset_tokens db).
Definition set_password_reset_tokens (l : list PasswordResetToken.t) (db : Db) : Db :=
  mkDb (users db) l.

Record Session := mkSession {
  stored : Db;
  live : Db
}.

Definition open_session (db : Db) : Session := mkSession db db.

Definition M (A : Type) : Type := Session → outcome A * Session.

Definition ret {A} (a : A) : M A := λ s, (Return a, s).
Definition raise {A} (e : exn) : M A := λ s, (Raise e, s).
Definition bind {A B} (m : M A) (k : A → M B) : M B :=
  λ s, match m s with
       | (Return a, s') => k a s'
       | (Raise e, s') => (Raise e, s')
       end.

Declare Scope accounts_scope.
Delimit Scope accounts_scope with accounts.
Notation "x <- m ;; k" := (bind m (λ x, k))
  (at level 100, m at next level, right associativity) : accounts_scope.
Notation "m ;;; k" := (bind m (λ _, k))
  (at level 100, right associativity) : accounts_scope.
Local Open Scope accounts_scope.

Definition get_live : M Db := λ s, (Return (live s), s).
Definition modify_live (f : Db → Db) : M unit :=
  λ s, (Return tt, mkSession (stored s) (f (live s))).

Definition Backend : Type := Db → option string.

(** [db.commit()] *)
Definition commit (be : Backend) : M unit :=
  λ s, match be (live s) with
       | None => (Return tt, mkSession (live s) (live s))
       | Some msg => (Raise (DatabaseError msg), s)
       end.

Definition run_request {A} (handler : M A) (db : Db) : outcome A * Db :=
  let '(r, s) := handler (open_session db) in (r, stored s).

(** [timedelta(hours=1)] *)
Definition one_hour : Z := 3600000000.

(** [get_user_by_email] *)
Definition get_user_by_email (db : Db) (email : string) : option User.t :=
  head (filter (λ u, User.email u = email) (users db)).

(** [filter_by(token=token).first()] on [password_reset_tokens]. *)
Definition token_row (db : Db) (token : string) : option PasswordResetToken.t :=
  head (filter (λ t, PasswordResetToken.token t = token) (password_reset_tokens db)).

(** [row.used = True] on the rows of an address, and on the row with a
    given primary key. *)
Definition mark_email (email : string) (t : PasswordResetToken.t)
  : PasswordResetToken.t :=
  if decide (PasswordResetToken.email t = email)
  then PasswordResetToken.set_used true t else t.

Definition mark_id (row t : PasswordResetToken.t) : PasswordResetToken.t :=
  if decide (PasswordResetToken.id t = PasswordResetToken.id row)
  then PasswordResetToken.set_used true t else t.

(** [create_password_reset_token]: the earlier tokens of the address are
    marked used, then the new one is added. *)
Definition create_password_reset_token (be : Backend) (now : Z)
    (email token : string) : M PasswordResetToken.t :=
  let expires_at := now + one_hour in
  modify_live (λ db, set_password_reset_tokens
    (mark_email email <$> password_reset_tokens db) db);;;
  db <- get_live;;
  let reset_token :=
    PasswordResetToken.mk
      (next_key (PasswordResetToken.id <$> password_reset_tokens db))
      email token expires_at false in
  modify_live (set_password_reset_tokens (password_reset_tokens db ++ [reset_token]));;;
  commit be;;;
  (* db.refresh(reset_token) *)
  db <- get_live;;
  match head (filter (λ t, PasswordResetToken.id t = PasswordResetToken.id reset_token)
                (password_reset_tokens db)) with
  | Some t => ret t
  | None => raise (OtherError "Could not refresh instance")
  end.

(** [get_user_by_password_reset_token] *)
Definition get_user_by_password_reset_token (be : Backend) (now : Z)
    (token : string) : M (option User.t) :=
  db <- get_live;;
  match token_row db token with
  | None => ret None
  | Some reset_token =>
      if PasswordResetToken.used reset_token then ret None
      else if PasswordResetToken.expires_at reset_token <? now then ret None
      else
        match get_user_by_email db (PasswordResetToken.email reset_token) with
        | None => ret None
        | Some user =>
            modify_live (λ d, set_password_reset_tokens
              (mark_id reset_token <$> password_reset_tokens d) d);;;
            commit be;;;
            ret (Some user)
        end
  end.

(** [user.hashed_password = hashed] reaches the row with the key of
    [user]. *)
Definition assign_password (hashed : string) (user u : User.t) : User.t :=
  if decide (User.id u = User.id user)
  then User.set_hashed_password hashed u else u.

(** [update_user_password]; [get_password_hash] is [auth.get_password_hash],
    the hashing of [passlib]. *)
Definition update_user_password (get_password_hash : string → string)
    (be : Backend) (user : User.t) (new_password : string) : M User.t :=
  let hashed := get_password_hash new_password in
  modify_live (λ d, set_users (assign_password hashed user <$> users d) d);;;
  commit be;;;
  (* db.refresh(user) *)
  db <- get_live;;
  match head (filter (λ u, User.id u = User.id user) (users db)) with
  | Some u => ret u
  | None => raise (OtherError "Could not refresh instance")
  end.

(** The body of the answer of [forgot_password]. *)
Record ForgotPasswordResponse := mkForgotPasswordResponse {
  detail : string;
  token : option string
}.

Definition forgot_password_detail : string :=
  "If an account with this email exists, a password reset link has been sent.".

(** [forgot_password]; [fresh_token] is what [secrets.token_urlsafe(32)]
    returns. *)
Definition forgot_password (be : Backend) (now : Z) (fresh_token : string)
    (email : string) : M ForgotPasswordResponse :=
  db <- get_live;;
  match get_user_by_email db email with
  | Some user =>
      create_password_reset_token be now (User.email user) fresh_token;;;
      ret (mkForgotPasswordResponse forgot_password_detail (Some fresh_token))
  | None => ret (mkForgotPasswordResponse forgot_password_detail None)
  end.

(** [reset_password]; the value returned is the [message] of the body. *)
Definition reset_password (get_password_hash : string → string) (be : Backend)
    (now : Z) (token new_password : string) : M string :=
  user <- get_user_by_password_reset_token be now token;;
  match user with
  | None => raise (HTTPException 400 "Token de recuperação inválido ou expirado.")
  | Some user =>
      update_user_password get_password_hash be user new_password;;;
      ret "Senha atualizada com sucesso."
  end.

End accounts.

(* ===================================================================== *)
(** * Quantities the further statements speak about                       *)
(* ===================================================================== *)

(** Primary keys of [cart_items] are unique. *)
Definition cart_item_ids_unique (db : Db) : Prop :=
  NoDup (CartItem.id <$> cart_items db).

(** Every cart line asks for at least one unit. *)
Definition quantities_positive (db : Db) : Prop :=
  Forall (λ it, 0 < CartItem.quantity it) (cart_items db).

(** No cart line asks for more than the stock of its product. *)
Definition within_stock (db : Db) : Prop :=
  ∀ it p, it ∈ cart_items db →
          products db !! CartItem.product_id it = Some p →
          CartItem.quantity it ≤ Product.stock p.

(** The state of the carts that the cart operations maintain. *)
Definition carts_well_formed (db : Db) : Prop :=
  cart_item_ids_unique db ∧ one_line_per_product db
  ∧ quantities_positive db ∧ within_stock db.

(** Primary keys of [carts] are unique. *)
Definition cart_ids_unique (db : Db) : Prop := NoDup (Cart.id <$> carts db).

(** The line item that [create_checkout_session] sends for an order
    item. *)
Definition line_item_of (db : Db) (item : OrderItem.t) (li : LineItem) : Prop :=
  li_currency li = "brl"
  ∧ li_name li = match OrderItem_product db item with
                 | Some p => Product.name p
                 | None => "Produto Removido"
                 end
  ∧ int_of_float (OrderItem.price_at_purchase item * 100)%float = Some (li_unit_amount li)
  ∧ li_quantity li = OrderItem.quantity item.

(** Two orders that differ at most in [status] and [payment_intent_id]. *)
Definition same_purchase (o o' : Order.t) : Prop :=
  Order.user_id o' = Order.user_id o
  ∧ Order.created_at o' = Order.created_at o
  ∧ Order.total_price o' = Order.total_price o
  ∧ Order.discount_amount o' = Order.discount_amount o
  ∧ Order.coupon_code_used o' = Order.coupon_code_used o
  ∧ Order.items o' = Order.items o.

(** Two databases that differ at most in the [orders] table. *)
Definition same_outside_orders (db db' : Db) : Prop :=
  products db' = products db ∧ reviews db' = reviews db
  ∧ coupons db' = coupons db ∧ carts db' = carts db
  ∧ cart_items db' = cart_items db.

(* ===================================================================== *)
(** * Scenarios for the routers and the password flow                     *)
(* ===================================================================== *)

(** The customer who owns cart 1, another customer, an administrator. *)
Definition customer : User.t := User.mk 7 "cliente@example.com" "hash-7" false.
Definition stranger : User.t := User.mk 8 "outro@example.com" "hash-8" false.
Definition admin : User.t := User.mk 1 "admin@example.com" "hash-1" true.

(** A catalogue and no cart yet. *)
Definition shop_without_cart : Db :=
  mkDb {[ 1 := sample_product 5 ]} [] [] [] [] ∅.

(** The accounts, without and with a token requested for the customer
    that expires at time 1000. *)
Definition registered : accounts.Db := accounts.mkDb [customer; admin] [].

Definition reset_requested : accounts.Db :=
  accounts.mkDb [customer; admin]
    [PasswordResetToken.mk 1 "cliente@example.com" "tok-1" 1000 false].

(** A server that accepts every commit, and a stand-in for the hashing. *)
Definition accounts_sqlite : accounts.Backend := λ _, None.

Definition toy_hash (password : string) : string := "hashed:" +:+ password.

(** Unfolds the operations of the session monad of [accounts]. *)
Ltac run_accounts :=
  cbv beta iota zeta delta
    [accounts.bind accounts.ret accounts.raise accounts.get_live
     accounts.modify_live accounts.commit].

(* ===================================================================== *)
(** * The stock-reservation loop                                          *)
(* ===================================================================== *)

Lemma set_stock_same p : Product.set_stock (Product.stock p) p = p.
Proof. by destruct p. Qed.

Lemma ordered_quantity_cons k oi ois :
  ordered_quantity k (oi :: ois) =
  (if decide (OrderItem.product_id oi = Some k) then OrderItem.quantity oi else 0)
  + ordered_quantity k ois.
Proof.
  unfold ordered_quantity, Zsum. rewrite filter_cons.
  case_decide; [reflexivity | lia].
Qed.

Lemma reserve_stock_cons item rest acc s :
  reserve_stock (item :: rest) acc s =
  match products (live s) !! CartItem.product_id item with
  | None =>
      (Raise (OrderCreationError
                ("Produto com ID " +:+ str_of_int (CartItem.product_id item)
                 +:+ " não existe mais.") 400), s)
  | Some product =>
      if Product.stock product <? CartItem.quantity item
      then (Raise (OrderCreationError
                     ("Estoque insuficiente para o produto '"
                      +:+ Product.name product +:+ "'.") 400), s)
      else reserve_stock rest
             (acc ++ [OrderItem.mk (Some (CartItem.product_id item))
                                   (CartItem.quantity item)
                                   (Product.price product)])
             (mkSession (stored s)
                (set_products
                   (<[CartItem.product_id item :=
                        Product.set_stock
                          (Product.stock product - CartItem.quantity item)
                          product]> (products (live s))) (live s)))
  end.
Proof.
  cbn [reserve_stock]. unfold bind at 1, get_live at 1.
  destruct (products (live s) !! CartItem.product_id item) as [p|]; [|done].
  destruct (Product.stock p <? CartItem.quantity item); done.
Qed.

Lemma reserve_stock_frame items : ∀ acc s r s',
  reserve_stock items acc s = (r, s') →
  stored s' = stored s
  ∧ ∃ m', live s' = set_products m' (live s).
Proof.
  induction items as [|item rest IH]; intros acc s r s' H.
  - injection H as <- <-. split; [done|]. exists (products (live s)). by destruct (live s).
  - rewrite reserve_stock_cons in H.
    destruct (products (live s) !! CartItem.product_id item) as [p|].
    2:{ injection H as <- <-. split; [done|]. exists (products (live s)). by destruct (live s). }
    destruct (Product.stock p <? CartItem.quantity item).
    { injection H as <- <-. split; [done|]. exists (products (live s)). by destruct (live s). }
    apply IH in H as [H1 [m' H2]]. split; [done|]. exists m'. by rewrite H2.
Qed.

Lemma reserve_stock_raises items : ∀ acc s e s',
  reserve_stock items acc s = (Raise e, s') →
  ∃ msg, e = OrderCreationError msg 400.
Proof.
  induction items as [|item rest IH]; intros acc s e s' H.
  - discriminate.
  - rewrite reserve_stock_cons in H.
    destruct (products (live s) !! CartItem.product_id item) as [p|].
    2:{ injection H as <- <-. eauto. }
    destruct (Product.stock p <? CartItem.quantity item).
    { injection H as <- <-. eauto. }
    by apply IH in H.
Qed.

Lemma reserve_stock_returns items : ∀ acc s ois s',
  reserve_stock items acc s = (Return ois, s') →
  ∃ new,
    ois = acc ++ new
    ∧ Forall2 (recorded (products (live s))) items new
    ∧ ∀ k, products (live s') !! k =
           (λ p, Product.set_stock (Product.stock p - ordered_quantity k new) p)
             <$> products (live s) !! k.
Proof.
  induction items as [|item rest IH]; intros acc s ois s' H.
  - injection H as <- <-. exists []. rewrite app_nil_r. split_and!; [done|constructor|].
    intros k. destruct (products (live s) !! k) as [p|]; [|done]. simpl.
    unfold ordered_quantity; simpl. by rewrite Z.sub_0_r, set_stock_same.
  - rewrite reserve_stock_cons in H.
    destruct (products (live s) !! CartItem.product_id item) as [p|] eqn:Hp; [|done].
    destruct (Product.stock p <? CartItem.quantity item) eqn:Hlt; [done|].
    apply IH in H as (new & -> & Hrec & Hstock). cbn [live products set_products] in *.
    eexists (_ :: new). rewrite <- app_assoc. split_and!; [done| |].
    + constructor.
      * repeat split; [done..|]. eauto.
      * eapply Forall2_impl; [exact Hrec|].
        intros it oi (? & ? & p' & Hp' & ?). repeat split; [done..|].
        destruct (decide (CartItem.product_id item = CartItem.product_id it)) as [He|Hne].
        -- rewrite <- He, lookup_insert_eq in Hp'. injection Hp' as <-.
           exists p. by rewrite <- He.
        -- rewrite lookup_insert_ne in Hp' by done. eauto.
    + intros k. rewrite Hstock, ordered_quantity_cons. cbn [OrderItem.product_id OrderItem.quantity].
      destruct (decide (CartItem.product_id item = k)) as [<-|Hne].
      * rewrite lookup_insert_eq, Hp. simpl. rewrite decide_True by done.
        f_equal. destruct p; unfold Product.set_stock; simpl. f_equal. lia.
      * rewrite lookup_insert_ne by done. rewrite decide_False by congruence.
        done.
Qed.

Lemma reserve_stock_keeps_nonneg items : ∀ acc s r s' k p p',
  reserve_stock items acc s = (r, s') →
  products (live s) !! k = Some p → 0 ≤ Product.stock p →
  products (live s') !! k = Some p' → 0 ≤ Product.stock p'.
Proof.
  induction items as [|item rest IH]; intros acc s r s' k p p' H Hk Hp Hk'.
  - injection H as <- <-. congruence.
  - rewrite reserve_stock_cons in H.
    destruct (products (live s) !! CartItem.product_id item) as [q|] eqn:Hq.
    2:{ injection H as <- <-. congruence. }
    destruct (Product.stock q <? CartItem.quantity item) eqn:Hlt.
    { injection H as <- <-. congruence. }
    apply Z.ltb_ge in Hlt.
    destruct (decide (CartItem.product_id item = k)) as [<-|Hne].
    + eapply (IH _ _ _ _ _ _ _ H); [|  |exact Hk'].
      * cbn [live products set_products]. apply lookup_insert_eq.
      * simpl. lia.
    + eapply (IH _ _ _ _ _ _ _ H); [| exact Hp |exact Hk'].
      cbn [live products set_products]. by rewrite lookup_insert_ne.
Qed.

Lemma reserve_stock_debited_nonneg items : ∀ acc s ois s',
  reserve_stock items acc s = (Return ois, s') →
  ∀ it, it ∈ items →
    ∃ p', products (live s') !! CartItem.product_id it = Some p'
          ∧ 0 ≤ Product.stock p'.
Proof.
  induction items as [|item rest IH]; intros acc s ois s' H it Hin.
  - by apply elem_of_nil in Hin.
  - rewrite reserve_stock_cons in H.
    destruct (products (live s) !! CartItem.product_id item) as [q|] eqn:Hq; [|done].
    destruct (Product.stock q <? CartItem.quantity item) eqn:Hlt; [done|].
    apply Z.ltb_ge in Hlt.
    apply elem_of_cons in Hin as [->|Hin]; [|by eapply IH].
    pose proof (reserve_stock_returns _ _ _ _ _ H) as (new & _ & _ & Hst).
    specialize (Hst (CartItem.product_id item)).
    cbn [live products set_products] in Hst. rewrite lookup_insert_eq in Hst.
    simpl in Hst. eexists; split; [exact Hst|].
    eapply (reserve_stock_keeps_nonneg _ _ _ _ _ _ _ _ H); [| |exact Hst].
    + cbn [live products set_products]. apply lookup_insert_eq.
    + simpl. lia.
Qed.

Lemma total_stock_insert m k p p' :
  m !! k = Some p →
  total_stock (<[k := p']> m) = total_stock m - Product.stock p + Product.stock p'.
Proof.
  intros Hk. unfold total_stock.
  rewrite <- (insert_delete_eq m k p'), map_fold_insert_L.
  - rewrite (map_fold_delete_L _ _ k p m); [lia| |done].
    intros; lia.
  - intros; lia.
  - apply lookup_delete_eq.
Qed.

Lemma reserve_stock_total items : ∀ acc s ois s',
  reserve_stock items acc s = (Return ois, s') →
  total_stock (products (live s'))
  = total_stock (products (live s)) - Zsum (CartItem.quantity <$> items).
Proof.
  induction items as [|item rest IH]; intros acc s ois s' H.
  - injection H as <- <-. unfold Zsum; simpl. lia.
  - rewrite reserve_stock_cons in H.
    destruct (products (live s) !! CartItem.product_id item) as [q|] eqn:Hq; [|done].
    destruct (Product.stock q <? CartItem.quantity item) eqn:Hlt; [done|].
    apply IH in H. rewrite H. cbn [live products set_products].
    rewrite (total_stock_insert _ _ q) by done.
    rewrite fmap_cons. unfold Zsum; simpl. fold (Zsum (CartItem.quantity <$> rest)). lia.
Qed.

Lemma unavailable_after_debit m k p q it :
  m !! k = Some p → 0 ≤ q →
  unavailable m it →
  unavailable (<[k := Product.set_stock (Product.stock p - q) p]> m) it.
Proof.
  unfold unavailable. intros Hk Hq.
  destruct (decide (k = CartItem.product_id it)) as [->|Hne].
  - rewrite lookup_insert_eq, Hk. simpl. lia.
  - by rewrite lookup_insert_ne.
Qed.

Lemma reserve_stock_unavailable items : ∀ acc s r s',
  Forall (λ it, 0 ≤ CartItem.quantity it) items →
  Exists (unavailable (products (live s))) items →
  reserve_stock items acc s = (r, s') →
  ∃ e, r = Raise e.
Proof.
  induction items as [|item rest IH]; intros acc s r s' Hq Hbad H.
  - by apply Exists_nil in Hbad.
  - rewrite reserve_stock_cons in H.
    apply Forall_cons in Hq as [Hq0 Hq].
    destruct (products (live s) !! CartItem.product_id item) as [p|] eqn:Hp.
    2:{ injection H as <- <-. eauto. }
    destruct (Product.stock p <? CartItem.quantity item) eqn:Hlt.
    { injection H as <- <-. eauto. }
    apply Z.ltb_ge in Hlt.
    apply Exists_cons in Hbad as [Hbad|Hbad].
    { unfold unavailable in Hbad. rewrite Hp in Hbad. lia. }
    eapply IH; [exact Hq| |exact H].
    cbn [live products set_products].
    eapply Exists_impl; [exact Hbad|].
    intros it Hit. by apply unavailable_after_debit.
Qed.

(* ===================================================================== *)
(** * Checkout                                                            *)
(* ===================================================================== *)

Lemma open_session_clean s : clean s → open_session (stored s) = s.
Proof. unfold clean, open_session. destruct s as [st lv]; simpl. by intros ->. Qed.

Lemma checkout_transaction_run be now uid cart items total disc code s :
  checkout_transaction be now uid cart items total disc code s =
  match reserve_stock items [] s with
  | (Return ois, s1) =>
      let oid := new_order_id (live s1) in
      let o := Order.mk uid now total disc code "pending_payment" None ois in
      match be (after_checkout cart oid o (live s1)) with
      | None => (Return (oid, o), open_session (after_checkout cart oid o (live s1)))
      | Some msg =>
          (Raise (OrderCreationError
                    ("Ocorreu um erro inesperado: " +:+ msg) 500),
           open_session (stored s1))
      end
  | (Raise e, s1) =>
      (Raise match e with
             | OrderCreationError _ _ => e
             | _ => OrderCreationError
                      ("Ocorreu um erro inesperado: " +:+ str_of_exn e) 500
             end, open_session (stored s1))
  end.
Proof.
  unfold checkout_transaction. run_py.
  destruct (reserve_stock items [] s) as [[ois|e] s1]; [|by destruct e].
  unfold after_checkout.
  cbn [live stored set_orders set_carts set_cart_items orders carts cart_items
       products reviews coupons].
  destruct (be _); [done|].
  unfold open_session.
  cbn [live orders set_cart_items set_carts set_orders].
  by rewrite lookup_insert_eq.
Qed.

Lemma checkout_transaction_raises be now uid cart items total disc code s e s' :
  checkout_transaction be now uid cart items total disc code s = (Raise e, s') →
  (∃ msg c, e = OrderCreationError msg c)
  ∧ s' = open_session (stored s).
Proof.
  rewrite checkout_transaction_run.
  destruct (reserve_stock items [] s) as [[ois|e0] s1] eqn:Hloop;
    pose proof (reserve_stock_frame _ _ _ _ _ Hloop) as [Hst _].
  - cbv zeta. destruct (be _); [|done].
    intros [= <- <-]. rewrite Hst. eauto.
  - apply reserve_stock_raises in Hloop as [msg ->].
    intros [= <- <-]. rewrite Hst. eauto.
Qed.

Lemma create_order_run be now uid s :
  create_order_from_cart be now uid s =
  match get_cart_by_user_id (live s) uid with
  | None => (Raise empty_cart_error, s)
  | Some cart =>
      let items := Cart_items (live s) cart in
      match items with
      | [] => (Raise empty_cart_error, s)
      | _ :: _ =>
          let subtotal := py_sum (line_amounts (live s) items) in
          match Cart_coupon (live s) cart with
          | Some coupon =>
              match get_valid_coupon_by_code (live s) now (Coupon.code coupon) with
              | None => (Raise coupon_invalid_error, s)
              | Some v =>
                  let d := (subtotal * (Coupon.discount_percent v / 100))%float in
                  checkout_transaction be now uid cart items
                    (subtotal - d)%float d (Some (Coupon.code v)) s
              end
          | None =>
              checkout_transaction be now uid cart items
                (subtotal - 0)%float 0%float None s
          end
      end
  end.
Proof.
  unfold create_order_from_cart. unfold bind at 1, get_live at 1.
  destruct (get_cart_by_user_id (live s) uid) as [cart|]; [|done].
  destruct (Cart_items (live s) cart) as [|item0 rest]; [done|].
  cbv zeta. unfold bind at 1.
  destruct (Cart_coupon (live s) cart) as [c|]; [|done].
  by destruct (get_valid_coupon_by_code (live s) now (Coupon.code c)).
Qed.

Lemma create_order_raises be now uid s e s' :
  create_order_from_cart be now uid s = (Raise e, s') →
  (∃ msg c, e = OrderCreationError msg c)
  ∧ stored s' = stored s
  ∧ (clean s → s' = s).
Proof.
  rewrite create_order_run.
  assert (∀ a b c d f, checkout_transaction be now uid a b c d f s = (Raise e, s') →
    (∃ msg c, e = OrderCreationError msg c) ∧ stored s' = stored s ∧ (clean s → s' = s))
    as Htx.
  { intros a b c d f Hfail.
    apply checkout_transaction_raises in Hfail as [He ->].
    split_and!; [done|done|apply open_session_clean]. }
  destruct (get_cart_by_user_id (live s) uid) as [cart|].
  2:{ intros [= <- <-]. unfold empty_cart_error. eauto 6. }
  destruct (Cart_items (live s) cart) as [|item0 rest].
  { intros [= <- <-]. unfold empty_cart_error. eauto 6. }
  cbv zeta.
  destruct (Cart_coupon (live s) cart) as [c|].
  - destruct (get_valid_coupon_by_code (live s) now (Coupon.code c)) as [v|].
    + apply Htx.
    + intros [= <- <-]. unfold coupon_invalid_error. eauto 6.
  - apply Htx.
Qed.

Lemma checkout_transaction_returns be now uid cart items total disc code s oid o s' :
  checkout_transaction be now uid cart items total disc code s = (Return (oid, o), s') →
  ∃ s1,
    reserve_stock items [] s = (Return (Order.items o), s1)
    ∧ o = Order.mk uid now total disc code "pending_payment" None (Order.items o)
    ∧ oid = new_order_id (live s1)
    ∧ s' = open_session (after_checkout cart oid o (live s1))
    ∧ be (after_checkout cart oid o (live s1)) = None.
Proof.
  rewrite checkout_transaction_run.
  destruct (reserve_stock items [] s) as [[ois|e0] s1]; [|done].
  cbv zeta. destruct (be _) eqn:Hbe; [done|].
  intros [= <- <- <-]. exists s1. by split_and!.
Qed.

Lemma create_order_returns be now uid s oid o s' :
  create_order_from_cart be now uid s = (Return (oid, o), s') →
  ∃ cart s1,
    get_cart_by_user_id (live s) uid = Some cart
    ∧ Cart_items (live s) cart ≠ []
    ∧ reserve_stock (Cart_items (live s) cart) [] s = (Return (Order.items o), s1)
    ∧ match Cart_coupon (live s) cart with
      | Some c =>
          ∃ v, get_valid_coupon_by_code (live s) now (Coupon.code c) = Some v
               ∧ Order.discount_amount o =
                 (py_sum (line_amounts (live s) (Cart_items (live s) cart))
                  * (Coupon.discount_percent v / 100))%float
               ∧ Order.coupon_code_used o = Some (Coupon.code v)
      | None => Order.discount_amount o = 0%float ∧ Order.coupon_code_used o = None
      end
    ∧ Order.total_price o =
      (py_sum (line_amounts (live s) (Cart_items (live s) cart))
       - Order.discount_amount o)%float
    ∧ Order.status o = "pending_payment"
    ∧ Order.payment_intent_id o = None
    ∧ Order.user_id o = uid
    ∧ s' = open_session (after_checkout cart oid o (live s1))
    ∧ be (after_checkout cart oid o (live s1)) = None.
Proof.
  rewrite create_order_run.
  destruct (get_cart_by_user_id (live s) uid) as [cart|]; [|done].
  destruct (Cart_items (live s) cart) as [|item0 rest] eqn:Hitems; [done|].
  cbv beta iota zeta. rewrite <- Hitems.
  destruct (Cart_coupon (live s) cart) as [c|] eqn:Hc.
  - destruct (get_valid_coupon_by_code (live s) now (Coupon.code c)) as [v|] eqn:Hv; [|done].
    intros (s1 & Hloop & Ho & _ & -> & Hbe)%checkout_transaction_returns.
    exists cart, s1. rewrite Hc, Ho. cbn [Order.items Order.discount_amount
      Order.coupon_code_used Order.total_price Order.status
      Order.payment_intent_id Order.user_id].
    rewrite <- Ho. split_and!; first [done | congruence | eauto].
  - intros (s1 & Hloop & Ho & _ & -> & Hbe)%checkout_transaction_returns.
    exists cart, s1. rewrite Hc, Ho. cbn [Order.items Order.discount_amount
      Order.coupon_code_used Order.total_price Order.status
      Order.payment_intent_id Order.user_id].
    rewrite <- Ho. split_and!; first [done | congruence].
Qed.

Lemma Forall2_recorded_quantities m items new :
  Forall2 (recorded m) items new →
  OrderItem.quantity <$> new = CartItem.quantity <$> items.
Proof.
  induction 1 as [|it oi items new (_ & Hq & _) _ IH]; [done|].
  rewrite !fmap_cons. by f_equal.
Qed.

(** C1.  A checkout in which some line of the cart cannot be served,
    because its product is gone or has strictly less stock than the line
    asks for, raises an [OrderCreationError] with status 400 and changes
    nothing: the committed database is the one before the call and, in a
    session without pending changes, the whole session comes back as it
    was, so no order exists, no stock was debited and the cart keeps its
    lines and its coupon.  Cart quantities are those of the data model,
    never negative. *)
Theorem checkout_with_unavailable_line_fails be now uid s cart :
  get_cart_by_user_id (live s) uid = Some cart →
  Forall (λ it, 0 ≤ CartItem.quantity it) (Cart_items (live s) cart) →
  Exists (unavailable (products (live s))) (Cart_items (live s) cart) →
  ∃ msg s',
    create_order_from_cart be now uid s = (Raise (OrderCreationError msg 400), s')
    ∧ stored s' = stored s
    ∧ (clean s → s' = s).
Proof.
  intros Hcart Hq Hbad.
  destruct (create_order_from_cart be now uid s) as [[[oid o]|e] s'] eqn:Hrun.
  - apply create_order_returns in Hrun
      as (cart' & s1 & Hcart' & _ & Hloop & _).
    assert (cart' = cart) as -> by congruence.
    by destruct (reserve_stock_unavailable _ _ _ _ _ Hq Hbad Hloop).
  - pose proof (create_order_raises _ _ _ _ _ _ Hrun) as (_ & Hst & Hcl).
    revert Hrun. rewrite create_order_run, Hcart.
    destruct (Cart_items (live s) cart) as [|item0 rest] eqn:Hitems.
    { by apply Exists_nil in Hbad. }
    cbv beta iota zeta. rewrite <- Hitems.
    assert (∀ b c d, checkout_transaction be now uid cart
                       (Cart_items (live s) cart) b c d s = (Raise e, s') →
            ∃ msg s'0, (Raise e : outcome (Z * Order.t), s')
                       = (Raise (OrderCreationError msg 400), s'0)
                       ∧ stored s'0 = stored s ∧ (clean s → s'0 = s)) as Htx.
    { intros b c d. rewrite checkout_transaction_run.
      destruct (reserve_stock (Cart_items (live s) cart) [] s) as [[ois|e0] s1] eqn:Hloop.
      - rewrite Hitems in Hloop.
        by destruct (reserve_stock_unavailable _ _ _ _ _ Hq Hbad Hloop).
      - apply reserve_stock_raises in Hloop as [msg ->].
        intros [= <- <-]. eexists _, _. split_and!; [reflexivity|exact Hst|exact Hcl]. }
    destruct (Cart_coupon (live s) cart) as [c|].
    + destruct (get_valid_coupon_by_code (live s) now (Coupon.code c)) as [v|].
      * apply Htx.
      * intros [= <- <-]. unfold coupon_invalid_error.
        eexists _, _. split_and!; [reflexivity|exact Hst|exact Hcl].
    + apply Htx.
Qed.

Lemma products_after_checkout cart oid o db1 :
  products (after_checkout cart oid o db1) = products db1.
Proof. done. Qed.

Lemma orders_after_checkout cart oid o db1 :
  orders (after_checkout cart oid o db1) = <[oid := o]> (orders db1).
Proof. done. Qed.

(** C2.  After a successful checkout the stock of every product is its
    stock before the call minus the quantities of the order items that
    reference it, so the total stock removed is the sum of the order-item
    quantities.  Every product referenced by an order item ends with a
    stock that is not negative, because each debit follows the check
    [stock >= quantity]; a catalogue without negative stock stays so.
    The order is stored under the key returned. *)
Theorem successful_checkout_debits_stock be now uid s oid o s' :
  create_order_from_cart be now uid s = (Return (oid, o), s') →
  (∀ k, products (stored s') !! k =
        (λ p, Product.set_stock
                (Product.stock p - ordered_quantity k (Order.items o)) p)
          <$> products (live s) !! k)
  ∧ total_stock (products (stored s'))
    = total_stock (products (live s)) - Zsum (OrderItem.quantity <$> Order.items o)
  ∧ (∀ oi, oi ∈ Order.items o →
       ∃ k p', OrderItem.product_id oi = Some k
               ∧ products (stored s') !! k = Some p'
               ∧ 0 ≤ Product.stock p')
  ∧ (stock_nonneg (products (live s)) → stock_nonneg (products (stored s')))
  ∧ orders (stored s') !! oid = Some o.
Proof.
  intros (cart & s1 & Hcart & _ & Hloop & _ & _ & _ & _ & _ & -> & _)%create_order_returns.
  cbn [stored open_session]. rewrite products_after_checkout, orders_after_checkout.
  pose proof (reserve_stock_returns _ _ _ _ _ Hloop) as (new & Hnew & Hrec & Hst).
  rewrite app_nil_l in Hnew. subst new.
  split_and!.
  - exact Hst.
  - rewrite (reserve_stock_total _ _ _ _ _ Hloop).
    by rewrite (Forall2_recorded_quantities _ _ _ Hrec).
  - intros oi Hoi.
    apply list_elem_of_lookup in Hoi as [i Hi].
    destruct (Forall2_lookup_r _ _ _ _ _ Hrec Hi) as (it & Hit & Hpid & _).
    destruct (reserve_stock_debited_nonneg _ _ _ _ _ Hloop it) as (p' & Hp' & Hge).
    { apply list_elem_of_lookup. eauto. }
    eauto.
  - intros Hnn k p' Hk'. pose proof (Hst k) as Hk. rewrite Hk' in Hk.
    destruct (products (live s) !! k) as [p|] eqn:Hp; [|done].
    eapply (reserve_stock_keeps_nonneg _ _ _ _ _ _ _ _ Hloop Hp); [by eapply Hnn|done].
  - apply lookup_insert_eq.
Qed.

(* ===================================================================== *)
(** * Coupons and totals                                                  *)
(* ===================================================================== *)

Lemma omap_mapM {A B} (f : A → option B) l ys :
  mapM f l = Some ys → omap f l = ys.
Proof.
  revert ys. induction l as [|x l IH]; intros ys; simpl.
  - by intros [= <-].
  - destruct (f x) as [y|]; simpl; [|done].
    destruct (mapM f l) as [ys'|]; simpl; [|done].
    intros [= <-]. f_equal. by apply IH.
Qed.

Lemma recorded_line_prices db items new :
  Forall2 (recorded (products db)) items new →
  is_Some (mapM (line_price db) items).
Proof.
  induction 1 as [|it oi items new (_ & _ & p & Hp & _) _ [ys IH]]; simpl.
  - by eexists.
  - assert (is_Some (line_price db it)) as [y ->]
      by (unfold line_price; rewrite Hp; by eexists).
    simpl. rewrite IH. simpl. by eexists.
Qed.

Lemma line_prices_amounts db items amounts :
  mapM (line_price db) items = Some amounts →
  Forall2 (line_amount db) items amounts.
Proof.
  intros H%mapM_Some. eapply Forall2_impl; [exact H|].
  intros it a. unfold line_price, line_amount.
  intros (p & Hp & ->)%fmap_Some. eauto.
Qed.

Lemma py_sum_sums_to xs : sums_to xs (py_sum xs).
Proof.
  unfold py_sum. induction xs as [|x xs IH] using rev_ind; [constructor|].
  rewrite fold_left_app. by constructor.
Qed.

Lemma sums_to_nil_inv t : sums_to [] t → t = 0%float.
Proof.
  intros H. remember [] as l eqn:Hl. destruct H as [|xs s x _]; [done|].
  by destruct xs.
Qed.

Lemma sums_to_snoc_inv xs x t :
  sums_to (xs ++ [x]) t → ∃ s, sums_to xs s ∧ t = (s + x)%float.
Proof.
  intros H. remember (xs ++ [x]) as l eqn:Hl. destruct H as [|ys s y Hs].
  - by destruct xs.
  - apply app_inj_tail in Hl as [<- <-]. eauto.
Qed.

Lemma sums_to_unique xs : ∀ t t', sums_to xs t → sums_to xs t' → t = t'.
Proof.
  induction xs as [|x xs IH] using rev_ind; intros t t' H H'.
  - apply sums_to_nil_inv in H, H'. congruence.
  - apply sums_to_snoc_inv in H as (s & Hs & ->).
    apply sums_to_snoc_inv in H' as (s' & Hs' & ->).
    by rewrite (IH _ _ Hs Hs').
Qed.

Lemma NoDup_fmap_elem_inj {A B} `{EqDecision B} (f : A → B) l x y :
  NoDup (f <$> l) → x ∈ l → y ∈ l → f x = f y → x = y.
Proof.
  induction l as [|a l IH]; intros Hnd Hx Hy Hf.
  - by apply elem_of_nil in Hx.
  - rewrite fmap_cons in Hnd. apply NoDup_cons in Hnd as [Ha Hnd].
    apply elem_of_cons in Hx as [->|Hx]; apply elem_of_cons in Hy as [->|Hy].
    + done.
    + destruct Ha. rewrite Hf. by apply list_elem_of_fmap_2.
    + destruct Ha. rewrite <- Hf. by apply list_elem_of_fmap_2.
    + by apply IH.
Qed.

Lemma head_filter_Some {A} (P : A → Prop) `{∀ x, Decision (P x)} l x :
  head (filter P l) = Some x → x ∈ l ∧ P x.
Proof.
  intros Hh. apply head_Some_elem_of in Hh. by apply list_elem_of_filter in Hh as [? ?].
Qed.

Lemma head_filter_None {A} (P : A → Prop) `{∀ x, Decision (P x)} l :
  head (filter P l) = None ↔ ∀ x, x ∈ l → ¬ P x.
Proof.
  rewrite head_None. split.
  - intros Hnil x Hx HP. assert (x ∈ filter P l) as Hin by by apply list_elem_of_filter.
    rewrite Hnil in Hin. by apply elem_of_nil in Hin.
  - intros Hall. destruct (filter P l) as [|x l'] eqn:Hf; [done|].
    assert (x ∈ filter P l) as [HP Hx]%list_elem_of_filter by (rewrite Hf; left).
    by destruct (Hall x).
Qed.

Lemma not_expired_spec now c :
  not_expired now c = true ↔
  Coupon.expires_at c = None ∨ ∃ t, Coupon.expires_at c = Some t ∧ now < t.
Proof.
  unfold not_expired. destruct (Coupon.expires_at c) as [t|].
  - rewrite Z.ltb_lt. split; [eauto|]. intros [|(t' & [= <-] & ?)]; done.
  - split; [eauto|done].
Qed.

Lemma get_valid_coupon_by_code_Some db now code v :
  get_valid_coupon_by_code db now code = Some v →
  v ∈ coupons db ∧ coupon_valid now code v.
Proof.
  unfold get_valid_coupon_by_code.
  intros [Hin Hexp]%head_filter_Some.
  apply list_elem_of_filter in Hin as [Hact Hin].
  apply list_elem_of_filter in Hin as [Hcode Hin].
  split; [done|]. split_and!; [done..|]. by apply not_expired_spec.
Qed.

Lemma get_valid_coupon_by_code_None db now code :
  get_valid_coupon_by_code db now code = None ↔
  ∀ c, c ∈ coupons db → ¬ coupon_valid now code c.
Proof.
  unfold get_valid_coupon_by_code. rewrite head_filter_None. split.
  - intros Hnone c Hc (Hcode & Hact & Hexp). apply (Hnone c).
    + apply list_elem_of_filter. split; [done|]. by apply list_elem_of_filter.
    + by apply not_expired_spec.
  - intros Hall c Hin Hexp.
    apply list_elem_of_filter in Hin as [Hact Hin].
    apply list_elem_of_filter in Hin as [Hcode Hin].
    apply (Hall c Hin). split_and!; [done..|]. by apply not_expired_spec.
Qed.

Lemma Cart_coupon_elem db cart c :
  Cart_coupon db cart = Some c → c ∈ coupons db.
Proof.
  unfold Cart_coupon. destruct (Cart.coupon_id cart); [|done].
  by intros [? _]%head_filter_Some.
Qed.

(** C5.  The order produced by a successful checkout has its totals
    computed from the cart as it is at checkout.  The cart is not empty
    and every line has a product; the amount of a line is the current
    price of its product times its quantity; the subtotal is the sum of
    the amounts of all the lines; the discount is
    [subtotal * (discount_percent / 100)] for the attached coupon when
    there is one (it is the coupon the validity query returns, codes being
    unique) and [0.0] otherwise; and
    [total_price = subtotal - discount_amount].  In particular the coupon
    PEDIDO20 of 20 percent on a subtotal of 200 gives [total_price] 160.0,
    [discount_amount] 40.0 and [coupon_code_used] "PEDIDO20", in binary64
    arithmetic. *)
Theorem order_totals be now uid s oid o s' :
  create_order_from_cart be now uid s = (Return (oid, o), s') →
  ∃ cart amounts subtotal,
    get_cart_by_user_id (live s) uid = Some cart
    ∧ Cart_items (live s) cart ≠ []
    ∧ Forall2 (line_amount (live s)) (Cart_items (live s) cart) amounts
    ∧ sums_to amounts subtotal
    ∧ match Cart_coupon (live s) cart with
      | Some c =>
          ∃ v, get_valid_coupon_by_code (live s) now (Coupon.code c) = Some v
               ∧ (coupon_codes_unique (live s) → v = c)
               ∧ Order.discount_amount o =
                 (subtotal * (Coupon.discount_percent v / 100))%float
               ∧ Order.coupon_code_used o = Some (Coupon.code c)
      | None => Order.discount_amount o = 0%float ∧ Order.coupon_code_used o = None
      end
    ∧ Order.total_price o = (subtotal - Order.discount_amount o)%float
    ∧ (∀ c, Cart_coupon (live s) cart = Some c →
            coupon_codes_unique (live s) →
            Coupon.code c = "PEDIDO20" →
            Coupon.discount_percent c = 20%float →
            subtotal = 200%float →
            Order.total_price o = 160%float
            ∧ Order.discount_amount o = 40%float
            ∧ Order.coupon_code_used o = Some "PEDIDO20").
Proof.
  intros (cart & s1 & Hcart & Hne & Hloop & Hdisc & Htotal & _)%create_order_returns.
  pose proof (reserve_stock_returns _ _ _ _ _ Hloop) as (new & _ & Hrec & _).
  destruct (recorded_line_prices _ _ _ Hrec) as [amounts Hamounts].
  exists cart, amounts, (py_sum amounts). unfold line_amounts in *.
  rewrite (omap_mapM _ _ _ Hamounts) in Hdisc, Htotal.
  assert (∀ c v, Cart_coupon (live s) cart = Some c →
                 get_valid_coupon_by_code (live s) now (Coupon.code c) = Some v →
                 Coupon.code v = Coupon.code c
                 ∧ (coupon_codes_unique (live s) → v = c)) as Hsame.
  { intros c v Hc Hv.
    pose proof (get_valid_coupon_by_code_Some _ _ _ _ Hv) as (Hin & Hvc & _).
    split; [done|]. intros Huniq.
    eapply (NoDup_fmap_elem_inj Coupon.code); [exact Huniq|done| |done].
    by eapply Cart_coupon_elem. }
  split_and!; [done|done|by apply line_prices_amounts|apply py_sum_sums_to| |done|].
  - destruct (Cart_coupon (live s) cart) as [c|] eqn:Hc; [|done].
    destruct Hdisc as (v & Hv & Hd & Hcode). exists v.
    destruct (Hsame c v eq_refl Hv) as [Hvc Hvu].
    split_and!; [done..|congruence].
  - intros c Hc Huniq Hcode Hpct Hsum. rewrite Hc in Hdisc.
    destruct Hdisc as (v & Hv & Hd & Hused).
    destruct (Hsame c v Hc Hv) as [_ Hvu]. rewrite (Hvu Huniq) in *.
    rewrite Htotal, Hd, Hused, Hsum, Hpct, Hcode. by split_and!.
Qed.

(** C4.  A checkout of a cart that holds at least one
    line and whose attached coupon is no longer valid (deactivated, or
    expiring at or before [now]) raises the coupon-invalid error and
    returns the session unchanged, cart and stocks included; coupon codes
    are unique.  The validity test is that of the coupon query: it
    returns a coupon only if the code matches, [is_active] is true and
    [expires_at] is null or strictly after [now], and it returns one
    whenever such a coupon exists. *)
Theorem checkout_with_invalid_coupon_fails :
  (∀ be now uid s cart c,
     get_cart_by_user_id (live s) uid = Some cart →
     Cart_items (live s) cart ≠ [] →
     Cart_coupon (live s) cart = Some c →
     coupon_codes_unique (live s) →
     (Coupon.is_active c = false ∨ ∃ t, Coupon.expires_at c = Some t ∧ t ≤ now) →
     create_order_from_cart be now uid s = (Raise coupon_invalid_error, s))
  ∧ (∀ db now code,
       (∀ v, get_valid_coupon_by_code db now code = Some v →
             v ∈ coupons db ∧ coupon_valid now code v)
       ∧ (get_valid_coupon_by_code db now code = None ↔
          ∀ c, c ∈ coupons db → ¬ coupon_valid now code c)).
Proof.
  split.
  - intros be now uid s cart c Hcart Hitems Hc Huniq Hbad.
    rewrite create_order_run, Hcart.
    destruct (Cart_items (live s) cart) as [|item0 rest]; [done|].
    cbv beta iota zeta. rewrite Hc.
    destruct (get_valid_coupon_by_code (live s) now (Coupon.code c)) as [v|] eqn:Hv; [|done].
    exfalso.
    apply get_valid_coupon_by_code_Some in Hv as (Hin & Hcode & Hact & Hexp).
    assert (v = c) as ->.
    { eapply (NoDup_fmap_elem_inj Coupon.code); [exact Huniq|done| |done].
      by eapply Cart_coupon_elem. }
    destruct Hbad as [Hoff|(t & Ht & Hle)]; [congruence|].
    destruct Hexp as [Hnone|(t' & Ht' & Hlt)]; [congruence|].
    assert (t' = t) by congruence. lia.
  - intros db now code. split.
    + apply get_valid_coupon_by_code_Some.
    + apply get_valid_coupon_by_code_None.
Qed.

(* ===================================================================== *)
(** * Adding to the cart                                                  *)
(* ===================================================================== *)

Lemma add_item_to_cart_run be cart_id item s :
  add_item_to_cart be cart_id item s =
  match get_product (live s) (CartItemCreate.product_id item) with
  | None => (Return None, s)
  | Some product =>
      let line := cart_line (live s) cart_id (CartItemCreate.product_id item) in
      let requested :=
        match line with Some it => CartItem.quantity it | None => 0 end
        + CartItemCreate.quantity item in
      if Product.stock product <? requested then (Return None, s)
      else
        let row :=
          match line with
          | Some it => CartItem.set_quantity requested it
          | None => CartItem.mk (new_cart_item_id (live s)) cart_id
                      (CartItemCreate.product_id item) (CartItemCreate.quantity item)
          end in
        let db' :=
          match line with
          | Some it => update_cart_item it (CartItem.set_quantity requested) (live s)
          | None => set_cart_items (cart_items (live s) ++ [row]) (live s)
          end in
        match be db' with
        | None => (Return (Some row), open_session db')
        | Some msg => (Raise (DatabaseError msg), mkSession (stored s) db')
        end
  end.
Proof.
  unfold add_item_to_cart. run_py.
  destruct (get_product (live s) (CartItemCreate.product_id item)) as [p|]; [|done].
  destruct (cart_line (live s) cart_id (CartItemCreate.product_id item)) as [it|].
  - destruct (Product.stock p <? _); [done|]. cbn [live stored]. by destruct (be _).
  - destruct (Product.stock p <? _); [done|]. cbn [live stored]. by destruct (be _).
Qed.

Lemma update_cart_item_keys row q db :
  line_key <$> cart_items (update_cart_item row (CartItem.set_quantity q) db)
  = line_key <$> cart_items db.
Proof.
  unfold update_cart_item. cbn [cart_items set_cart_items].
  rewrite <- list_fmap_compose. apply list_fmap_ext.
  intros i x _. simpl. by case_decide.
Qed.

Lemma cart_line_update_cart_item db cid pid it q :
  cart_line db cid pid = Some it →
  cart_line (update_cart_item it (CartItem.set_quantity q) db) cid pid
  = Some (CartItem.set_quantity q it).
Proof.
  unfold cart_line, update_cart_item. cbn [cart_items set_cart_items].
  induction (cart_items db) as [|x l IH]; [done|].
  rewrite fmap_cons, !filter_cons.
  destruct (decide (CartItem.cart_id x = cid ∧ CartItem.product_id x = pid)) as [Hx|Hx].
  - simpl. intros [= ->].
    destruct (decide (CartItem.id it = CartItem.id it)) as [_|]; [|done].
    destruct it; simpl in *. by rewrite decide_True.
  - intros Hit. specialize (IH Hit).
    destruct (decide (CartItem.id x = CartItem.id it)) as [_|_].
    + destruct x; simpl in *. by rewrite decide_False.
    + by rewrite decide_False.
Qed.

Lemma cart_line_None_key db cid pid :
  cart_line db cid pid = None → (cid, pid) ∉ line_key <$> cart_items db.
Proof.
  unfold cart_line. rewrite head_filter_None.
  intros Hnone (x & [= Hc Hp] & Hx)%list_elem_of_fmap.
  by apply (Hnone x Hx).
Qed.

(** C6.  [add_item_to_cart] merges into the existing line: when the cart
    already has a line for the product and the stock covers the merged
    quantity, that line comes back with the quantities added and no line
    is added or removed.  Whatever the outcome, a table with at most one
    line per product and cart keeps that property.  When the merged
    quantity exceeds the stock the function returns [None], raises
    nothing and leaves the session unchanged. *)
Theorem add_item_merges_or_signals be cart_id item s :
  (∀ it p,
     cart_line (live s) cart_id (CartItemCreate.product_id item) = Some it →
     get_product (live s) (CartItemCreate.product_id item) = Some p →
     CartItem.quantity it + CartItemCreate.quantity item ≤ Product.stock p →
     let merged :=
       CartItem.set_quantity (CartItem.quantity it + CartItemCreate.quantity item) it in
     let db' := update_cart_item it
                  (CartItem.set_quantity
                     (CartItem.quantity it + CartItemCreate.quantity item)) (live s) in
     be db' = None →
     add_item_to_cart be cart_id item s = (Return (Some merged), open_session db')
     ∧ cart_line db' cart_id (CartItemCreate.product_id item) = Some merged
     ∧ line_key <$> cart_items db' = line_key <$> cart_items (live s))
  ∧ (∀ r s',
       add_item_to_cart be cart_id item s = (r, s') →
       one_line_per_product (live s) → one_line_per_product (live s'))
  ∧ (∀ p,
       get_product (live s) (CartItemCreate.product_id item) = Some p →
       Product.stock p <
         match cart_line (live s) cart_id (CartItemCreate.product_id item) with
         | Some it => CartItem.quantity it
         | None => 0
         end + CartItemCreate.quantity item →
       add_item_to_cart be cart_id item s = (Return None, s)).
Proof.
  split_and!.
  - intros it p Hline Hp Hstock merged db' Hbe.
    rewrite add_item_to_cart_run, Hp, Hline. cbv zeta.
    rewrite (proj2 (Z.ltb_ge _ _)) by lia.
    fold db'. rewrite Hbe. split_and!; [done| |].
    + by apply cart_line_update_cart_item.
    + apply update_cart_item_keys.
  - intros r s'. rewrite add_item_to_cart_run. unfold one_line_per_product.
    fold line_key.
    destruct (get_product (live s) (CartItemCreate.product_id item)) as [p|].
    2:{ by intros [= <- <-]. }
    cbv zeta.
    destruct (Product.stock p <? _).
    { by intros [= <- <-]. }
    destruct (cart_line (live s) cart_id (CartItemCreate.product_id item)) as [it|] eqn:Hline.
    + destruct (be _); intros [= <- <-]; cbn [live open_session];
        by rewrite update_cart_item_keys.
    + assert (NoDup (line_key <$> cart_items (live s)) →
              NoDup (line_key <$> cart_items (live s) ++
                       [CartItem.mk (new_cart_item_id (live s)) cart_id
                          (CartItemCreate.product_id item)
                          (CartItemCreate.quantity item)])) as Hnd.
      { intros Hnd. rewrite fmap_app. apply NoDup_app. split_and!; [done| |].
        - intros k Hk [->|[]%elem_of_nil]%elem_of_cons.
          by apply cart_line_None_key in Hline.
        - apply NoDup_singleton. }
      destruct (be _); intros [= <- <-]; cbn [live open_session cart_items set_cart_items];
        exact Hnd.
  - intros p Hp Hlt. rewrite add_item_to_cart_run, Hp. cbv zeta.
    by rewrite (proj2 (Z.ltb_lt _ _)) by lia.
Qed.

(* ===================================================================== *)
(** * Deleting a product                                                  *)
(* ===================================================================== *)

Lemma delete_product_run be k s :
  delete_product be k s =
  match products (live s) !! k with
  | Some p =>
      match be (without_product k (live s)) with
      | None => (Return (Some p), open_session (without_product k (live s)))
      | Some msg => (Raise (DatabaseError msg),
                     mkSession (stored s) (without_product k (live s)))
      end
  | None => (Return None, s)
  end.
Proof.
  unfold delete_product, session_delete_product, get_product. run_py.
  destruct (products (live s) !! k) as [p|]; [|done].
  cbn [live stored]. fold (without_product k (live s)).
  by destruct (be _).
Qed.


(* ===================================================================== *)
(** * The payment webhook                                                 *)
(* ===================================================================== *)

Lemma stripe_webhook_run be ev s :
  stripe_webhook be (Verified ev) s =
  if decide (type ev = "checkout.session.completed") then
    let session := data_object ev in
    match metadata session !! "order_id" with
    | None => (Return ack_ignored, s)
    | Some str =>
        if truthy (Some str) then
          match int_of_str str with
          | None => (Raise webhook_retry_error, s)
          | Some k =>
              match orders (live s) !! k with
              | None => (Return ack_success, s)
              | Some o =>
                  if bool_decide (Order.status o ≠ "paid")
                     && bool_decide (payment_status session = Some "paid")
                  then
                    let db' := set_orders (<[k := mark_paid session o]> (orders (live s)))
                                 (live s) in
                    match be db' with
                    | None => (Return ack_success, open_session db')
                    | Some msg => (Raise webhook_retry_error, mkSession (stored s) db')
                    end
                  else (Return ack_success, s)
              end
          end
        else (Return ack_ignored, s)
    end
  else (Return ack_success, s).
Proof.
  unfold stripe_webhook. case_decide; [|done]. cbv zeta.
  destruct (metadata (data_object ev) !! "order_id") as [str|]; [|done].
  destruct (truthy (Some str)) eqn:Htr; [|done].
  cbn [negb]. run_py. unfold get_order_by_id, default. cbn [from_option id].
  destruct (int_of_str str) as [k|]; [|done].
  destruct (orders (live s) !! k) as [o|]; [|done].
  destruct (_ && _); [|done].
  cbn [live stored]. unfold mark_paid. by destruct (be _).
Qed.

Lemma int_of_str_truthy str k : int_of_str str = Some k → truthy (Some str) = true.
Proof. by destruct str. Qed.

(** What one delivery does to the database: nothing, or one order that
    was not [paid] becomes [paid]. *)
Lemma webhook_effect be constructed db r db' :
  run_request (stripe_webhook be constructed) db = (r, db') →
  db' = db
  ∨ ∃ ev k o,
      constructed = Verified ev
      ∧ type ev = "checkout.session.completed"
      ∧ event_order_id ev = Some k
      ∧ orders db !! k = Some o
      ∧ Order.status o ≠ "paid"
      ∧ payment_status (data_object ev) = Some "paid"
      ∧ be (paid_by ev k o db) = None
      ∧ r = Return ack_success
      ∧ db' = paid_by ev k o db.
Proof.
  unfold run_request.
  destruct constructed as [| |ev]; [by intros [= <- <-]; left..|].
  rewrite stripe_webhook_run. unfold event_order_id. cbn [live stored open_session].
  case_decide as Hty; [|by intros [= <- <-]; left]. cbv zeta.
  destruct (metadata (data_object ev) !! "order_id") as [str|] eqn:Hmeta;
    [|by intros [= <- <-]; left].
  destruct (truthy (Some str)); [|by intros [= <- <-]; left].
  destruct (int_of_str str) as [k|] eqn:Hint; [|by intros [= <- <-]; left].
  destruct (orders db !! k) as [o|] eqn:Ho; [|by intros [= <- <-]; left].
  destruct (bool_decide (Order.status o ≠ "paid")) eqn:Hst;
    [apply bool_decide_eq_true in Hst|by intros [= <- <-]; left].
  destruct (bool_decide (payment_status (data_object ev) = Some "paid")) eqn:Hps;
    [apply bool_decide_eq_true in Hps|by intros [= <- <-]; left].
  cbn [andb]. fold (paid_by ev k o db).
  destruct (be (paid_by ev k o db)) as [msg|] eqn:Hbe; [by intros [= <- <-]; left|].
  intros [= <- <-]. right. exists ev, k, o. rewrite Hmeta. simpl. by split_and!.
Qed.

Lemma webhook_known_order be ev k o db :
  type ev = "checkout.session.completed" →
  event_order_id ev = Some k →
  orders db !! k = Some o →
  run_request (stripe_webhook be (Verified ev)) db =
  if bool_decide (Order.status o ≠ "paid")
     && bool_decide (payment_status (data_object ev) = Some "paid")
  then match be (paid_by ev k o db) with
       | None => (Return ack_success, paid_by ev k o db)
       | Some _ => (Raise webhook_retry_error, db)
       end
  else (Return ack_success, db).
Proof.
  unfold event_order_id, run_request. intros Hty Hk Ho.
  rewrite stripe_webhook_run, decide_True by done. cbv zeta.
  destruct (metadata (data_object ev) !! "order_id") as [str|]; [|done].
  simpl in Hk. rewrite (int_of_str_truthy _ _ Hk), Hk.
  cbn [live open_session]. rewrite Ho.
  destruct (_ && _); [|done]. fold (paid_by ev k o db).
  by destruct (be _).
Qed.

(** C3, as the code has it.  One delivery to the webhook changes the
    status of an order only to [paid], only from a status that is not
    [paid] (the guard is [order.status != "paid"], so a pending order
    becomes paid and so does an order in any other status), and only for
    the order named by a verified [checkout.session.completed] event whose
    [payment_status] is [paid].  No order is created or removed.  If the
    order is already [paid] the delivery changes nothing and is
    acknowledged with success; if it is not, the event reports [paid] and
    the commit is accepted, the order becomes [paid].  An event whose
    [payment_status] is not [paid] changes nothing. *)
Theorem webhook_status_transitions be constructed db r db' :
  run_request (stripe_webhook be constructed) db = (r, db') →
  (∀ k o o',
     orders db !! k = Some o → orders db' !! k = Some o' →
     Order.status o' ≠ Order.status o →
     Order.status o' = "paid" ∧ Order.status o ≠ "paid"
     ∧ ∃ ev, constructed = Verified ev
             ∧ type ev = "checkout.session.completed"
             ∧ payment_status (data_object ev) = Some "paid"
             ∧ event_order_id ev = Some k)
  ∧ dom (orders db') = dom (orders db)
  ∧ (∀ ev k o,
       constructed = Verified ev → type ev = "checkout.session.completed" →
       event_order_id ev = Some k → orders db !! k = Some o →
       (Order.status o = "paid" → r = Return ack_success ∧ db' = db)
       ∧ (Order.status o ≠ "paid" →
          payment_status (data_object ev) = Some "paid" →
          be (paid_by ev k o db) = None →
          r = Return ack_success ∧ db' = paid_by ev k o db))
  ∧ (∀ ev, constructed = Verified ev →
       payment_status (data_object ev) ≠ Some "paid" → db' = db).
Proof.
  intros Hrun. pose proof (webhook_effect _ _ _ _ _ Hrun) as Heff. split_and!.
  - intros k o o' Ho Ho' Hne.
    destruct Heff as [->|(ev & k0 & o0 & -> & Hty & Hk0 & Ho0 & Hst & Hps & _ & _ & ->)];
      [congruence|].
    unfold paid_by in Ho'. cbn [orders set_orders] in Ho'.
    destruct (decide (k0 = k)) as [->|Hk].
    + rewrite lookup_insert_eq in Ho'. injection Ho' as <-.
      assert (o0 = o) as -> by congruence. split_and!; [done..|]. by exists ev.
    + rewrite lookup_insert_ne in Ho' by done. congruence.
  - destruct Heff as [->|(ev & k0 & o0 & _ & _ & _ & Ho0 & _ & _ & _ & _ & ->)]; [done|].
    unfold paid_by. cbn [orders set_orders].
    by apply dom_insert_lookup_L.
  - intros ev k o -> Hty Hk Ho.
    rewrite (webhook_known_order _ _ _ _ _ Hty Hk Ho) in Hrun. split.
    + intros Hpaid. rewrite bool_decide_eq_false_2 in Hrun by (intros Hn; by apply Hn).
      by injection Hrun as <- <-.
    + intros Hst Hps Hbe.
      rewrite !bool_decide_eq_true_2, Hbe in Hrun by done.
      by injection Hrun as <- <-.
  - intros ev -> Hps.
    destruct Heff as [->|(ev' & k0 & o0 & [= <-] & _ & _ & _ & _ & Hps' & _)]; done.
Qed.

(** C10.  A verified [checkout.session.completed] event whose [order_id]
    is read by [int] as an identifier that the store can look up and that
    names no stored order is acknowledged with success, and the session
    is left exactly as it was: no order is created or modified, and
    nothing is reported to the provider. *)
Theorem webhook_unknown_order_is_absorbed be ev str k s :
  type ev = "checkout.session.completed" →
  metadata (data_object ev) !! "order_id" = Some str →
  int_of_str str = Some k →
  sql_integer k →
  orders (live s) !! k = None →
  stripe_webhook be (Verified ev) s = (Return ack_success, s).
Proof.
  intros Hty Hmeta Hint _ Hnone.
  rewrite stripe_webhook_run, decide_True by done. cbv zeta.
  by rewrite Hmeta, (int_of_str_truthy _ _ Hint), Hint, Hnone.
Qed.

(* ===================================================================== *)
(** * Opening a checkout session                                          *)
(* ===================================================================== *)

Lemma create_checkout_session_run stripe be order_id s :
  create_checkout_session stripe be order_id s =
  match orders (live s) !! order_id with
  | None => (Raise (HTTPException 404 "Order not found"), s)
  | Some order =>
      if decide (Order.status order = "paid")
      then (Raise (HTTPException 400 "Order has already been paid."), s)
      else
        match build_line_items (live s) (Order.items order) [] with
        | Raise e => (Raise e, s)
        | Return line_items =>
            match stripe line_items (str_of_int order_id) with
            | Raise (StripeError msg user_message) =>
                (Raise (HTTPException 400
                          ("Stripe error: " +:+
                           (if truthy user_message
                            then default msg user_message else msg))), s)
            | Raise e => (Raise (unexpected_error e), s)
            | Return sess =>
                if truthy (url sess) then
                  match payment_intent sess with
                  | PI_id pid =>
                      let db' := with_payment_intent order_id pid order (live s) in
                      match be db' with
                      | None => (Return (default EmptyString (url sess)), open_session db')
                      | Some msg =>
                          (Raise (unexpected_error (DatabaseError msg)),
                           mkSession (stored s) db')
                      end
                  | _ => (Return (default EmptyString (url sess)), s)
                  end
                else (Raise (unexpected_error
                               (HTTPException 500 "Stripe did not return a checkout URL.")), s)
            end
        end
  end.
Proof.
  unfold create_checkout_session, get_order_by_id. run_py.
  destruct (orders (live s) !! order_id) as [o|]; [|done].
  case_decide; [done|].
  destruct (build_line_items (live s) (Order.items o) []) as [li|e]; [|done].
  destruct (stripe li (str_of_int order_id)) as [sess|e]; [|by destruct e].
  destruct (truthy (url sess)); [|done]. cbn [negb].
  destruct (payment_intent sess) as [|pid|]; [done| |done].
  cbn [live stored]. fold (with_payment_intent order_id pid o (live s)).
  by destruct (be _).
Qed.

(** C8, as the code has it.  [create_checkout_session] answers 404 when
    the order does not exist and 400 when its status is [paid], touching
    nothing.  Once Stripe has returned a session with a URL: if the
    session carries no payment identifier that is a string, nothing is
    persisted and the URL is returned; if it carries one and the commit
    is accepted, the identifier is stored on the order and the URL is
    returned; if the commit fails, the operation fails with status 500 and
    the committed database is unchanged. *)
Theorem checkout_session_errors stripe be order_id s :
  (orders (live s) !! order_id = None →
   create_checkout_session stripe be order_id s
   = (Raise (HTTPException 404 "Order not found"), s))
  ∧ (∀ o, orders (live s) !! order_id = Some o → Order.status o = "paid" →
       create_checkout_session stripe be order_id s
       = (Raise (HTTPException 400 "Order has already been paid."), s))
  ∧ (∀ o line_items sess,
       orders (live s) !! order_id = Some o → Order.status o ≠ "paid" →
       build_line_items (live s) (Order.items o) [] = Return line_items →
       stripe line_items (str_of_int order_id) = Return sess →
       truthy (url sess) = true →
       match payment_intent sess with
       | PI_id pid =>
           let db' := with_payment_intent order_id pid o (live s) in
           match be db' with
           | None =>
               create_checkout_session stripe be order_id s
               = (Return (default EmptyString (url sess)), open_session db')
           | Some msg =>
               ∃ s', create_checkout_session stripe be order_id s
                     = (Raise (unexpected_error (DatabaseError msg)), s')
                     ∧ stored s' = stored s
           end
       | _ =>
           create_checkout_session stripe be order_id s
           = (Return (default EmptyString (url sess)), s)
       end).
Proof.
  split_and!.
  - intros Ho. by rewrite create_checkout_session_run, Ho.
  - intros o Ho Hpaid. by rewrite create_checkout_session_run, Ho, decide_True.
  - intros o li sess Ho Hst Hli Hsess Hurl.
    rewrite create_checkout_session_run, Ho, decide_False, Hli, Hsess, Hurl by done.
    destruct (payment_intent sess) as [|pid|]; [done| |done].
    cbv zeta. destruct (be _) as [msg|]; [|done]. by eexists.
Qed.

(* ===================================================================== *)
(** * Float comparisons and the shipping package                          *)
(* ===================================================================== *)

Lemma SFcompare_antisym a b : SFcompare b a = CompOpp <$> SFcompare a b.
Proof.
  destruct a as [sa|sa| |sa ma ea], b as [sb|sb| |sb mb eb]; simpl;
    try done; try (by destruct sa); try (by destruct sb);
    try (by destruct sa, sb).
  destruct sa, sb; simpl; try done.
  - rewrite (Z.compare_antisym ea eb).
    destruct (ea ?= eb)%Z; simpl; try done.
    change (PosDef.Pos.compare_cont Eq mb ma) with (Pos.compare mb ma).
    change (PosDef.Pos.compare_cont Eq ma mb) with (Pos.compare ma mb).
    by rewrite (Pos.compare_antisym ma mb).
  - rewrite (Z.compare_antisym ea eb).
    destruct (ea ?= eb)%Z; simpl; try done.
    change (PosDef.Pos.compare_cont Eq mb ma) with (Pos.compare mb ma).
    change (PosDef.Pos.compare_cont Eq ma mb) with (Pos.compare ma mb).
    by rewrite (Pos.compare_antisym ma mb).
Qed.

Lemma is_nan_false_compare a :
  is_nan a = false → SFcompare (Prim2SF a) (Prim2SF a) = Some Eq.
Proof.
  unfold is_nan. rewrite FloatAxioms.eqb_spec. unfold SFeqb.
  destruct (SFcompare (Prim2SF a) (Prim2SF a)) as [[]|]; done.
Qed.

Lemma leb_refl a : is_nan a = false → (a <=? a)%float = true.
Proof.
  intros Ha. rewrite FloatAxioms.leb_spec. unfold SFleb.
  by rewrite (is_nan_false_compare _ Ha).
Qed.

Lemma SFcompare_None x y :
  SFcompare x y = None → SFcompare x x = None ∨ SFcompare y y = None.
Proof. destruct x, y; simpl; try done; eauto. Qed.

Lemma ltb_false_leb a b :
  is_nan a = false → is_nan b = false →
  (a <? b)%float = false → (b <=? a)%float = true.
Proof.
  intros Ha Hb. rewrite FloatAxioms.ltb_spec, FloatAxioms.leb_spec. unfold SFltb, SFleb.
  rewrite (SFcompare_antisym (Prim2SF a) (Prim2SF b)).
  apply is_nan_false_compare in Ha, Hb.
  destruct (SFcompare (Prim2SF a) (Prim2SF b)) as [c|] eqn:Hc.
  - by destruct c.
  - apply SFcompare_None in Hc as [Hc|Hc]; congruence.
Qed.

(** [max(x, minimum)] is never below the minimum. *)
Lemma py_max2_floor a m :
  is_nan a = false → is_nan m = false → (m <=? py_max2 a m)%float = true.
Proof.
  intros Ha Hm. unfold py_max2. destruct (a <? m)%float eqn:Hlt.
  - by apply leb_refl.
  - by apply ltb_false_leb.
Qed.

Lemma py_max2_cases a m :
  ((a <? m)%float = true ∧ py_max2 a m = m)
  ∨ ((a <? m)%float = false ∧ py_max2 a m = a).
Proof. unfold py_max2. destruct (a <? m)%float; eauto. Qed.

Lemma fold_py_max2_elem xs x : fold_left py_max2 xs x ∈ x :: xs.
Proof.
  revert x. induction xs as [|y xs IH]; intros x; simpl; [left|].
  specialize (IH (py_max2 x y)).
  apply elem_of_cons in IH as [->|IH].
  - destruct (py_max2_cases x y) as [[_ ->]|[_ ->]]; [right; left|left].
  - by do 2 right.
Qed.

Lemma py_max_elem xs m : py_max xs = Some m → m ∈ xs.
Proof.
  destruct xs as [|x xs]; [done|]. intros [= <-]. apply fold_py_max2_elem.
Qed.

Lemma SFle_trans x y z : SFle x y → SFle y z → SFle x z.
Proof.
  unfold SFle.
  destruct x as [sx|sx| |sx mx ex], y as [sy|sy| |sy my ey], z as [sz|sz| |sz mz ez];
    simpl; try done;
    try (by destruct sx); try (by destruct sy); try (by destruct sz);
    try (by destruct sx, sy); try (by destruct sy, sz); try (by destruct sx, sz);
    try (by destruct sx, sy, sz).
  change (PosDef.Pos.compare_cont Eq mx my) with (Pos.compare mx my).
  change (PosDef.Pos.compare_cont Eq my mz) with (Pos.compare my mz).
  change (PosDef.Pos.compare_cont Eq mx mz) with (Pos.compare mx mz).
  destruct sx, sy, sz; try done;
    destruct (Z.compare_spec ex ey), (Z.compare_spec ey ez), (Z.compare_spec ex ez);
    try done; try lia; subst;
    destruct (Pos.compare_spec mx my), (Pos.compare_spec my mz),
      (Pos.compare_spec mx mz); simpl; try done; try lia.
Qed.

Lemma leb_SFle a b : (a <=? b)%float = true ↔ SFle (Prim2SF a) (Prim2SF b).
Proof.
  rewrite FloatAxioms.leb_spec. unfold SFleb, SFle.
  by destruct (SFcompare (Prim2SF a) (Prim2SF b)) as [[]|].
Qed.

Lemma leb_trans a b c :
  (a <=? b)%float = true → (b <=? c)%float = true → (a <=? c)%float = true.
Proof. rewrite !leb_SFle. apply SFle_trans. Qed.

Lemma ltb_leb a b : (a <? b)%float = true → (a <=? b)%float = true.
Proof.
  rewrite FloatAxioms.ltb_spec, FloatAxioms.leb_spec. unfold SFltb, SFleb.
  by destruct (SFcompare (Prim2SF a) (Prim2SF b)) as [[]|].
Qed.

Lemma py_max2_nan a b :
  is_nan a = false → is_nan b = false → is_nan (py_max2 a b) = false.
Proof. unfold py_max2. by destruct (a <? b)%float. Qed.

Lemma py_max2_upper a b :
  is_nan a = false → is_nan b = false →
  (a <=? py_max2 a b)%float = true ∧ (b <=? py_max2 a b)%float = true.
Proof.
  intros Ha Hb. unfold py_max2. destruct (a <? b)%float eqn:Hlt.
  - split; [by apply ltb_leb|by apply leb_refl].
  - split; [by apply leb_refl|by apply ltb_false_leb].
Qed.

Lemma fold_py_max2_upper xs : ∀ x,
  Forall (λ y, is_nan y = false) (x :: xs) →
  ∀ y, y ∈ x :: xs → (y <=? fold_left py_max2 xs x)%float = true.
Proof.
  induction xs as [|z xs IH]; intros x Hnan y Hy.
  - apply list_elem_of_singleton in Hy as ->. simpl.
    apply leb_refl. by inversion Hnan.
  - simpl. inversion Hnan as [|? ? Hx Hrest]; subst.
    inversion Hrest as [|? ? Hz Hxs]; subst.
    destruct (py_max2_upper x z Hx Hz) as [Hxm Hzm].
    assert (Forall (λ y, is_nan y = false) (py_max2 x z :: xs)) as Hnan'.
    { constructor; [by apply py_max2_nan|done]. }
    assert ((py_max2 x z <=? fold_left py_max2 xs (py_max2 x z))%float = true) as Hm.
    { apply IH; [done|by left]. }
    apply elem_of_cons in Hy as [->|Hy]; [by eapply leb_trans|].
    apply elem_of_cons in Hy as [->|Hy]; [by eapply leb_trans|].
    apply IH; [done|by right].
Qed.

Lemma py_max_greatest xs m :
  py_max xs = Some m → Forall (λ y, is_nan y = false) xs → greatest_of xs m.
Proof.
  intros Hm Hnan. split; [by apply py_max_elem|].
  destruct xs as [|x xs]; [done|]. injection Hm as <-.
  by apply fold_py_max2_upper.
Qed.

Lemma py_max2_floored a m : floored_at m a (py_max2 a m).
Proof. unfold floored_at, py_max2. by destruct (a <? m)%float. Qed.

Set Warnings "-inexact-float".
(** C9.  For a non-empty list of cart lines, each with its product, the
    virtual package is built as follows.  The declared value, the weight
    and the height start from the sums, over the lines, of unit price,
    unit weight and unit height times the quantity.  The width and the
    length start from one of the items' own widths and lengths, whatever
    the quantities, and no item is wider or longer (the dimensions being
    numbers).  Each of weight, height, width and length is then replaced
    by its minimum, 0.05 kg, 1 cm, 10 cm and 15 cm, when it is below it,
    and kept otherwise, so that no field that is a number is below its
    minimum. *)
Theorem package_dimensions (first : LoadedItem) (others : list LoadedItem) :
  let items := first :: others in
  let weights := (λ i, (Product.weight_kg (snd i) * item_qty i)%float) <$> items in
  let heights := (λ i, (Product.height_cm (snd i) * item_qty i)%float) <$> items in
  let values := (λ i, (Product.price (snd i) * item_qty i)%float) <$> items in
  let widths := (λ i, Product.width_cm (snd i)) <$> items in
  let lengths := (λ i, Product.length_cm (snd i)) <$> items in
  ∃ package value total_weight total_height final_width final_length,
    _prepare_package_for_api items = Return (Some package, value)
    ∧ sums_to values value
    ∧ sums_to weights total_weight
    ∧ sums_to heights total_height
    ∧ final_width ∈ widths
    ∧ final_length ∈ lengths
    ∧ (Forall (λ w, is_nan w = false) widths → greatest_of widths final_width)
    ∧ (Forall (λ l, is_nan l = false) lengths → greatest_of lengths final_length)
    ∧ floored_at 0.05 total_weight (weight package)
    ∧ floored_at 1 total_height (height package)
    ∧ floored_at 10 final_width (width package)
    ∧ floored_at 15 final_length (length package)
    ∧ (is_nan total_weight = false → (0.05 <=? weight package)%float = true)
    ∧ (is_nan total_height = false → (1 <=? height package)%float = true)
    ∧ (is_nan final_width = false → (10 <=? width package)%float = true)
    ∧ (is_nan final_length = false → (15 <=? length package)%float = true).
Proof.
  intros items weights heights values widths lengths.
  destruct (py_max widths) as [w|] eqn:Hw; [|done].
  destruct (py_max lengths) as [l|] eqn:Hl; [|done].
  exists (mkPackage (py_max2 (py_sum weights) MIN_WEIGHT_KG)
                    (py_max2 (py_sum heights) MIN_HEIGHT_CM)
                    (py_max2 w MIN_WIDTH_CM) (py_max2 l MIN_LENGTH_CM)),
    (py_sum values), (py_sum weights), (py_sum heights), w, l.
  split_and!.
  - unfold _prepare_package_for_api. fold items. cbv zeta.
    fold weights heights values widths lengths. by rewrite Hw, Hl.
  - apply py_sum_sums_to.
  - apply py_sum_sums_to.
  - apply py_sum_sums_to.
  - by apply py_max_elem.
  - by apply py_max_elem.
  - by apply py_max_greatest.
  - by apply py_max_greatest.
  - apply py_max2_floored.
  - apply py_max2_floored.
  - apply py_max2_floored.
  - apply py_max2_floored.
  - intros Hn. by apply py_max2_floor.
  - intros Hn. by apply py_max2_floor.
  - intros Hn. by apply py_max2_floor.
  - intros Hn. by apply py_max2_floor.
Qed.
Set Warnings "inexact-float".

(* ===================================================================== *)
(** * The scenarios, run                                                  *)
(* ===================================================================== *)

(** The builtins on a few inputs. *)
Example int_of_str_samples :
  int_of_str " 12 " = Some 12 ∧ int_of_str "1_000" = Some 1000
  ∧ int_of_str "-7" = Some (-7) ∧ int_of_str "1__0" = None
  ∧ int_of_str "abc" = None ∧ int_of_str EmptyString = None
  ∧ int_of_str (String "028" "1") = None
  ∧ int_of_str "١٢" = Some 12 ∧ int_of_str "-１_０" = Some (-10)
  ∧ int_of_str "　7" = Some 7.
Proof. by vm_compute. Qed.

Example int_of_float_samples :
  int_of_float 1998.5 = Some 1998 ∧ int_of_float (-2.5) = Some (-2)
  ∧ int_of_float nan = None ∧ int_of_float infinity = None.
Proof. by vm_compute. Qed.

(** A parcel smaller than every minimum is quoted at the minimums. *)
Example package_of_a_small_item :
  _prepare_package_for_api
    [(CartItem.mk 1 1 1 1, Product.mk "S" "small" 3 9 0.015625 0.5 5 5)]
  = Return (Some (mkPackage MIN_WEIGHT_KG MIN_HEIGHT_CM MIN_WIDTH_CM MIN_LENGTH_CM),
            3%float).
Proof. reflexivity. Qed.

(** Stock fell to 1 while five units were in the cart: the checkout is
    refused and nothing changes. *)
Lemma checkout_with_unavailable_line_fails_witness :
  ∃ msg s',
    create_order_from_cart sqlite_backend 100 7 (open_session shop_short_stock)
    = (Raise (OrderCreationError msg 400), s')
    ∧ stored s' = shop_short_stock
    ∧ (clean (open_session shop_short_stock) → s' = open_session shop_short_stock).
Proof.
  apply (checkout_with_unavailable_line_fails sqlite_backend 100 7
           (open_session shop_short_stock) (Cart.mk 1 7 None)).
  - reflexivity.
  - repeat constructor. vm_compute. discriminate.
  - constructor. vm_compute. reflexivity.
Defined.

(** Stock 5, two units ordered: the stock is 3 afterwards. *)
Lemma successful_checkout_debits_stock_witness :
  Product.stock <$> products (stored (snd
     (create_order_from_cart sqlite_backend 100 7 (open_session shop_in_stock)))) !! 1
  = Some 3.
Proof.
  destruct (create_order_from_cart sqlite_backend 100 7 (open_session shop_in_stock))
    as [[[oid o]|e] s'] eqn:Hrun; [|by vm_compute in Hrun].
  destruct (successful_checkout_debits_stock _ _ _ _ _ _ _ Hrun) as (Hst & _).
  cbn [snd]. rewrite (Hst 1).
  vm_compute in Hrun. injection Hrun as <- <- <-. reflexivity.
Defined.

(** C3 as stated fails: an order that is [shipped] is set back to [paid]
    by a paid event. *)
Lemma webhook_repays_shipped_order :
  Order.status <$> orders (shop_with_history "shipped") !! 1 = Some "shipped"
  ∧ run_request (stripe_webhook sqlite_backend (Verified (completed_event "1" "paid")))
      (shop_with_history "shipped")
    = (Return ack_success,
       set_orders {[ 1 := Order.set_payment_intent_id (Some "pi_test_123")
                            (past_order "paid") ]}
                  (shop_with_history "shipped")).
Proof. split; vm_compute; reflexivity. Qed.

(** A paid event for a pending order pays it. *)
Lemma webhook_status_transitions_witness :
  run_request (stripe_webhook sqlite_backend (Verified (completed_event "1" "paid")))
    (shop_with_history "pending_payment")
  = (Return ack_success,
     paid_by (completed_event "1" "paid") 1 (past_order "pending_payment")
       (shop_with_history "pending_payment")).
Proof.
  destruct (run_request
              (stripe_webhook sqlite_backend (Verified (completed_event "1" "paid")))
              (shop_with_history "pending_payment")) as [r db'] eqn:Hrun.
  destruct (webhook_status_transitions _ _ _ _ _ Hrun) as (_ & _ & Hknown & _).
  destruct (Hknown (completed_event "1" "paid") 1 (past_order "pending_payment"))
    as [_ Hpay]; [reflexivity..|].
  destruct Hpay as [-> ->]; [vm_compute; discriminate|reflexivity..].
Defined.

(** The [order_id] is read as [int] reads it: the digit one of the Arabic
    script names order 1, which is paid. *)
Example webhook_reads_digits_of_any_script :
  run_request (stripe_webhook sqlite_backend (Verified (completed_event "١" "paid")))
    (shop_with_history "pending_payment")
  = (Return ack_success,
     paid_by (completed_event "١" "paid") 1 (past_order "pending_payment")
       (shop_with_history "pending_payment")).
Proof. vm_compute. reflexivity. Qed.

(** Two units in the cart and a coupon expired since 50, at time 100. *)
Lemma checkout_with_invalid_coupon_fails_witness :
  create_order_from_cart sqlite_backend 100 7 (open_session shop_expired_coupon)
  = (Raise coupon_invalid_error, open_session shop_expired_coupon).
Proof.
  apply (proj1 checkout_with_invalid_coupon_fails sqlite_backend 100 7
           (open_session shop_expired_coupon) (Cart.mk 1 7 (Some 2)) NATAL10).
  - reflexivity.
  - vm_compute. discriminate.
  - reflexivity.
  - vm_compute. repeat constructor. apply not_elem_of_nil.
  - right. exists 50. split; [reflexivity|lia].
Defined.

(** [test_order_creation_with_coupon], with the subtotal of 200 made of
    two lines, one unit at 100.00 and two units at 50.00: 160.0, 40.0,
    "PEDIDO20". *)
Lemma order_totals_witness :
  ∃ oid o s',
    create_order_from_cart sqlite_backend 100 7 (open_session shop_two_lines)
    = (Return (oid, o), s')
    ∧ Order.total_price o = 160%float
    ∧ Order.discount_amount o = 40%float
    ∧ Order.coupon_code_used o = Some "PEDIDO20".
Proof.
  destruct (create_order_from_cart sqlite_backend 100 7 (open_session shop_two_lines))
    as [[[oid o]|e] s'] eqn:Hrun; [|by vm_compute in Hrun].
  exists oid, o, s'. split; [reflexivity|].
  destruct (order_totals _ _ _ _ _ _ _ Hrun)
    as (cart & amounts & subtotal & Hcart & _ & Hamounts & Hsum & _ & _ & Hscenario).
  assert (cart = Cart.mk 1 7 (Some 1)) as -> by (vm_compute in Hcart; congruence).
  apply (Hscenario PEDIDO20); [reflexivity| |reflexivity..|].
  - vm_compute. repeat constructor. apply not_elem_of_nil.
  - change (Cart_items (live (open_session shop_two_lines)) (Cart.mk 1 7 (Some 1)))
      with [CartItem.mk 1 1 1 1; CartItem.mk 2 1 2 2] in Hamounts.
    apply Forall2_cons_inv_l in Hamounts as (a1 & rest & (p1 & Hp1 & ->) & Hrest & ->).
    apply Forall2_cons_inv_l in Hrest as (a2 & rest' & (p2 & Hp2 & ->) & Hnil & ->).
    apply Forall2_nil_inv_l in Hnil as ->.
    vm_compute in Hp1. injection Hp1 as <-.
    vm_compute in Hp2. injection Hp2 as <-.
    eapply sums_to_unique; [exact Hsum|].
    exact (sums_to_snoc [_] _ _ (sums_to_snoc [] _ _ sums_to_nil)).
Defined.

(** Two units in the cart, stock 5: three more merge into a line of five,
    four more are refused. *)
Lemma add_item_merges_or_signals_witness :
  add_item_to_cart sqlite_backend 1 (CartItemCreate.mk 1 3) (open_session shop_in_stock)
  = (Return (Some (CartItem.mk 1 1 1 5)),
     open_session (set_cart_items [CartItem.mk 1 1 1 5] shop_in_stock))
  ∧ add_item_to_cart sqlite_backend 1 (CartItemCreate.mk 1 4) (open_session shop_in_stock)
    = (Return None, open_session shop_in_stock).
Proof.
  destruct (add_item_merges_or_signals sqlite_backend 1 (CartItemCreate.mk 1 3)
              (open_session shop_in_stock)) as (Hmerge & _ & _).
  destruct (add_item_merges_or_signals sqlite_backend 1 (CartItemCreate.mk 1 4)
              (open_session shop_in_stock)) as (_ & _ & Hshort).
  split.
  - destruct (Hmerge (CartItem.mk 1 1 1 2) (sample_product 5)) as (-> & _);
      [reflexivity|reflexivity|vm_compute; discriminate|reflexivity|reflexivity].
  - apply (Hshort (sample_product 5)); [reflexivity|vm_compute; reflexivity].
Defined.



(** C8 as stated fails: Stripe has created the session, the commit of
    the payment identifier fails, and the answer is an error 500, not the
    checkout URL. *)
Lemma checkout_session_commit_failure_is_fatal :
  run_request (create_checkout_session stripe_mock failing_backend 1)
    (shop_with_history "pending_payment")
  = (Raise (HTTPException 500 "An unexpected error occurred: DB commit failed"),
     shop_with_history "pending_payment").
Proof. vm_compute. reflexivity. Qed.

(** The three tests of [create_checkout_session]: unknown order, paid
    order, success. *)
Lemma checkout_session_errors_witness :
  create_checkout_session stripe_mock sqlite_backend 9999
    (open_session (shop_with_history "pending_payment"))
  = (Raise (HTTPException 404 "Order not found"),
     open_session (shop_with_history "pending_payment"))
  ∧ create_checkout_session stripe_mock sqlite_backend 1
      (open_session (shop_with_history "paid"))
    = (Raise (HTTPException 400 "Order has already been paid."),
       open_session (shop_with_history "paid"))
  ∧ create_checkout_session stripe_mock sqlite_backend 1
      (open_session (shop_with_history "pending_payment"))
    = (Return "https://checkout.stripe.com/pay/cs_test_12345",
       open_session (with_payment_intent 1 "pi_test_12345"
                       (past_order "pending_payment")
                       (shop_with_history "pending_payment"))).
Proof.
  split_and!.
  - apply (proj1 (checkout_session_errors _ _ _ _)). reflexivity.
  - apply (proj1 (proj2 (checkout_session_errors _ _ _ _)) (past_order "paid"));
      reflexivity.
  - apply (proj2 (proj2 (checkout_session_errors stripe_mock sqlite_backend 1
                           (open_session (shop_with_history "pending_payment"))))
             (past_order "pending_payment")
             [mkLineItem "brl" "Produto para Cupom" 10000 2]
             (mkStripeSession (Some "https://checkout.stripe.com/pay/cs_test_12345")
                (PI_id "pi_test_12345")));
      [reflexivity|vm_compute; discriminate|vm_compute; reflexivity|reflexivity..].
Defined.

Set Warnings "-inexact-float".
(** Two units of the sample product (0.5 kg, 5 cm high, 20 by 20, at
    100.00) and one of the second (0.25 kg, 2 cm high, 25 wide, 10 long,
    at 50.00): 1.25 kg, 12 cm high, 25 wide, 20 long, value 250.  A
    single item below every minimum: 0.05 kg, 1 cm, 10 cm, 15 cm. *)
Lemma package_dimensions_witness :
  _prepare_package_for_api
    [(CartItem.mk 1 1 1 2, sample_product 5); (CartItem.mk 2 1 2 1, second_product 5)]
  = Return (Some (mkPackage 1.25 12 25 20), 250%float)
  ∧ _prepare_package_for_api
      [(CartItem.mk 1 1 1 1, Product.mk "S" "small" 3 9 0.015625 0.5 5 5)]
    = Return (Some (mkPackage 0.05 1 10 15), 3%float).
Proof.
  split.
  - pose proof (package_dimensions (CartItem.mk 1 1 1 2, sample_product 5)
                  [(CartItem.mk 2 1 2 1, second_product 5)]) as H.
    cbv zeta in H. destruct H
      as (package & value & total_weight & total_height & final_width & final_length
          & Hrun & Hvalue & Hweight & Hheight & Hw & Hl & Hgw & Hgl
          & [_ Fweight] & [_ Fheight] & [_ Fwidth] & [_ Flength] & _).
    refine (eq_trans Hrun _). clear Hrun.
    assert (value = 250%float) as ->.
    { eapply sums_to_unique; [exact Hvalue|].
      exact (sums_to_snoc [_] _ _ (sums_to_snoc [] _ _ sums_to_nil)). }
    assert (total_weight = 1.25%float) as ->.
    { eapply sums_to_unique; [exact Hweight|].
      exact (sums_to_snoc [_] _ _ (sums_to_snoc [] _ _ sums_to_nil)). }
    assert (total_height = 12%float) as ->.
    { eapply sums_to_unique; [exact Hheight|].
      exact (sums_to_snoc [_] _ _ (sums_to_snoc [] _ _ sums_to_nil)). }
    assert (final_width = 25%float) as ->.
    { destruct Hgw as [_ Hup]; [by repeat constructor|].
      specialize (Hup 25%float ltac:(right; left)).
      apply elem_of_cons in Hw as [->|Hw]; [by vm_compute in Hup|].
      by apply list_elem_of_singleton in Hw. }
    assert (final_length = 20%float) as ->.
    { destruct Hgl as [_ Hup]; [by repeat constructor|].
      specialize (Hup 20%float ltac:(left)).
      apply elem_of_cons in Hl as [->|Hl]; [done|].
      apply list_elem_of_singleton in Hl as ->. by vm_compute in Hup. }
    destruct package as [w h wi le]. cbn [weight height width length] in *.
    by rewrite Fweight, Fheight, Fwidth, Flength.
  - pose proof (package_dimensions
                  (CartItem.mk 1 1 1 1, Product.mk "S" "small" 3 9 0.015625 0.5 5 5) [])
      as H.
    cbv zeta in H. destruct H
      as (package & value & total_weight & total_height & final_width & final_length
          & Hrun & Hvalue & Hweight & Hheight & Hw & Hl & _ & _
          & [Fweight _] & [Fheight _] & [Fwidth _] & [Flength _] & _).
    refine (eq_trans Hrun _). clear Hrun.
    assert (value = 3%float) as ->.
    { eapply sums_to_unique; [exact Hvalue|]. exact (sums_to_snoc [] _ _ sums_to_nil). }
    assert (total_weight = 0.015625%float) as ->.
    { eapply sums_to_unique; [exact Hweight|]. exact (sums_to_snoc [] _ _ sums_to_nil). }
    assert (total_height = 0.5%float) as ->.
    { eapply sums_to_unique; [exact Hheight|]. exact (sums_to_snoc [] _ _ sums_to_nil). }
    apply list_elem_of_singleton in Hw as ->. apply list_elem_of_singleton in Hl as ->.
    destruct package as [w h wi le]. cbn [weight height width length] in *.
    by rewrite Fweight, Fheight, Fwidth, Flength.
Defined.
Set Warnings "inexact-float".

(** Order 9999 does not exist: success, nothing changed. *)
Lemma webhook_unknown_order_is_absorbed_witness :
  stripe_webhook sqlite_backend (Verified (completed_event "9999" "paid"))
    (open_session (shop_with_history "pending_payment"))
  = (Return ack_success, open_session (shop_with_history "pending_payment")).
Proof.
  apply (webhook_unknown_order_is_absorbed sqlite_backend
           (completed_event "9999" "paid") "9999" 9999);
    [reflexivity|reflexivity|reflexivity|unfold sql_integer; lia|reflexivity].
Defined.

(* ===================================================================== *)
(** * The other cart operations                                           *)
(* ===================================================================== *)


Lemma remove_cart_item_run be cid pid s :
  remove_cart_item be cid pid s =
  match cart_line (live s) cid pid with
  | Some it =>
      let db' := set_cart_items
                   (filter (λ x, CartItem.id x ≠ CartItem.id it) (cart_items (live s)))
                   (live s) in
      match be db' with
      | None => (Return (Some it), open_session db')
      | Some msg => (Raise (DatabaseError msg), mkSession (stored s) db')
      end
  | None => (Return None, s)
  end.
Proof.
  unfold remove_cart_item. run_py.
  destruct (cart_line (live s) cid pid) as [it|]; [|done].
  cbn [live stored]. by destruct (be _).
Qed.

Lemma update_cart_item_quantity_run be cid pid q s :
  update_cart_item_quantity be cid pid q s =
  if q <=? 0 then
    match remove_cart_item be cid pid s with
    | (Return _, s') => (Return None, s')
    | (Raise e, s') => (Raise e, s')
    end
  else
    match cart_line (live s) cid pid with
    | None => (Return None, s)
    | Some it =>
        match products (live s) !! CartItem.product_id it with
        | None => (Return None, s)
        | Some p =>
            if Product.stock p <? q then (Return None, s)
            else
              let db' := update_cart_item it (CartItem.set_quantity q) (live s) in
              match be db' with
              | None => (Return (Some (CartItem.set_quantity q it)), open_session db')
              | Some msg => (Raise (DatabaseError msg), mkSession (stored s) db')
              end
        end
    end.
Proof.
  unfold update_cart_item_quantity. destruct (q <=? 0).
  - unfold bind, ret. by destruct (remove_cart_item be cid pid s) as [[?|?] ?].
  - run_py.
    destruct (cart_line (live s) cid pid) as [it|]; [|done].
    destruct (products (live s) !! CartItem.product_id it) as [p|]; [|done].
    destruct (Product.stock p <? q); [done|].
    cbn [live stored]. by destruct (be _).
Qed.

Lemma cart_line_Some db cid pid it :
  cart_line db cid pid = Some it →
  it ∈ cart_items db ∧ CartItem.cart_id it = cid ∧ CartItem.product_id it = pid.
Proof.
  unfold cart_line. intros [Hin [? ?]]%head_filter_Some. done.
Qed.

Lemma next_key_fresh keys k : k ∈ keys → k < next_key keys.
Proof.
  unfold next_key. induction keys as [|x l IH]; [by intros ?%elem_of_nil|].
  intros [->|Hk]%elem_of_cons; simpl; [lia|]. specialize (IH Hk). lia.
Qed.

Lemma next_key_positive keys : 0 < next_key keys.
Proof.
  unfold next_key. assert (0 ≤ foldr Z.max 0 keys); [|lia].
  induction keys; simpl; lia.
Qed.

Lemma carts_well_formed_filter (P : CartItem.t → Prop) `{∀ x, Decision (P x)} db :
  carts_well_formed db →
  carts_well_formed (set_cart_items (filter P (cart_items db)) db).
Proof.
  intros (Hid & Hkey & Hpos & Hstock).
  unfold carts_well_formed, cart_item_ids_unique, one_line_per_product,
    quantities_positive, within_stock in *.
  cbn [cart_items set_cart_items products].
  pose proof (sublist_filter P (cart_items db)) as Hsub.
  split_and!.
  - eapply sublist_NoDup; [exact Hid|]. by apply fmap_sublist.
  - eapply sublist_NoDup; [exact Hkey|]. by apply fmap_sublist.
  - rewrite Forall_forall in Hpos |- *. intros it Hit. apply Hpos.
    by eapply elem_of_sublist.
  - intros it p Hit. apply Hstock. by eapply elem_of_sublist.
Qed.

Lemma carts_well_formed_update db it q p :
  carts_well_formed db →
  it ∈ cart_items db →
  products db !! CartItem.product_id it = Some p →
  0 < q → q ≤ Product.stock p →
  carts_well_formed (update_cart_item it (CartItem.set_quantity q) db).
Proof.
  intros (Hid & Hkey & Hpos & Hstock) Hit Hp Hq Hle.
  unfold carts_well_formed, cart_item_ids_unique, one_line_per_product,
    quantities_positive, within_stock in *.
  fold line_key in Hkey |- *.
  split_and!.
  - unfold update_cart_item. cbn [cart_items set_cart_items].
    rewrite <- list_fmap_compose.
    erewrite list_fmap_ext; [exact Hid|]. intros i x _. simpl. by case_decide.
  - by rewrite update_cart_item_keys.
  - unfold update_cart_item. cbn [cart_items set_cart_items].
    rewrite Forall_fmap. eapply Forall_impl; [exact Hpos|].
    intros x Hx. simpl. by case_decide.
  - unfold update_cart_item. cbn [cart_items set_cart_items products].
    intros x' p' (x & -> & Hx)%list_elem_of_fmap.
    case_decide as Hsame.
    + assert (x = it) as -> by by eapply (NoDup_fmap_elem_inj CartItem.id).
      cbn [CartItem.set_quantity CartItem.product_id CartItem.quantity].
      intros Hp'. assert (p' = p) as -> by congruence. done.
    + by apply Hstock.
Qed.

Lemma carts_well_formed_append db row p :
  carts_well_formed db →
  CartItem.id row = new_cart_item_id db →
  cart_line db (CartItem.cart_id row) (CartItem.product_id row) = None →
  products db !! CartItem.product_id row = Some p →
  0 < CartItem.quantity row → CartItem.quantity row ≤ Product.stock p →
  carts_well_formed (set_cart_items (cart_items db ++ [row]) db).
Proof.
  intros (Hid & Hkey & Hpos & Hstock) Hnew Hline Hp Hq Hle.
  unfold carts_well_formed, cart_item_ids_unique, one_line_per_product,
    quantities_positive, within_stock in *.
  fold line_key in Hkey |- *. cbn [cart_items set_cart_items products].
  split_and!.
  - rewrite fmap_app. apply NoDup_app. split_and!; [done| |apply NoDup_singleton].
    intros k Hk [->|[]%elem_of_nil]%elem_of_cons.
    apply next_key_fresh in Hk. unfold new_cart_item_id in Hnew. lia.
  - rewrite fmap_app. apply NoDup_app. split_and!; [done| |apply NoDup_singleton].
    intros k Hk [->|[]%elem_of_nil]%elem_of_cons.
    by apply cart_line_None_key in Hline.
  - apply Forall_app. split; [done|]. by constructor.
  - intros x p' [Hx|[->|[]%elem_of_nil]%elem_of_cons]%elem_of_app.
    + by apply Hstock.
    + intros Hp'. assert (p' = p) as -> by congruence. done.
Qed.

(** X1.  The three operations that write cart lines keep the carts well
    formed.  Starting from a database in which the keys of the cart lines
    are unique, a cart has at most one line per product, every quantity is
    positive and no line asks for more than the stock of its product (when
    the product still exists), [add_item_to_cart] with a positive
    quantity, [update_cart_item_quantity] with any quantity and
    [remove_cart_item] leave a database with the same four properties,
    whatever they return and whether or not the commit is accepted. *)
Theorem cart_operations_keep_carts_well_formed be db :
  carts_well_formed db →
  (∀ cid item r db',
     0 < CartItemCreate.quantity item →
     run_request (add_item_to_cart be cid item) db = (r, db') →
     carts_well_formed db')
  ∧ (∀ cid pid q r db',
       run_request (update_cart_item_quantity be cid pid q) db = (r, db') →
       carts_well_formed db')
  ∧ (∀ cid pid r db',
       run_request (remove_cart_item be cid pid) db = (r, db') →
       carts_well_formed db').
Proof.
  intros Hwf.
  assert (∀ cid pid r db',
            run_request (remove_cart_item be cid pid) db = (r, db') →
            carts_well_formed db') as Hremove.
  { intros cid pid r db'. unfold run_request.
    rewrite remove_cart_item_run. cbn [live stored open_session].
    destruct (cart_line db cid pid) as [it|]; [|by intros [= <- <-]].
    cbv zeta. destruct (be _); intros [= <- <-]; cbn [stored]; [done|].
    by apply carts_well_formed_filter. }
  split_and!; [| |exact Hremove].
  - intros cid item r db' Hq. unfold run_request.
    rewrite add_item_to_cart_run. cbn [live stored open_session]. unfold get_product.
    destruct (products db !! CartItemCreate.product_id item) as [p|] eqn:Hp;
      [|by intros [= <- <-]].
    cbv zeta.
    destruct (Z.ltb_spec0 (Product.stock p)
      (match cart_line db cid (CartItemCreate.product_id item) with
       | Some it => CartItem.quantity it
       | None => 0
       end + CartItemCreate.quantity item)) as [Hlt|Hge]; [by intros [= <- <-]|].
    destruct (cart_line db cid (CartItemCreate.product_id item)) as [it|] eqn:Hline.
    + destruct (be _); intros [= <- <-]; cbn [stored]; [done|].
      destruct (cart_line_Some _ _ _ _ Hline) as (Hin & _ & Hpid).
      destruct Hwf as (? & ? & Hpos & ?).
      assert (0 < CartItem.quantity it)
        by (unfold quantities_positive in Hpos; rewrite Forall_forall in Hpos; auto).
      apply (carts_well_formed_update _ _ _ p); [done|done|by rewrite Hpid|lia|lia].
    + destruct (be _); intros [= <- <-]; cbn [stored]; [done|].
      apply (carts_well_formed_append _ _ p); cbn; [done..|lia|lia].
  - intros cid pid q r db'. unfold run_request.
    rewrite update_cart_item_quantity_run.
    destruct (Z.leb_spec0 q 0) as [Hle|Hgt].
    + intros Hrun. destruct (remove_cart_item be cid pid (open_session db))
        as [[o|e] s'] eqn:Hrm.
      * injection Hrun as <- <-. apply (Hremove cid pid (Return o)).
        unfold run_request. by rewrite Hrm.
      * injection Hrun as <- <-. apply (Hremove cid pid (Raise e)).
        unfold run_request. by rewrite Hrm.
    + cbn [live stored open_session].
      destruct (cart_line db cid pid) as [it|] eqn:Hline; [|by intros [= <- <-]].
      destruct (products db !! CartItem.product_id it) as [p|] eqn:Hp;
        [|by intros [= <- <-]].
      destruct (Z.ltb_spec0 (Product.stock p) q); [by intros [= <- <-]|].
      cbv zeta. destruct (be _); intros [= <- <-]; cbn [stored]; [done|].
      destruct (cart_line_Some _ _ _ _ Hline) as (Hin & _ & _).
      apply (carts_well_formed_update _ _ _ p); [done..|lia|lia].
Qed.

Lemma filter_ext_elem {A} (P Q : A → Prop) `{∀ x, Decision (P x)} `{∀ x, Decision (Q x)}
    (l : list A) :
  (∀ x, x ∈ l → (P x ↔ Q x)) → filter P l = filter Q l.
Proof.
  induction l as [|a l IH]; intros Hext; [done|].
  rewrite !filter_cons.
  assert (P a ↔ Q a) as Ha by (apply Hext; left).
  rewrite IH by (intros x Hx; apply Hext; by right).
  destruct (decide (P a)), (decide (Q a)); tauto.
Qed.

Lemma filter_all_elem {A} (P : A → Prop) `{∀ x, Decision (P x)} (l : list A) :
  (∀ x, x ∈ l → P x) → filter P l = l.
Proof.
  induction l as [|a l IH]; intros Hall; [done|].
  rewrite filter_cons, decide_True by (apply Hall; left).
  f_equal. apply IH. intros x Hx. apply Hall. by right.
Qed.

Lemma set_cart_items_same db : set_cart_items (cart_items db) db = db.
Proof. by destruct db. Qed.

Lemma cart_line_filtered_out db cid pid :
  cart_line (set_cart_items
               (filter (λ it, line_key it ≠ (cid, pid)) (cart_items db)) db) cid pid
  = None.
Proof.
  unfold cart_line. cbn [cart_items set_cart_items]. apply head_filter_None.
  intros x [Hne _]%list_elem_of_filter [Hc Hp]. apply Hne. unfold line_key. congruence.
Qed.

(** What removing a line does to a table with unique primary keys and
    one line per product. *)
Lemma remove_cart_item_effect be cid pid db r db' :
  cart_item_ids_unique db → one_line_per_product db →
  run_request (remove_cart_item be cid pid) db = (r, db') →
  match r with
  | Return o =>
      o = cart_line db cid pid
      ∧ db' = set_cart_items
                (filter (λ it, line_key it ≠ (cid, pid)) (cart_items db)) db
  | Raise e => db' = db ∧ ∃ msg, e = DatabaseError msg
  end.
Proof.
  intros Hid Hkey. unfold run_request. rewrite remove_cart_item_run.
  cbn [live stored open_session].
  destruct (cart_line db cid pid) as [it|] eqn:Hline.
  - assert (filter (λ x, CartItem.id x ≠ CartItem.id it) (cart_items db)
            = filter (λ x, line_key x ≠ (cid, pid)) (cart_items db)) as ->.
    { destruct (cart_line_Some _ _ _ _ Hline) as (Hin & Hc & Hp).
      apply filter_ext_elem. intros x Hx. split; intros Hne Heq; apply Hne.
      - assert (x = it) as -> ; [|done].
        eapply (NoDup_fmap_elem_inj line_key); [exact Hkey|done..|].
        rewrite Heq. unfold line_key. congruence.
      - assert (x = it) as ->
          by by eapply (NoDup_fmap_elem_inj CartItem.id).
        unfold line_key. congruence. }
    cbv zeta. destruct (be _); intros [= <- <-]; cbn [stored]; eauto.
  - intros [= <- <-]. split; [done|].
    rewrite filter_all_elem; [by rewrite set_cart_items_same|].
    intros x Hx Heq. apply cart_line_None_key in Hline. apply Hline.
    apply list_elem_of_fmap. eauto.
Qed.

(** X2.  [update_cart_item_quantity] with a positive quantity [q].  It
    returns a line only if the cart has a line for the product, the
    product exists and [q] is at most its stock; the line returned is the
    stored one with quantity [q], it is the line of the cart afterwards,
    and nothing is left uncommitted.  It returns [None] only when there is
    no such line, the product is gone, or the stock is below [q], and then
    nothing has changed.  The only exception is a refused commit, which
    leaves the committed database as it was. *)
Theorem update_quantity_respects_stock be cid pid q s r s' :
  0 < q →
  update_cart_item_quantity be cid pid q s = (r, s') →
  match r with
  | Return (Some it') =>
      ∃ it p, cart_line (live s) cid pid = Some it
              ∧ products (live s) !! pid = Some p
              ∧ q ≤ Product.stock p
              ∧ it' = CartItem.set_quantity q it
              ∧ cart_line (live s') cid pid = Some it'
              ∧ clean s'
  | Return None =>
      s' = s
      ∧ (cart_line (live s) cid pid = None
         ∨ products (live s) !! pid = None
         ∨ ∃ p, products (live s) !! pid = Some p ∧ Product.stock p < q)
  | Raise e => stored s' = stored s ∧ ∃ msg, e = DatabaseError msg
  end.
Proof.
  intros Hq. rewrite update_cart_item_quantity_run.
  rewrite (proj2 (Z.leb_gt q 0)) by lia.
  destruct (cart_line (live s) cid pid) as [it|] eqn:Hline.
  2:{ intros [= <- <-]. eauto. }
  destruct (cart_line_Some _ _ _ _ Hline) as (_ & _ & Hpid). rewrite Hpid.
  destruct (products (live s) !! pid) as [p|] eqn:Hp.
  2:{ intros [= <- <-]. eauto. }
  destruct (Z.ltb_spec0 (Product.stock p) q).
  { intros [= <- <-]. eauto 6. }
  cbv zeta. destruct (be _).
  - intros [= <- <-]. eauto.
  - intros [= <- <-]. exists it, p. cbn [live open_session].
    split_and!; [done|done|lia|done| |done].
    by apply cart_line_update_cart_item.
Qed.

(** X3.  With a quantity that is zero or negative,
    [update_cart_item_quantity] returns [None] and removes the line of the
    product from the cart, every other line staying, so that the cart has
    no line for the product afterwards; if the commit is refused the
    database is unchanged.  (Keys of cart lines are unique and a cart has
    at most one line per product.) *)
Theorem update_quantity_to_zero_removes_line be cid pid q db r db' :
  q ≤ 0 →
  cart_item_ids_unique db → one_line_per_product db →
  run_request (update_cart_item_quantity be cid pid q) db = (r, db') →
  match r with
  | Return o =>
      o = None
      ∧ db' = set_cart_items
                (filter (λ it, line_key it ≠ (cid, pid)) (cart_items db)) db
      ∧ cart_line db' cid pid = None
  | Raise e => db' = db ∧ ∃ msg, e = DatabaseError msg
  end.
Proof.
  intros Hq Hid Hkey. unfold run_request.
  rewrite update_cart_item_quantity_run, (proj2 (Z.leb_le q 0)) by done.
  destruct (remove_cart_item be cid pid (open_session db)) as [[o|e] s1] eqn:Hrm;
    intros [= <- <-].
  - pose proof (remove_cart_item_effect be cid pid db (Return o) (stored s1) Hid Hkey)
      as Heff. unfold run_request in Heff. rewrite Hrm in Heff.
    destruct (Heff eq_refl) as [_ ->]. split_and!; [done..|].
    apply cart_line_filtered_out.
  - pose proof (remove_cart_item_effect be cid pid db (Raise e) (stored s1) Hid Hkey)
      as Heff. unfold run_request in Heff. rewrite Hrm in Heff.
    exact (Heff eq_refl).
Qed.

(** X4.  Adding a product that had no line in the cart creates a line
    with a fresh key and the requested quantity, which is then the line
    found for that cart and product; [remove_cart_item] on the result
    returns that line and restores the database as it was before the
    addition (a database the server accepts). *)
Theorem add_then_remove_restores_cart be cid item db it db1 :
  cart_line db cid (CartItemCreate.product_id item) = None →
  be db = None →
  run_request (add_item_to_cart be cid item) db = (Return (Some it), db1) →
  it = CartItem.mk (new_cart_item_id db) cid (CartItemCreate.product_id item)
                   (CartItemCreate.quantity item)
  ∧ cart_line db1 cid (CartItemCreate.product_id item) = Some it
  ∧ run_request (remove_cart_item be cid (CartItemCreate.product_id item)) db1
    = (Return (Some it), db).
Proof.
  intros Hline Hbe. unfold run_request at 1.
  rewrite add_item_to_cart_run. cbn [live stored open_session].
  destruct (get_product db (CartItemCreate.product_id item)) as [p|]; [|done].
  cbv zeta. rewrite Hline. destruct (Product.stock p <? _); [done|].
  destruct (be (set_cart_items _ _)); [done|].
  cbv beta iota. cbn [stored open_session]. intros [= <- <-].
  set (row := CartItem.mk (new_cart_item_id db) cid (CartItemCreate.product_id item)
                (CartItemCreate.quantity item)).
  assert (filter (λ x, CartItem.cart_id x = cid
                       ∧ CartItem.product_id x = CartItemCreate.product_id item)
                 (cart_items db) = []) as Hnil.
  { unfold cart_line in Hline. by apply head_None in Hline. }
  assert (cart_line (set_cart_items (cart_items db ++ [row]) db) cid
            (CartItemCreate.product_id item) = Some row) as Hline1.
  { unfold cart_line. cbn [cart_items set_cart_items].
    rewrite filter_app, Hnil, filter_cons, decide_True by done. done. }
  split_and!; [done..|].
  unfold run_request. rewrite remove_cart_item_run. cbn [live stored open_session].
  rewrite Hline1. cbv zeta. cbn [cart_items set_cart_items].
  assert (filter (λ x, CartItem.id x ≠ CartItem.id row) (cart_items db ++ [row])
          = cart_items db) as ->.
  { rewrite filter_app, filter_cons, decide_False by (intros Hn; by apply Hn).
    rewrite filter_nil, app_nil_r. apply filter_all_elem.
    intros x Hx. cbn [CartItem.id row]. unfold new_cart_item_id.
    assert (CartItem.id x < next_key (CartItem.id <$> cart_items db)); [|lia].
    apply next_key_fresh. by apply list_elem_of_fmap_2. }
  assert (set_cart_items (cart_items db) (set_cart_items (cart_items db ++ [row]) db)
          = db) as -> by by destruct db.
  by rewrite Hbe.
Qed.

(* ===================================================================== *)
(** * The cart router                                                     *)
(* ===================================================================== *)

Lemma get_cart_by_user_id_Some db uid cart :
  get_cart_by_user_id db uid = Some cart →
  cart ∈ carts db ∧ Cart.user_id cart = uid.
Proof. unfold get_cart_by_user_id. by intros [? ?]%head_filter_Some. Qed.

Lemma head_filter_fmap {A} (P : A → Prop) `{∀ x, Decision (P x)} (f : A → A) l :
  (∀ x, P (f x) ↔ P x) →
  head (filter P (f <$> l)) = f <$> head (filter P l).
Proof.
  intros Hf. induction l as [|a l IH]; [done|].
  rewrite fmap_cons, !filter_cons.
  destruct (decide (P (f a))) as [Ha|Ha], (decide (P a)) as [Ha'|Ha'];
    [done|by destruct Ha'; apply Hf|by destruct Ha; apply Hf|done].
Qed.

Lemma head_filter_unique {A B} `{EqDecision B} (f : A → B) (l : list A) x :
  NoDup (f <$> l) → x ∈ l → head (filter (λ y, f y = f x) l) = Some x.
Proof.
  intros Hnd Hx. destruct (head (filter (λ y, f y = f x) l)) as [y|] eqn:Hh.
  - apply head_filter_Some in Hh as [Hy Hf]. f_equal.
    by eapply (NoDup_fmap_elem_inj f).
  - exfalso. eapply head_filter_None in Hh; [|exact Hx]. by apply Hh.
Qed.

(** The cart of a user after [cart.coupon_id] was assigned. *)
Lemma set_cart_coupon_lookup db uid cart c :
  cart_ids_unique db →
  get_cart_by_user_id db uid = Some cart →
  get_cart_by_user_id (set_cart_coupon cart c db) uid = Some (Cart.set_coupon_id c cart)
  ∧ head (filter (λ x, Cart.id x = Cart.id cart) (carts (set_cart_coupon cart c db)))
    = Some (Cart.set_coupon_id c cart).
Proof.
  intros Hid Hcart. unfold get_cart_by_user_id, set_cart_coupon in *.
  cbn [carts set_carts].
  rewrite !head_filter_fmap by (intros x; by case_decide).
  rewrite Hcart. simpl. rewrite decide_True by done. split; [done|].
  apply head_filter_Some in Hcart as [Hin _].
  rewrite (head_filter_unique Cart.id) by done. simpl. by rewrite decide_True.
Qed.

Lemma apply_coupon_to_cart_run be uid cart coupon s :
  cart_ids_unique (live s) →
  get_cart_by_user_id (live s) uid = Some cart →
  apply_coupon_to_cart be cart coupon s =
  let db' := set_cart_coupon cart (Some (Coupon.id coupon)) (live s) in
  match be db' with
  | None => (Return (Cart.set_coupon_id (Some (Coupon.id coupon)) cart), open_session db')
  | Some msg => (Raise (DatabaseError msg), mkSession (stored s) db')
  end.
Proof.
  intros Hid Hcart. unfold apply_coupon_to_cart, refresh_cart. run_py.
  cbn [live stored]. cbv zeta. destruct (be _); [done|]. cbn [live].
  by rewrite (proj2 (set_cart_coupon_lookup _ _ _ _ Hid Hcart)).
Qed.

Lemma remove_coupon_from_cart_run be uid cart s :
  cart_ids_unique (live s) →
  get_cart_by_user_id (live s) uid = Some cart →
  remove_coupon_from_cart be cart s =
  let db' := set_cart_coupon cart None (live s) in
  match be db' with
  | None => (Return (Cart.set_coupon_id None cart), open_session db')
  | Some msg => (Raise (DatabaseError msg), mkSession (stored s) db')
  end.
Proof.
  intros Hid Hcart. unfold remove_coupon_from_cart, refresh_cart. run_py.
  cbn [live stored]. cbv zeta. destruct (be _); [done|]. cbn [live].
  by rewrite (proj2 (set_cart_coupon_lookup _ _ _ _ Hid Hcart)).
Qed.

(** X5.  [apply_coupon] attaches a coupon only if it is valid at the time
    of the request.  When it returns a cart, the user had a cart, a stored
    coupon has the code, is active and has not expired, the cart returned
    is the user's cart with [coupon_id] set to that coupon, it is the
    user's cart in the database, and everything is committed.  It fails
    with status 404 in two cases, no cart and no valid coupon with that
    code, leaving the session as it was; a refused commit leaves the
    committed database as it was.  (Keys of carts are unique.) *)
Theorem apply_coupon_attaches_only_valid_coupons be now code u s r s' :
  cart_ids_unique (live s) →
  routers_cart.apply_coupon be now code u s = (r, s') →
  match r with
  | Return cart' =>
      ∃ cart coupon,
        get_cart_by_user_id (live s) (User.id u) = Some cart
        ∧ coupon ∈ coupons (live s) ∧ coupon_valid now code coupon
        ∧ cart' = Cart.set_coupon_id (Some (Coupon.id coupon)) cart
        ∧ get_cart_by_user_id (live s') (User.id u) = Some cart'
        ∧ clean s'
  | Raise e =>
      stored s' = stored s
      ∧ ((get_cart_by_user_id (live s) (User.id u) = None
          ∧ e = HTTPException 404 "Carrinho não encontrado." ∧ s' = s)
         ∨ (get_valid_coupon_by_code (live s) now code = None
            ∧ e = HTTPException 404 "Cupom inválido ou expirado." ∧ s' = s)
         ∨ ∃ msg, e = DatabaseError msg)
  end.
Proof.
  intros Hid. unfold routers_cart.apply_coupon. unfold bind at 1, get_live at 1.
  destruct (get_cart_by_user_id (live s) (User.id u)) as [cart|] eqn:Hcart.
  2:{ intros [= <- <-]. eauto 8. }
  destruct (get_valid_coupon_by_code (live s) now code) as [coupon|] eqn:Hv.
  2:{ intros [= <- <-]. eauto 8. }
  rewrite (apply_coupon_to_cart_run be (User.id u)) by done. cbv zeta.
  destruct (be _).
  - intros [= <- <-]. eauto 8.
  - intros [= <- <-]. exists cart, coupon.
    destruct (get_valid_coupon_by_code_Some _ _ _ _ Hv) as [Hin Hval].
    split_and!; [done..| |done].
    cbn [live open_session].
    by apply set_cart_coupon_lookup.
Qed.

(** X6.  When [remove_coupon] returns a cart, that cart is the user's cart
    in the database and has no coupon, and coupons and cart lines are
    untouched; when the cart had no coupon to begin with, nothing is
    written at all.  (Keys of carts are unique.) *)
Theorem remove_coupon_leaves_no_coupon be u s cart' s' :
  cart_ids_unique (live s) →
  routers_cart.remove_coupon be u s = (Return cart', s') →
  get_cart_by_user_id (live s') (User.id u) = Some cart'
  ∧ Cart_coupon (live s') cart' = None
  ∧ coupons (live s') = coupons (live s)
  ∧ cart_items (live s') = cart_items (live s)
  ∧ (∀ cart, get_cart_by_user_id (live s) (User.id u) = Some cart →
             Cart_coupon (live s) cart = None → s' = s).
Proof.
  intros Hid. unfold routers_cart.remove_coupon. unfold bind at 1, get_live at 1.
  destruct (get_cart_by_user_id (live s) (User.id u)) as [cart|] eqn:Hcart; [|done].
  destruct (Cart_coupon (live s) cart) as [c|] eqn:Hc.
  - rewrite (remove_coupon_from_cart_run be (User.id u)) by done. cbv zeta.
    destruct (be _); [done|]. intros [= <- <-]. cbn [live open_session].
    split_and!; [by apply set_cart_coupon_lookup|done..|].
    intros cart0 [= <-]. congruence.
  - intros [= <- <-]. split_and!; try done.
Qed.

Lemma head_filter_snoc {A} (P : A → Prop) `{∀ x, Decision (P x)} (l : list A) x :
  head (filter P l) = None → P x → head (filter P (l ++ [x])) = Some x.
Proof.
  intros Hnil%head_None HP.
  by rewrite filter_app, Hnil, filter_cons, decide_True.
Qed.

Lemma cart_line_added db cid pid q :
  cart_line db cid pid = None →
  cart_line (set_cart_items (cart_items db ++ [CartItem.mk (new_cart_item_id db) cid pid q]) db)
            cid pid
  = Some (CartItem.mk (new_cart_item_id db) cid pid q).
Proof.
  intros Hline. unfold cart_line in *. cbn [cart_items set_cart_items].
  by apply head_filter_snoc.
Qed.

(** X7.  [read_my_cart] returns the cart of the user: the existing one,
    with the database unchanged, or, if there was none, a new cart with a
    fresh key and no coupon, appended to the table.  In both cases the
    cart returned is the user's cart in the resulting database, and asking
    again returns the same cart and changes nothing: a user gets at most
    one cart this way. *)
Theorem read_my_cart_creates_at_most_one_cart be u db cart db1 :
  run_request (routers_cart.read_my_cart be u) db = (Return cart, db1) →
  Cart.user_id cart = User.id u
  ∧ get_cart_by_user_id db1 (User.id u) = Some cart
  ∧ ((get_cart_by_user_id db (User.id u) = Some cart ∧ db1 = db)
     ∨ (get_cart_by_user_id db (User.id u) = None
        ∧ cart = Cart.mk (next_key (Cart.id <$> carts db)) (User.id u) None
        ∧ db1 = set_carts (carts db ++ [cart]) db))
  ∧ run_request (routers_cart.read_my_cart be u) db1 = (Return cart, db1).
Proof.
  unfold run_request, routers_cart.read_my_cart.
  destruct (User.is_superuser u); [done|].
  unfold bind at 1, get_live at 1. cbn [live open_session].
  destruct (get_cart_by_user_id db (User.id u)) as [c|] eqn:Hcart.
  - intros [= <- <-]. cbn [stored open_session].
    split_and!; [by eapply get_cart_by_user_id_Some|done|by left|].
    unfold bind, get_live. cbn [live open_session]. by rewrite Hcart.
  - set (new := Cart.mk (next_key (Cart.id <$> carts db)) (User.id u) None).
    assert (get_cart_by_user_id (set_carts (carts db ++ [new]) db) (User.id u)
            = Some new) as Hnew.
    { unfold get_cart_by_user_id in *. cbn [carts set_carts].
      by apply head_filter_snoc. }
    assert (head (filter (λ c, Cart.id c = Cart.id new)
                    (carts (set_carts (carts db ++ [new]) db))) = Some new) as Hre.
    { cbn [carts set_carts]. apply head_filter_snoc; [|done].
      destruct (head (filter _ (carts db))) as [x|] eqn:Hh; [|done].
      apply head_filter_Some in Hh as [Hx Heq].
      assert (Cart.id x < next_key (Cart.id <$> carts db)) as Hlt
        by by apply next_key_fresh, list_elem_of_fmap_2.
      rewrite Heq in Hlt. cbn [Cart.id new] in Hlt. lia. }
    unfold refresh_cart. run_py. cbn [live stored].
    destruct (be _); [done|]. cbn [live]. rewrite Hre.
    intros [= <- <-]. cbn [stored live open_session].
    split_and!; [done|done|by right|].
    cbv beta iota delta [bind get_live ret]. cbn [live open_session]. by rewrite Hnew.
Qed.

(** X8.  The answers of [add_product_to_cart].  A line is returned only to
    a user who is not a superuser and has a cart, for a product that
    exists; it belongs to that cart and product, its quantity is at most
    the stock, and it is the line stored.  Every failure leaves the
    database unchanged and is: status 403 for a superuser; 404 without a
    cart; 404 for an unknown product; 400 when the stock is below the
    quantity already in the cart plus the quantity requested; or the error
    of a refused commit. *)
Theorem add_product_to_cart_outcomes be item u db r db' :
  run_request (routers_cart.add_product_to_cart be item u) db = (r, db') →
  match r with
  | Return it =>
      User.is_superuser u = false
      ∧ ∃ cart p,
          get_cart_by_user_id db (User.id u) = Some cart
          ∧ products db !! CartItemCreate.product_id item = Some p
          ∧ line_key it = (Cart.id cart, CartItemCreate.product_id item)
          ∧ CartItem.quantity it ≤ Product.stock p
          ∧ cart_line db' (Cart.id cart) (CartItemCreate.product_id item) = Some it
  | Raise e =>
      db' = db
      ∧ ((User.is_superuser u = true
          ∧ e = HTTPException 403 "Superusuários não podem adicionar itens ao carrinho.")
         ∨ (User.is_superuser u = false
            ∧ get_cart_by_user_id db (User.id u) = None
            ∧ e = HTTPException 404 "Carrinho do usuário não encontrado.")
         ∨ (User.is_superuser u = false
            ∧ is_Some (get_cart_by_user_id db (User.id u))
            ∧ products db !! CartItemCreate.product_id item = None
            ∧ e = HTTPException 404 "Produto não encontrado.")
         ∨ (∃ cart p,
              get_cart_by_user_id db (User.id u) = Some cart
              ∧ products db !! CartItemCreate.product_id item = Some p
              ∧ Product.stock p
                < match cart_line db (Cart.id cart) (CartItemCreate.product_id item) with
                  | Some line => CartItem.quantity line
                  | None => 0
                  end + CartItemCreate.quantity item
              ∧ e = HTTPException 400 "Estoque insuficiente.")
         ∨ ∃ msg, e = DatabaseError msg)
  end.
Proof.
  unfold run_request, routers_cart.add_product_to_cart.
  destruct (User.is_superuser u).
  { intros [= <- <-]. eauto 10. }
  unfold bind at 1, get_live at 1. cbn [live open_session].
  destruct (get_cart_by_user_id db (User.id u)) as [cart|] eqn:Hcart.
  2:{ intros [= <- <-]. eauto 10. }
  unfold get_product at 1.
  destruct (products db !! CartItemCreate.product_id item) as [p|] eqn:Hp.
  2:{ intros [= <- <-]. cbn [stored open_session]. split; [done|]. do 2 right. left. eauto. }
  unfold bind. rewrite add_item_to_cart_run. cbn [live stored open_session].
  unfold get_product. rewrite Hp. cbv zeta.
  destruct (cart_line db (Cart.id cart) (CartItemCreate.product_id item))
    as [line|] eqn:Hline.
  - destruct (Z.ltb_spec0 (Product.stock p)
                (CartItem.quantity line + CartItemCreate.quantity item)).
    { intros [= <- <-]. cbn [stored open_session]. split; [done|]. do 3 right. left.
      exists cart, p. by rewrite Hline. }
    destruct (be _).
    { intros [= <- <-]. cbn [stored open_session]. eauto 10. }
    intros [= <- <-]. cbn [stored open_session]. split; [done|]. exists cart, p.
    destruct (cart_line_Some _ _ _ _ Hline) as (_ & Hc & Hpid).
    split_and!; [done|done| |cbn; lia|by apply cart_line_update_cart_item].
    unfold line_key. cbn. by rewrite Hc, Hpid.
  - destruct (Z.ltb_spec0 (Product.stock p) (0 + CartItemCreate.quantity item)).
    { intros [= <- <-]. cbn [stored open_session]. split; [done|]. do 3 right. left.
      exists cart, p. by rewrite Hline. }
    destruct (be _).
    { intros [= <- <-]. cbn [stored open_session]. eauto 10. }
    intros [= <- <-]. cbn [stored open_session]. split; [done|]. exists cart, p.
    split_and!; [done|done|done|cbn; lia|by apply cart_line_added].
Qed.

(** X9.  [update_cart_item] with a quantity that is zero or negative never
    returns a line: the line of the product is removed from the user's
    cart, the removal is committed, and the answer is the exception of
    status 204; or the commit is refused and the database is unchanged.
    (Keys of cart lines are unique and a cart has at most one line per
    product.) *)
Theorem update_cart_item_endpoint_removes_on_nonpositive be pid q u cart db r db' :
  q ≤ 0 →
  User.is_superuser u = false →
  get_cart_by_user_id db (User.id u) = Some cart →
  cart_item_ids_unique db → one_line_per_product db →
  run_request (routers_cart.update_cart_item be pid q u) db = (r, db') →
  (r = Raise (HTTPException 204 "No Content")
   ∧ db' = set_cart_items
             (filter (λ it, line_key it ≠ (Cart.id cart, pid)) (cart_items db)) db
   ∧ cart_line db' (Cart.id cart) pid = None)
  ∨ (db' = db ∧ ∃ msg, r = Raise (DatabaseError msg)).
Proof.
  intros Hq Hsu Hcart Hid Hkey.
  unfold run_request, routers_cart.update_cart_item. rewrite Hsu.
  unfold bind at 1, get_live at 1. cbn [live open_session]. rewrite Hcart.
  rewrite (proj2 (Z.leb_le q 0)) by done. unfold bind, raise.
  destruct (remove_cart_item be (Cart.id cart) pid (open_session db))
    as [[o|e] s1] eqn:Hrm; intros [= <- <-].
  - pose proof (remove_cart_item_effect be (Cart.id cart) pid db (Return o)
                  (stored s1) Hid Hkey) as Heff.
    unfold run_request in Heff. rewrite Hrm in Heff.
    destruct (Heff eq_refl) as [_ ->]. left. split_and!; [done..|].
    apply cart_line_filtered_out.
  - pose proof (remove_cart_item_effect be (Cart.id cart) pid db (Raise e)
                  (stored s1) Hid Hkey) as Heff.
    unfold run_request in Heff. rewrite Hrm in Heff.
    destruct (Heff eq_refl) as [-> [msg ->]]. right. eauto.
Qed.

(** X27.  [remove_product_from_cart].  On success the user is not a
    superuser, the cart had a line for the product, and that line, and no
    other, is gone.  Failures leave the database unchanged: 403 for a
    superuser, 404 without a cart, 404 when the cart has no line for the
    product, or a refused commit.  (Keys of cart lines are unique and a
    cart has at most one line per product.) *)
Theorem remove_product_from_cart_outcomes be pid u db r db' :
  cart_item_ids_unique db → one_line_per_product db →
  run_request (routers_cart.remove_product_from_cart be pid u) db = (r, db') →
  match r with
  | Return _ =>
      User.is_superuser u = false
      ∧ ∃ cart it,
          get_cart_by_user_id db (User.id u) = Some cart
          ∧ cart_line db (Cart.id cart) pid = Some it
          ∧ db' = set_cart_items
                    (filter (λ x, line_key x ≠ (Cart.id cart, pid)) (cart_items db)) db
          ∧ cart_line db' (Cart.id cart) pid = None
  | Raise e =>
      db' = db
      ∧ ((User.is_superuser u = true
          ∧ e = HTTPException 403 "Superusuários não podem remover itens do carrinho.")
         ∨ (get_cart_by_user_id db (User.id u) = None
            ∧ e = HTTPException 404 "Carrinho do usuário não encontrado.")
         ∨ (∃ cart, get_cart_by_user_id db (User.id u) = Some cart
                    ∧ cart_line db (Cart.id cart) pid = None
                    ∧ e = HTTPException 404 "Produto não encontrado no carrinho.")
         ∨ ∃ msg, e = DatabaseError msg)
  end.
Proof.
  intros Hid Hkey. unfold run_request, routers_cart.remove_product_from_cart.
  destruct (User.is_superuser u).
  { intros [= <- <-]. eauto 10. }
  unfold bind at 1, get_live at 1. cbn [live open_session].
  destruct (get_cart_by_user_id db (User.id u)) as [cart|] eqn:Hcart.
  2:{ intros [= <- <-]. eauto 10. }
  unfold bind.
  destruct (remove_cart_item be (Cart.id cart) pid (open_session db))
    as [[o|e] s1] eqn:Hrm.
  - pose proof (remove_cart_item_effect be (Cart.id cart) pid db (Return o)
                  (stored s1) Hid Hkey) as Heff.
    unfold run_request in Heff. rewrite Hrm in Heff.
    destruct (Heff eq_refl) as [-> Hdb].
    destruct (cart_line db (Cart.id cart) pid) as [it|] eqn:Hline.
    + intros [= <- <-]. split; [done|]. exists cart, it. rewrite Hdb.
      split_and!; [done..|]. apply cart_line_filtered_out.
    + intros [= <- <-]. rewrite Hdb. split.
      * rewrite filter_all_elem; [apply set_cart_items_same|].
        intros x Hx Heq. apply cart_line_None_key in Hline. apply Hline.
        apply list_elem_of_fmap. eauto.
      * do 2 right. left. eauto.
  - pose proof (remove_cart_item_effect be (Cart.id cart) pid db (Raise e)
                  (stored s1) Hid Hkey) as Heff.
    unfold run_request in Heff. rewrite Hrm in Heff.
    destruct (Heff eq_refl) as [-> [msg ->]]. intros [= <- <-]. eauto 10.
Qed.

(* ===================================================================== *)
(** * The order and product routers                                       *)
(* ===================================================================== *)

Lemma create_order_raises_status be now uid s e s' :
  create_order_from_cart be now uid s = (Raise e, s') →
  ∃ msg c, e = OrderCreationError msg c
           ∧ (c = 400 ∨ (c = 500 ∧ ∃ d m, be d = Some m)).
Proof.
  rewrite create_order_run.
  assert (∀ a b c d f, checkout_transaction be now uid a b c d f s = (Raise e, s') →
    ∃ msg c, e = OrderCreationError msg c
             ∧ (c = 400 ∨ (c = 500 ∧ ∃ d m, be d = Some m))) as Htx.
  { intros a b c d f. rewrite checkout_transaction_run.
    destruct (reserve_stock b [] s) as [[ois|e0] s1] eqn:Hloop.
    - cbv zeta. destruct (be _) eqn:Hbe; [|done]. intros [= <- <-]. eauto 10.
    - apply reserve_stock_raises in Hloop as [msg ->]. intros [= <- <-]. eauto 10. }
  destruct (get_cart_by_user_id (live s) uid) as [cart|].
  2:{ intros [= <- <-]. unfold empty_cart_error. eauto 6. }
  destruct (Cart_items (live s) cart) as [|item0 rest].
  { intros [= <- <-]. unfold empty_cart_error. eauto 6. }
  cbv zeta.
  destruct (Cart_coupon (live s) cart) as [c|].
  - destruct (get_valid_coupon_by_code (live s) now (Coupon.code c)) as [v|].
    + apply Htx.
    + intros [= <- <-]. unfold coupon_invalid_error. eauto 6.
  - apply Htx.
Qed.

(** X10.  [create_order] returns what [create_order_from_cart] returns, to
    users who are not superusers.  Every failure is an [HTTPException]
    and leaves the database unchanged: status 403 for a superuser,
    otherwise the status and the message of the [OrderCreationError] of
    the checkout, whose status is 400, or 500 when a commit was
    refused. *)
Theorem create_order_endpoint_outcomes be now u db r db' :
  run_request (routers_orders.create_order be now u) db = (r, db') →
  match r with
  | Return o =>
      User.is_superuser u = false
      ∧ run_request (create_order_from_cart be now (User.id u)) db = (Return o, db')
  | Raise e =>
      db' = db
      ∧ ∃ status detail,
          e = HTTPException status detail
          ∧ ((status = 403 ∧ User.is_superuser u = true)
             ∨ (User.is_superuser u = false
                ∧ run_request (create_order_from_cart be now (User.id u)) db
                  = (Raise (OrderCreationError detail status), db)
                ∧ (status = 400 ∨ (status = 500 ∧ ∃ d m, be d = Some m))))
  end.
Proof.
  unfold run_request, routers_orders.create_order.
  destruct (User.is_superuser u).
  { intros [= <- <-]. eauto 10. }
  unfold try_except.
  destruct (create_order_from_cart be now (User.id u) (open_session db))
    as [[o|e] s1] eqn:Hrun.
  - by intros [= <- <-].
  - destruct (create_order_raises_status _ _ _ _ _ _ Hrun) as (msg & c & -> & Hc).
    apply create_order_raises in Hrun as (_ & Hst & Hclean).
    rewrite Hclean by done. intros [= <- <-]. cbn [stored open_session].
    split; [done|]. exists c, msg. split; [done|]. right. eauto.
Qed.

(** X11.  [read_single_order] never writes, and returns an order only to
    a superuser or to the user who placed it: an unknown order is a 404,
    the order of somebody else a 403. *)
Theorem read_single_order_authorization oid u db r db' :
  run_request (routers_orders.read_single_order oid u) db = (r, db') →
  db' = db
  ∧ match r with
    | Return o =>
        orders db !! oid = Some o
        ∧ (User.is_superuser u = true ∨ Order.user_id o = User.id u)
    | Raise e =>
        (orders db !! oid = None ∧ e = HTTPException 404 "Pedido não encontrado.")
        ∨ (∃ o, orders db !! oid = Some o
                ∧ User.is_superuser u = false
                ∧ Order.user_id o ≠ User.id u
                ∧ e = HTTPException 403 "Não autorizado a visualizar este pedido.")
    end.
Proof.
  unfold run_request, routers_orders.read_single_order, get_order_by_id.
  unfold bind, get_live. cbn [live open_session].
  destruct (orders db !! oid) as [o|].
  2:{ intros [= <- <-]. eauto. }
  destruct (User.is_superuser u); cbn [negb andb].
  { intros [= <- <-]. eauto. }
  case_bool_decide as Hne; intros [= <- <-]; cbn [stored open_session].
  - split; [done|]. right. eauto.
  - split; [done|]. split; [done|]. right.
    destruct (decide (Order.user_id o = User.id u)); [done|]. by destruct Hne.
Qed.

(** X12.  [update_order_status_admin].  On success the caller is a
    superuser, the new status is one of the five allowed, and the stored
    order is the previous one with only its status replaced, whatever the
    previous status was; nothing else in the database changes.  Failures
    leave the database unchanged: 403 for a caller who is not a superuser,
    404 for an unknown order, 400 for a status outside the list, or a
    refused commit. *)
Theorem update_order_status_admin_outcomes be oid status u db r db' :
  run_request (routers_orders.update_order_status_admin be oid status u) db = (r, db') →
  match r with
  | Return o =>
      User.is_superuser u = true
      ∧ status ∈ routers_orders.allowed_statuses
      ∧ ∃ o0, orders db !! oid = Some o0
              ∧ o = Order.set_status status o0
              ∧ db' = set_orders (<[oid := o]> (orders db)) db
  | Raise e =>
      db' = db
      ∧ ((User.is_superuser u = false
          ∧ e = HTTPException 403 "The user doesn't have enough privileges")
         ∨ (orders db !! oid = None ∧ e = HTTPException 404 "Pedido não encontrado.")
         ∨ ((status ∉ routers_orders.allowed_statuses)
            ∧ e = HTTPException 400 ("Status '" +:+ status +:+ "' é inválido."))
         ∨ ∃ msg, e = DatabaseError msg)
  end.
Proof.
  unfold run_request, routers_orders.update_order_status_admin,
    get_current_superuser, get_order_by_id.
  destruct (User.is_superuser u); cbn [negb].
  2:{ run_py. intros [= <- <-]. eauto 10. }
  unfold lift, bind at 1. unfold bind at 1, get_live at 1. cbn [live open_session].
  destruct (orders db !! oid) as [o0|] eqn:Ho.
  2:{ intros [= <- <-]. eauto 10. }
  case_bool_decide as Hst.
  2:{ intros [= <- <-]. cbn [stored]. split; [done|]. do 2 right. left. eauto. }
  run_py. cbn [live stored]. destruct (be _).
  { intros [= <- <-]. cbn [stored]. eauto 10. }
  cbn [live orders set_orders]. rewrite lookup_insert_eq.
  intros [= <- <-]. cbn [stored]. eauto 10.
Qed.

(** X13.  [delete_product_endpoint].  On success the caller is a superuser
    and the product existed; afterwards it cannot be fetched and no review
    refers to it.  Failures (403 for a caller who is not a superuser, 404
    for an unknown product, a refused commit) leave the database
    unchanged. *)
Theorem delete_product_endpoint_outcomes be k u db r db' :
  run_request (routers_products.delete_product_endpoint be k u) db = (r, db') →
  match r with
  | Return _ =>
      User.is_superuser u = true
      ∧ is_Some (products db !! k)
      ∧ db' = without_product k db
      ∧ get_product db' k = None
      ∧ Forall (λ rv, ProductReview.product_id rv ≠ k) (reviews db')
  | Raise e =>
      db' = db
      ∧ ((User.is_superuser u = false
          ∧ e = HTTPException 403 "The user doesn't have enough privileges")
         ∨ (products db !! k = None ∧ e = HTTPException 404 "Produto não encontrado.")
         ∨ ∃ msg, e = DatabaseError msg)
  end.
Proof.
  unfold run_request, routers_products.delete_product_endpoint, get_current_superuser.
  destruct (User.is_superuser u); cbn [negb].
  2:{ run_py. intros [= <- <-]. eauto 10. }
  unfold lift, bind. rewrite delete_product_run. cbn [live stored open_session].
  destruct (products db !! k) as [p|] eqn:Hp.
  2:{ intros [= <- <-]. eauto 10. }
  destruct (be _).
  { intros [= <- <-]. eauto 10. }
  intros [= <- <-]. cbn [stored open_session].
  split_and!; [done|done|done| |].
  - unfold get_product, without_product. cbn. apply lookup_delete_eq.
  - unfold without_product. cbn. apply Forall_forall.
    by intros x [? _]%list_elem_of_filter.
Qed.

(* ===================================================================== *)
(** * [str] and [int] on order identifiers                                *)
(* ===================================================================== *)

Lemma digit_of_pretty_N_char d :
  (d < 10)%N → digit_of (pretty_N_char d) = Some (Z.of_N d).
Proof.
  intros Hd.
  assert (d = 0 ∨ d = 1 ∨ d = 2 ∨ d = 3 ∨ d = 4 ∨ d = 5 ∨ d = 6 ∨ d = 7
          ∨ d = 8 ∨ d = 9)%N as Hcases by lia.
  repeat (destruct Hcases as [->|Hcases]; [reflexivity|]). by subst.
Qed.

Lemma digit_is_plain c :
  is_Some (digit_of c) →
  is_space c = false ∧ Ascii.eqb c "-" = false ∧ Ascii.eqb c "+" = false.
Proof.
  destruct c as [[] [] [] [] [] [] [] []]; vm_compute; intros [d Hd];
    (discriminate || done).
Qed.

Lemma lstrip_plain l : Forall (λ c, is_space c = false) l → lstrip l = l.
Proof. destruct 1 as [|c l Hc _]; [done|]. simpl. by rewrite Hc. Qed.

Lemma strip_plain l : Forall (λ c, is_space c = false) l → strip l = l.
Proof.
  intros Hl. unfold strip. rewrite (lstrip_plain l) by done.
  rewrite lstrip_plain by by apply Forall_rev. apply rev_involutive.
Qed.

(** The characters of a positive number are digits, and reading them
    back continues the number read so far. *)
Lemma pretty_N_go_digits x :
  (0 < x)%N → ∀ s,
  ∃ ds d,
    list_ascii_of_string (pretty_N_go x s) = ds ++ list_ascii_of_string s
    ∧ Forall (λ c, is_Some (digit_of c)) ds
    ∧ ds ≠ []
    ∧ ∀ b acc rest,
        parse_digits b acc (ds ++ rest) = parse_digits true (acc * d + Z.of_N x) rest.
Proof.
  induction (N.lt_wf_0 x) as [x _ IH]. intros Hx s.
  rewrite pretty_N_go_step by done.
  assert (x `mod` 10 < 10)%N as Hmod by (apply N.mod_upper_bound; lia).
  pose proof (digit_of_pretty_N_char _ Hmod) as Hc.
  pose proof (N.div_mod x 10 ltac:(lia)) as Hdm.
  destruct (decide (x `div` 10 = 0)%N) as [Hz|Hnz].
  - rewrite Hz, pretty_N_go_0. exists [pretty_N_char (x `mod` 10)], 10.
    split_and!; [done| |done|].
    + constructor; [by rewrite Hc|done].
    + intros b acc rest. cbn [app parse_digits]. rewrite Hc. f_equal. lia.
  - destruct (IH (x `div` 10)%N) with (s := String (pretty_N_char (x `mod` 10)) s)
      as (ds & d & Hl & Hds & Hne & Hparse).
    { apply N.div_lt; lia. }
    { lia. }
    exists (ds ++ [pretty_N_char (x `mod` 10)]), (10 * d).
    split_and!.
    + rewrite Hl. cbn [list_ascii_of_string]. by rewrite <- app_assoc.
    + apply Forall_app. split; [done|]. constructor; [by rewrite Hc|done].
    + by destruct ds.
    + intros b acc rest. rewrite <- app_assoc. cbn [app].
      rewrite Hparse. cbn [parse_digits]. rewrite Hc. f_equal. lia.
Qed.

Lemma digits_plain ds :
  Forall (λ c, is_Some (digit_of c)) ds → Forall (λ c, is_space c = false) ds.
Proof. intros Hds. eapply Forall_impl; [exact Hds|]. intros c Hc. by apply digit_is_plain. Qed.

Lemma digit_is_ascii c : is_Some (digit_of c) → (N_of_ascii c < 127)%N.
Proof.
  destruct c as [[] [] [] [] [] [] [] []]; vm_compute; intros [d Hd];
    (discriminate || done).
Qed.

Lemma digits_ascii ds :
  Forall (λ c, is_Some (digit_of c)) ds → Forall (λ c, (N_of_ascii c < 127)%N) ds.
Proof.
  intros Hds. eapply Forall_impl; [exact Hds|]. intros c Hc. by apply digit_is_ascii.
Qed.

(** Characters below 127 are their own code points and stay as they
    are. *)
Lemma code_points_plain l :
  Forall (λ c, (N_of_ascii c < 127)%N) l →
  code_points (N_of_ascii <$> l) = Some (N_of_ascii <$> l)
  ∧ mapM to_ascii (N_of_ascii <$> l) = Some l.
Proof.
  induction 1 as [|c l Hc _ [IH1 IH2]]; [done|].
  rewrite fmap_cons. cbn [code_points mapM].
  rewrite (proj2 (N.ltb_lt _ 128)) by lia. rewrite IH1, IH2.
  unfold to_ascii. rewrite (proj2 (N.ltb_lt _ 127)) by done.
  by rewrite ascii_N_embedding.
Qed.

Lemma ascii_form_plain s :
  Forall (λ c, (N_of_ascii c < 127)%N) (list_ascii_of_string s) →
  ascii_form s = Some (list_ascii_of_string s).
Proof.
  intros [H1 H2]%code_points_plain. unfold ascii_form. by rewrite H1.
Qed.

(** [str] of a positive number is read back by [int]. *)
Lemma int_of_str_pretty_positive (p : positive) :
  int_of_str (pretty p) = Some (Z.pos p).
Proof.
  unfold pretty, pretty_positive, pretty, pretty_N. rewrite decide_False by done.
  destruct (pretty_N_go_digits (N.pos p) ltac:(lia) EmptyString)
    as (ds & d & Hl & Hds & Hne & Hparse).
  cbn [list_ascii_of_string] in Hl. rewrite app_nil_r in Hl.
  unfold int_of_str. rewrite ascii_form_plain by (rewrite Hl; by apply digits_ascii).
  cbn [mbind option_bind]. rewrite Hl.
  rewrite strip_plain by by apply digits_plain.
  destruct ds as [|c rest] eqn:Heq; [done|].
  assert (is_Some (digit_of c)) as Hc by apply (Forall_inv Hds).
  destruct (digit_is_plain c Hc) as (_ & -> & ->).
  specialize (Hparse false 0 []). rewrite app_nil_r in Hparse.
  by rewrite Hparse.
Qed.

(** [str] of a negative number is read back by [int]. *)
Lemma int_of_str_pretty_negative (p : positive) :
  int_of_str ("-" +:+ pretty p) = Some (Z.neg p).
Proof.
  unfold pretty, pretty_positive, pretty, pretty_N. rewrite decide_False by done.
  destruct (pretty_N_go_digits (N.pos p) ltac:(lia) EmptyString)
    as (ds & d & Hl & Hds & Hne & Hparse).
  cbn [list_ascii_of_string] in Hl. rewrite app_nil_r in Hl.
  change ("-" +:+ pretty_N_go (N.pos p) EmptyString)
    with (String "-"%char (pretty_N_go (N.pos p) EmptyString)).
  unfold int_of_str. rewrite ascii_form_plain.
  2:{ cbn [list_ascii_of_string]. rewrite Hl.
      constructor; [by vm_compute|by apply digits_ascii]. }
  cbn [mbind option_bind list_ascii_of_string]. rewrite Hl.
  rewrite strip_plain by (constructor; [done|by apply digits_plain]).
  cbn [Ascii.eqb Bool.eqb].
  specialize (Hparse false 0 []). rewrite app_nil_r in Hparse.
  by rewrite Hparse.
Qed.

(** X14.  [int(str(n)) == n] for every integer [n]: the [order_id] that
    [create_checkout_session] writes into the metadata of the session is
    read back by [stripe_webhook] as the same number. *)
Theorem int_of_str_str_of_int n : int_of_str (str_of_int n) = Some n.
Proof.
  unfold str_of_int, pretty, pretty_Z. destruct n as [|p|p].
  - reflexivity.
  - apply int_of_str_pretty_positive.
  - apply int_of_str_pretty_negative.
Qed.

(* ===================================================================== *)
(** * Payments: line items, the session and the webhook together          *)
(* ===================================================================== *)

(** X15.  The loop that builds [line_items].  It appends one entry per
    order item, in order: currency [brl], the name of the product or
    [Produto Removido] when the product is gone, the quantity of the order
    item, and [int(price_at_purchase * 100)] as unit amount.  It fails
    only if that conversion fails for some item, that is for a price that
    is NaN or infinite. *)
Theorem build_line_items_spec db items : ∀ acc,
  match build_line_items db items acc with
  | Return line_items =>
      ∃ new, line_items = acc ++ new ∧ Forall2 (line_item_of db) items new
  | Raise e =>
      ∃ item, item ∈ items
              ∧ int_of_float (OrderItem.price_at_purchase item * 100)%float = None
              ∧ (e = ValueError "cannot convert float NaN to integer"
                 ∨ e = OtherError "cannot convert float infinity to integer")
  end.
Proof.
  induction items as [|item rest IH]; intros acc.
  - exists []. by rewrite app_nil_r.
  - cbn [build_line_items]. cbv zeta.
    destruct (int_of_float (OrderItem.price_at_purchase item * 100)%float)
      as [unit_amount|] eqn:Hint.
    + specialize (IH (acc ++ [mkLineItem "brl"
                  (match OrderItem_product db item with
                   | Some p => Product.name p
                   | None => "Produto Removido"
                   end) unit_amount (OrderItem.quantity item)])).
      destruct (build_line_items db rest _) as [lis|e].
      * destruct IH as (new & -> & Hall). eexists (_ :: new).
        split; [by rewrite <- app_assoc|]. by constructor.
      * destruct IH as (it & Hin & Hnone & He). exists it.
        split_and!; [by right|done..].
    + exists item. split_and!; [by left|done|]. destruct (is_nan _); eauto.
Qed.

Lemma same_purchase_refl o : same_purchase o o.
Proof. by repeat split. Qed.

(** X16.  [create_checkout_session] writes at most one field.  Whatever
    the answer, the tables other than [orders] are unchanged, no order is
    added or removed, every order keeps its user, date, amounts, coupon
    code, items and status, and only the order of the request can get
    another [payment_intent_id].  A URL is returned only for an existing
    order that is not paid, and every failure leaves the database
    unchanged. *)
Theorem checkout_session_changes_only_payment_intent stripe be k db r db' :
  run_request (create_checkout_session stripe be k) db = (r, db') →
  same_outside_orders db db'
  ∧ dom (orders db') = dom (orders db)
  ∧ (∀ j o', orders db' !! j = Some o' →
       ∃ o, orders db !! j = Some o
            ∧ same_purchase o o'
            ∧ Order.status o' = Order.status o
            ∧ (Order.payment_intent_id o' ≠ Order.payment_intent_id o → j = k))
  ∧ match r with
    | Return _ => ∃ o, orders db !! k = Some o ∧ Order.status o ≠ "paid"
    | Raise _ => db' = db
    end.
Proof.
  unfold run_request. rewrite create_checkout_session_run.
  cbn [live stored open_session].
  assert (same_outside_orders db db
          ∧ dom (orders db) = dom (orders db)
          ∧ (∀ j o', orders db !! j = Some o' →
               ∃ o, orders db !! j = Some o ∧ same_purchase o o'
                    ∧ Order.status o' = Order.status o
                    ∧ (Order.payment_intent_id o' ≠ Order.payment_intent_id o → j = k)))
    as Hsame.
  { split_and!; [by repeat split|done|]. intros j o' Ho. exists o'.
    split_and!; [done|apply same_purchase_refl|done..]. }
  destruct (orders db !! k) as [o|] eqn:Ho.
  2:{ intros [= <- <-]. by destruct Hsame as (? & ? & ?). }
  case_decide as Hst.
  { intros [= <- <-]. by destruct Hsame as (? & ? & ?). }
  destruct (build_line_items db (Order.items o) []) as [li|e].
  2:{ intros [= <- <-]. by destruct Hsame as (? & ? & ?). }
  destruct (stripe li (str_of_int k)) as [sess|e].
  2:{ destruct e; intros [= <- <-]; by destruct Hsame as (? & ? & ?). }
  destruct (truthy (url sess)).
  2:{ intros [= <- <-]. by destruct Hsame as (? & ? & ?). }
  destruct (payment_intent sess) as [|pid|].
  1,3: intros [= <- <-]; destruct Hsame as (? & ? & ?); split_and!; eauto.
  cbv zeta. destruct (be _).
  { intros [= <- <-]. by destruct Hsame as (? & ? & ?). }
  intros [= <- <-]. cbn [stored open_session]. unfold with_payment_intent.
  split_and!; [by repeat split| | |by eauto].
  - cbn [orders set_orders]. by apply dom_insert_lookup_L.
  - intros j o'. cbn [orders set_orders]. destruct (decide (k = j)) as [<-|Hne].
    + rewrite lookup_insert_eq. intros [= <-]. exists o.
      split_and!; [done|by repeat split|done..].
    + rewrite lookup_insert_ne by done. intros Hj. exists o'.
      split_and!; [done|apply same_purchase_refl|done|]. by intros [].
Qed.

(** X17.  The answers of [stripe_webhook]: the acknowledgement [success];
    the acknowledgement that the event was ignored, and then nothing has
    changed; or an exception, which leaves the database unchanged and is
    status 400 for a payload or a signature that does not verify, or
    status 500 for a completed-checkout event whose [order_id] is a
    non-empty string that is no integer literal or whose commit was
    refused. *)
Theorem webhook_answers be constructed db r db' :
  run_request (stripe_webhook be constructed) db = (r, db') →
  match r with
  | Return a => a = ack_success ∨ (a = ack_ignored ∧ db' = db)
  | Raise e =>
      db' = db
      ∧ ((constructed = InvalidPayload
          ∧ e = HTTPException 400 "Invalid webhook payload")
         ∨ (constructed = InvalidSignature
            ∧ e = HTTPException 400 "Invalid webhook signature")
         ∨ (e = webhook_retry_error
            ∧ ∃ ev, constructed = Verified ev
                    ∧ type ev = "checkout.session.completed"
                    ∧ ((∃ str, metadata (data_object ev) !! "order_id" = Some str
                               ∧ str ≠ EmptyString ∧ int_of_str str = None)
                       ∨ (∃ k o, event_order_id ev = Some k
                                 ∧ orders db !! k = Some o
                                 ∧ is_Some (be (paid_by ev k o db))))))
  end.
Proof.
  unfold run_request.
  destruct constructed as [| |ev].
  1,2: intros [= <- <-]; cbn [stored open_session]; eauto 10.
  rewrite stripe_webhook_run. cbn [live stored open_session].
  case_decide as Hty; [|intros [= <- <-]; by left]. cbv zeta.
  unfold event_order_id.
  destruct (metadata (data_object ev) !! "order_id") as [str|] eqn:Hmeta.
  2:{ intros [= <- <-]. by right. }
  destruct (truthy (Some str)) eqn:Htr.
  2:{ intros [= <- <-]. by right. }
  destruct (int_of_str str) as [k|] eqn:Hint.
  2:{ intros [= <- <-]. split; [done|]. do 2 right. split; [done|].
      exists ev. split_and!; [done..|]. left. exists str. split_and!; [done| |done].
      intros ->. discriminate. }
  destruct (orders db !! k) as [o|] eqn:Ho.
  2:{ intros [= <- <-]. by left. }
  destruct (_ && _).
  2:{ intros [= <- <-]. by left. }
  fold (paid_by ev k o db). destruct (be (paid_by ev k o db)) eqn:Hbe.
  - intros [= <- <-]. split; [done|]. do 2 right. split; [done|].
    exists ev. split_and!; [done..|]. right. exists k, o. rewrite Hmeta. simpl.
    split_and!; [done..|]. by rewrite Hbe.
  - intros [= <- <-]. by left.
Qed.

(** X18.  Delivering the same request to [stripe_webhook] again, after a
    delivery that was acknowledged, gives the same acknowledgement and
    changes nothing. *)
Theorem webhook_redelivery_changes_nothing be constructed db a db1 :
  run_request (stripe_webhook be constructed) db = (Return a, db1) →
  run_request (stripe_webhook be constructed) db1 = (Return a, db1).
Proof.
  intros Hrun.
  destruct (webhook_effect _ _ _ _ _ Hrun)
    as [->|(ev & k & o & -> & Hty & Hk & Ho & Hst & Hps & Hbe & [= ->] & ->)]; [done|].
  rewrite (webhook_known_order be ev k (mark_paid (data_object ev) o)); [|done..|].
  - by rewrite bool_decide_eq_false_2 by (intros Hn; by apply Hn).
  - unfold paid_by. cbn [orders set_orders]. apply lookup_insert_eq.
Qed.

(** X19.  [stripe_webhook] touches only [status] and [payment_intent_id]
    of orders: products, reviews, coupons, carts and cart lines are
    unchanged, and every order afterwards is an order from before with the
    same user, date, amounts, coupon code and items. *)
Theorem webhook_touches_only_payment_fields be constructed db r db' :
  run_request (stripe_webhook be constructed) db = (r, db') →
  same_outside_orders db db'
  ∧ ∀ k o', orders db' !! k = Some o' →
            ∃ o, orders db !! k = Some o ∧ same_purchase o o'.
Proof.
  intros Hrun.
  destruct (webhook_effect _ _ _ _ _ Hrun)
    as [->|(ev & k & o & -> & Hty & Hk & Ho & Hst & Hps & Hbe & _ & ->)].
  - split; [by repeat split|]. intros k o' Ho. exists o'.
    split; [done|apply same_purchase_refl].
  - split; [by repeat split|]. intros j o'. unfold paid_by. cbn [orders set_orders].
    destruct (decide (k = j)) as [<-|Hne].
    + rewrite lookup_insert_eq. intros [= <-]. exists o. split; [done|by repeat split].
    + rewrite lookup_insert_ne by done. intros Hj. exists o'.
      split; [done|apply same_purchase_refl].
Qed.

(** X20.  From the checkout session to the paid order.  After
    [create_checkout_session] has returned a URL for order [k], a
    completed-checkout event that carries [str(k)] as [order_id] and
    reports [paid] makes [stripe_webhook] mark that order paid, with the
    payment identifier of the event and the purchase unchanged, when the
    commit is accepted; when it is refused, the answer is the 500 that
    asks for a retry and nothing changes. *)
Theorem checkout_then_webhook_pays_the_order stripe be k db checkout_url db1 ev :
  run_request (create_checkout_session stripe be k) db = (Return checkout_url, db1) →
  type ev = "checkout.session.completed" →
  metadata (data_object ev) !! "order_id" = Some (str_of_int k) →
  payment_status (data_object ev) = Some "paid" →
  ∃ o o1,
    orders db !! k = Some o
    ∧ orders db1 !! k = Some o1
    ∧ same_purchase o o1
    ∧ match be (paid_by ev k o1 db1) with
      | None =>
          run_request (stripe_webhook be (Verified ev)) db1
          = (Return ack_success, paid_by ev k o1 db1)
          ∧ ∃ o2, orders (paid_by ev k o1 db1) !! k = Some o2
                  ∧ Order.status o2 = "paid"
                  ∧ Order.payment_intent_id o2 = event_payment_intent (data_object ev)
                  ∧ same_purchase o o2
      | Some _ =>
          run_request (stripe_webhook be (Verified ev)) db1
          = (Raise webhook_retry_error, db1)
      end.
Proof.
  intros Hrun Hty Hmeta Hps.
  assert (event_order_id ev = Some k) as Hk.
  { unfold event_order_id. rewrite Hmeta. cbn [mbind option_bind].
    unfold str_of_int, pretty, pretty_Z.
    destruct k as [|p|p];
      [reflexivity|apply int_of_str_pretty_positive|apply int_of_str_pretty_negative]. }
  unfold run_request in Hrun. rewrite create_checkout_session_run in Hrun.
  cbn [live stored open_session] in Hrun.
  destruct (orders db !! k) as [o|] eqn:Ho; [|done].
  case_decide as Hst; [done|].
  destruct (build_line_items db (Order.items o) []) as [li|e]; [|done].
  destruct (stripe li (str_of_int k)) as [sess|e]; [|by destruct e].
  destruct (truthy (url sess)); [|done].
  assert (∃ o1, orders db1 !! k = Some o1 ∧ same_purchase o o1
                ∧ Order.status o1 ≠ "paid") as (o1 & Ho1 & Hsame & Hst1).
  { destruct (payment_intent sess) as [|pid|].
    1,3: injection Hrun as _ <-; exists o; split_and!;
         [done|apply same_purchase_refl|done].
    cbv zeta in Hrun. destruct (be _); [done|]. injection Hrun as _ <-.
    cbn [stored open_session]. unfold with_payment_intent. cbn [orders set_orders].
    rewrite lookup_insert_eq. eexists. split_and!; [done|by repeat split|done]. }
  exists o, o1. split_and!; [done..|].
  rewrite (webhook_known_order be ev k o1 db1 Hty Hk Ho1).
  rewrite !bool_decide_eq_true_2 by done. cbn [andb].
  destruct (be (paid_by ev k o1 db1)); [done|]. split; [done|].
  exists (mark_paid (data_object ev) o1). unfold paid_by. cbn [orders set_orders].
  rewrite lookup_insert_eq. split_and!; [done..|].
  destruct Hsame as (? & ? & ? & ? & ? & ?). by repeat split.
Qed.

(* ===================================================================== *)
(** * Recovering a password                                               *)
(* ===================================================================== *)

Section password_reset.
Import accounts.

Lemma create_password_reset_token_run be now email tok s :
  create_password_reset_token be now email tok s =
  let rows := mark_email email <$> password_reset_tokens (live s) in
  let row := PasswordResetToken.mk (next_key (PasswordResetToken.id <$> rows))
               email tok (now + one_hour) false in
  let db' := set_password_reset_tokens (rows ++ [row]) (live s) in
  match be db' with
  | None => (Return row, open_session db')
  | Some msg => (Raise (DatabaseError msg), mkSession (stored s) db')
  end.
Proof.
  unfold create_password_reset_token. run_accounts.
  cbn [live stored set_password_reset_tokens password_reset_tokens users].
  destruct (be _); [done|].
  cbn [live stored set_password_reset_tokens password_reset_tokens users].
  rewrite head_filter_snoc; [done| |done].
  destruct (head (filter _ _)) as [x|] eqn:Hh; [|done].
  apply head_filter_Some in Hh as [Hx Heq]. cbn [PasswordResetToken.id] in Heq.
  assert (PasswordResetToken.id x
          < next_key (PasswordResetToken.id <$>
                        (mark_email email <$> password_reset_tokens (live s)))) as Hlt
    by by apply next_key_fresh, list_elem_of_fmap_2.
  lia.
Qed.

Lemma get_user_by_password_reset_token_run be now tok s :
  get_user_by_password_reset_token be now tok s =
  match token_row (live s) tok with
  | None => (Return None, s)
  | Some row =>
      if PasswordResetToken.used row then (Return None, s)
      else if PasswordResetToken.expires_at row <? now then (Return None, s)
      else
        match get_user_by_email (live s) (PasswordResetToken.email row) with
        | None => (Return None, s)
        | Some user =>
            let db' := set_password_reset_tokens
                         (mark_id row <$> password_reset_tokens (live s)) (live s) in
            match be db' with
            | None => (Return (Some user), open_session db')
            | Some msg => (Raise (DatabaseError msg), mkSession (stored s) db')
            end
        end
  end.
Proof.
  unfold get_user_by_password_reset_token. run_accounts.
  destruct (token_row (live s) tok) as [row|]; [|done].
  destruct (PasswordResetToken.used row); [done|].
  destruct (_ <? _); [done|].
  destruct (get_user_by_email _ _); [|done].
  cbn [live stored]. by destruct (be _).
Qed.

Lemma token_row_marked (f : PasswordResetToken.t → PasswordResetToken.t) db tok :
  (∀ t, PasswordResetToken.token (f t) = PasswordResetToken.token t) →
  token_row (set_password_reset_tokens (f <$> password_reset_tokens db) db) tok
  = f <$> token_row db tok.
Proof.
  intros Hf. unfold token_row. cbn [password_reset_tokens set_password_reset_tokens].
  apply head_filter_fmap. intros t. by rewrite Hf.
Qed.

(** X21.  A password-reset token is accepted once.  When
    [get_user_by_password_reset_token] returns a user, the token was
    stored, unused and not expired ([now <= expires_at]), and the user is
    the one with the address of the token; the users are unchanged, and
    presenting the same token again, at any time, returns [None] and
    changes nothing. *)
Theorem reset_token_is_single_use be now tok db u db1 :
  run_request (get_user_by_password_reset_token be now tok) db = (Return (Some u), db1) →
  (∃ row, token_row db tok = Some row
          ∧ PasswordResetToken.used row = false
          ∧ now ≤ PasswordResetToken.expires_at row
          ∧ get_user_by_email db (PasswordResetToken.email row) = Some u)
  ∧ users db1 = users db
  ∧ ∀ now', run_request (get_user_by_password_reset_token be now' tok) db1
            = (Return None, db1).
Proof.
  unfold run_request. rewrite get_user_by_password_reset_token_run.
  cbn [live stored open_session].
  destruct (token_row db tok) as [row|] eqn:Hrow; [|done].
  destruct (PasswordResetToken.used row) eqn:Hused; [done|].
  destruct (Z.ltb_spec0 (PasswordResetToken.expires_at row) now); [done|].
  destruct (get_user_by_email db _) as [user|] eqn:Hu; [|done].
  cbv zeta. destruct (be _); [done|]. intros [= <- <-].
  cbn [stored open_session]. split_and!; [exists row; split_and!; [done|done|lia|done]|done|].
  intros now'. rewrite get_user_by_password_reset_token_run. cbn [live open_session].
  rewrite token_row_marked by (intros t; unfold mark_email, mark_id; by case_decide).
  rewrite Hrow. cbn [fmap option_fmap option_map]. unfold mark_id. by rewrite decide_True.
Qed.

(** X22.  A new token retires the earlier ones.  After
    [create_password_reset_token] the new row is stored for the address,
    unused, expiring one hour after [now]; it is the only unused token of
    that address, the users are unchanged, and any token that was stored
    for the address before is refused from then on. *)
Theorem new_token_retires_earlier_tokens be now email tok db row db1 :
  run_request (create_password_reset_token be now email tok) db = (Return row, db1) →
  row ∈ password_reset_tokens db1
  ∧ PasswordResetToken.email row = email
  ∧ PasswordResetToken.token row = tok
  ∧ PasswordResetToken.used row = false
  ∧ PasswordResetToken.expires_at row = now + one_hour
  ∧ users db1 = users db
  ∧ (∀ r, r ∈ password_reset_tokens db1 → PasswordResetToken.email r = email →
          PasswordResetToken.used r = false → r = row)
  ∧ (∀ old r now', token_row db old = Some r → PasswordResetToken.email r = email →
       run_request (get_user_by_password_reset_token be now' old) db1
       = (Return None, db1)).
Proof.
  unfold run_request. rewrite create_password_reset_token_run.
  cbn [live stored open_session]. cbv zeta. destruct (be _); [done|].
  intros [= <- <-]. cbn [stored open_session password_reset_tokens
                         set_password_reset_tokens users].
  split_and!; [|done..| |].
  - apply elem_of_app. right. by left.
  - intros r [Hr|Hr%list_elem_of_singleton]%elem_of_app Hemail Hused; [|done].
    apply list_elem_of_fmap in Hr as (r0 & -> & _).
    unfold mark_email in *. case_decide as Hdec; [done|]. by destruct Hdec.
  - intros old r now' Hr Hemail.
    rewrite get_user_by_password_reset_token_run. cbn [live open_session].
    assert (token_row (set_password_reset_tokens
                         ((mark_email email <$> password_reset_tokens db) ++
                          [PasswordResetToken.mk
                             (next_key (PasswordResetToken.id <$>
                                (mark_email email <$> password_reset_tokens db)))
                             email tok (now + one_hour) false]) db) old
            = Some (PasswordResetToken.set_used true r)) as ->; [|done].
    unfold token_row in *. cbn [password_reset_tokens set_password_reset_tokens].
    rewrite filter_app.
    assert (head (filter (λ t, PasswordResetToken.token t = old)
                    (mark_email email <$> password_reset_tokens db))
            = Some (PasswordResetToken.set_used true r)) as Hmap.
    { rewrite head_filter_fmap by (intros t; unfold mark_email; by case_decide).
      rewrite Hr. cbn [fmap option_fmap option_map]. unfold mark_email.
      by rewrite decide_True. }
    by destruct (filter _ (mark_email email <$> password_reset_tokens db)).
Qed.

Lemma get_user_by_email_Some db email u :
  get_user_by_email db email = Some u → u ∈ users db ∧ User.email u = email.
Proof. unfold get_user_by_email. by intros [? ?]%head_filter_Some. Qed.

Lemma get_user_by_email_assigned hashed user db email :
  get_user_by_email (set_users (assign_password hashed user <$> users db) db) email
  = assign_password hashed user <$> get_user_by_email db email.
Proof.
  unfold get_user_by_email. cbn [users set_users].
  apply head_filter_fmap. intros u. unfold assign_password. by case_decide.
Qed.

Lemma reset_password_run h be now tok pw s :
  reset_password h be now tok pw s =
  match get_user_by_password_reset_token be now tok s with
  | (Return None, s1) =>
      (Raise (HTTPException 400 "Token de recuperação inválido ou expirado."), s1)
  | (Return (Some user), s1) =>
      let db' := set_users (assign_password (h pw) user <$> users (live s1)) (live s1) in
      match be db' with
      | None =>
          match head (filter (λ u, User.id u = User.id user) (users db')) with
          | Some _ => (Return "Senha atualizada com sucesso.", open_session db')
          | None => (Raise (OtherError "Could not refresh instance"), open_session db')
          end
      | Some msg => (Raise (DatabaseError msg), mkSession (stored s1) db')
      end
  | (Raise e, s1) => (Raise e, s1)
  end.
Proof.
  unfold reset_password. unfold bind at 1.
  destruct (get_user_by_password_reset_token be now tok s) as [[[user|]|e] s1]; [|done..].
  unfold update_user_password. run_accounts. cbn [live stored].
  destruct (be _); [done|]. cbn [live]. by destruct (head _).
Qed.

Lemma refresh_assigned hashed user db :
  user ∈ users db →
  is_Some (head (filter (λ u, User.id u = User.id user)
                   (assign_password hashed user <$> users db))).
Proof.
  intros Hin. rewrite head_filter_fmap
    by (intros u; unfold assign_password; by case_decide).
  destruct (head (filter _ (users db))) eqn:Hh; [by eexists|].
  exfalso. eapply head_filter_None in Hh; [|exact Hin]. by apply Hh.
Qed.

(** X23.  [reset_password].  On success the token was stored, unused and
    not expired, the user with the address of the token has the hash of
    the new password, and the token is marked used.  A token that is
    unknown, used, expired, or of an address without a user is a 400 that
    changes nothing.  No failure changes a password. *)
Theorem reset_password_outcomes h be now tok pw db r db' :
  run_request (reset_password h be now tok pw) db = (r, db') →
  match r with
  | Return msg =>
      msg = "Senha atualizada com sucesso."
      ∧ ∃ row user,
          token_row db tok = Some row
          ∧ PasswordResetToken.used row = false
          ∧ now ≤ PasswordResetToken.expires_at row
          ∧ get_user_by_email db (PasswordResetToken.email row) = Some user
          ∧ users db' = assign_password (h pw) user <$> users db
          ∧ password_reset_tokens db' = mark_id row <$> password_reset_tokens db
  | Raise e =>
      users db' = users db
      ∧ ((e = HTTPException 400 "Token de recuperação inválido ou expirado."
          ∧ db' = db
          ∧ (token_row db tok = None
             ∨ ∃ row, token_row db tok = Some row
                      ∧ (PasswordResetToken.used row = true
                         ∨ PasswordResetToken.expires_at row < now
                         ∨ get_user_by_email db (PasswordResetToken.email row) = None)))
         ∨ ∃ msg, e = DatabaseError msg)
  end.
Proof.
  unfold run_request. rewrite reset_password_run.
  rewrite get_user_by_password_reset_token_run. cbn [live stored open_session].
  destruct (token_row db tok) as [row|] eqn:Hrow.
  2:{ intros [= <- <-]. cbn [stored open_session]. eauto 10. }
  destruct (PasswordResetToken.used row) eqn:Hused.
  { intros [= <- <-]. cbn [stored open_session]. split; [done|]. left. eauto 10. }
  destruct (Z.ltb_spec0 (PasswordResetToken.expires_at row) now).
  { intros [= <- <-]. cbn [stored open_session]. split; [done|]. left. eauto 10. }
  destruct (get_user_by_email db _) as [user|] eqn:Hu.
  2:{ intros [= <- <-]. cbn [stored open_session]. split; [done|]. left. eauto 10. }
  cbv zeta. destruct (be _).
  { intros [= <- <-]. cbn [stored open_session]. eauto 10. }
  cbn [live stored open_session users set_users set_password_reset_tokens
       password_reset_tokens].
  destruct (be _).
  { intros [= <- <-]. cbn [stored users set_password_reset_tokens]. eauto 10. }
  destruct (refresh_assigned (h pw) user db) as [u' ->].
  { by eapply get_user_by_email_Some. }
  intros [= <- <-]. split; [done|]. exists row, user.
  split_and!; [done|done|lia|done..].
Qed.

(** X24.  [forgot_password] answers with the same [detail] whether or not
    the address is known, and never changes the users.  For an unknown
    address it stores nothing and returns no token; for a known one it
    returns the fresh token and stores it for the address, unused,
    expiring in one hour. *)
Theorem forgot_password_outcomes be now fresh email db resp db' :
  run_request (forgot_password be now fresh email) db = (Return resp, db') →
  detail resp = forgot_password_detail
  ∧ users db' = users db
  ∧ match get_user_by_email db email with
    | None => token resp = None ∧ db' = db
    | Some u =>
        token resp = Some fresh
        ∧ ∃ row, row ∈ password_reset_tokens db'
                 ∧ PasswordResetToken.email row = email
                 ∧ PasswordResetToken.token row = fresh
                 ∧ PasswordResetToken.used row = false
                 ∧ PasswordResetToken.expires_at row = now + one_hour
    end.
Proof.
  unfold run_request, forgot_password. unfold bind at 1, get_live at 1.
  cbn [live open_session].
  destruct (get_user_by_email db email) as [u|] eqn:Hu.
  2:{ by intros [= <- <-]. }
  apply get_user_by_email_Some in Hu as [_ Hemail].
  unfold bind. rewrite create_password_reset_token_run. cbv zeta.
  cbn [live stored open_session]. destruct (be _); [done|].
  intros [= <- <-]. cbn [stored open_session users set_password_reset_tokens
                         password_reset_tokens detail token].
  split_and!; [done..|]. eexists.
  split; [apply elem_of_app; right; by left|]. by split_and!.
Qed.

(** X25.  From the request to the new password.  A token obtained from
    [forgot_password] at [now], and not stored before, is refused by
    [reset_password] after [now] plus one hour, with a 400 that changes
    nothing.  Up to that time [reset_password] either fails on a refused
    commit or succeeds, and then the user with that address has the hash
    of the new password and the token cannot be used again. *)
Theorem forgot_then_reset_sets_password h be now now' fresh email pw db resp db1 r db2 :
  token_row db fresh = None →
  run_request (forgot_password be now fresh email) db = (Return resp, db1) →
  token resp = Some fresh →
  run_request (reset_password h be now' fresh pw) db1 = (r, db2) →
  (now + one_hour < now' →
   r = Raise (HTTPException 400 "Token de recuperação inválido ou expirado.")
   ∧ db2 = db1)
  ∧ (now' ≤ now + one_hour →
     match r with
     | Return _ =>
         ∃ u, get_user_by_email db email = Some u
              ∧ get_user_by_email db2 email = Some (User.set_hashed_password (h pw) u)
              ∧ ∀ now'' pw',
                  run_request (reset_password h be now'' fresh pw') db2
                  = (Raise (HTTPException 400
                              "Token de recuperação inválido ou expirado."), db2)
     | Raise e => ∃ msg, e = DatabaseError msg
     end).
Proof.
  intros Hfresh Hforgot Htok.
  unfold run_request, forgot_password in Hforgot.
  unfold bind at 1, get_live at 1 in Hforgot. cbn [live open_session] in Hforgot.
  destruct (get_user_by_email db email) as [u|] eqn:Hu.
  2:{ injection Hforgot as <- <-. done. }
  destruct (get_user_by_email_Some _ _ _ Hu) as [Hin Hemail].
  unfold bind in Hforgot. rewrite create_password_reset_token_run in Hforgot.
  cbv zeta in Hforgot. cbn [live stored open_session] in Hforgot.
  destruct (be _); [done|]. injection Hforgot as _ <-. cbn [stored open_session].
  set (rows := mark_email (User.email u) <$> password_reset_tokens db).
  set (row := PasswordResetToken.mk (next_key (PasswordResetToken.id <$> rows))
                (User.email u) fresh (now + one_hour) false).
  set (d1 := set_password_reset_tokens (rows ++ [row]) db).
  assert (token_row d1 fresh = Some row) as Hrow.
  { unfold token_row in *. cbn [d1 password_reset_tokens set_password_reset_tokens].
    apply head_filter_snoc; [|done]. unfold rows.
    rewrite head_filter_fmap by (intros t; unfold mark_email; by case_decide).
    by rewrite Hfresh. }
  assert (get_user_by_email d1 (User.email u) = Some u) as Hu1 by by rewrite Hemail.
  unfold run_request at 1. rewrite reset_password_run.
  rewrite get_user_by_password_reset_token_run. cbn [live stored open_session].
  rewrite Hrow. cbn [PasswordResetToken.used PasswordResetToken.expires_at
                     PasswordResetToken.email row]. fold row.
  destruct (Z.ltb_spec0 (now + one_hour) now') as [Hlate|Hintime].
  { intros [= <- <-]. split; [done|lia]. }
  rewrite Hu1. cbv zeta. intros Hrun. split; [lia|]. intros _. revert Hrun.
  destruct (be _).
  { intros [= <- <-]. eauto. }
  cbn [live stored open_session users set_users set_password_reset_tokens
       password_reset_tokens d1].
  destruct (be _).
  { intros [= <- <-]. eauto. }
  destruct (refresh_assigned (h pw) u db Hin) as [u' ->].
  intros [= <- <-]. cbn [stored open_session]. exists u. split; [done|]. split.
  - rewrite <- Hemail at 1.
    pose proof (get_user_by_email_assigned (h pw) u db (User.email u)) as Hget.
    rewrite <- Hemail in Hu. rewrite Hu in Hget.
    cbn [fmap option_fmap option_map] in Hget. unfold assign_password in Hget at 2.
    rewrite decide_True in Hget by done.
    unfold get_user_by_email in *. cbn [users set_users] in *. exact Hget.
  - intros now'' pw'. unfold run_request. rewrite reset_password_run.
    rewrite get_user_by_password_reset_token_run. cbn [live stored open_session].
    match goal with
    | |- context [token_row ?d fresh] =>
        assert (token_row d fresh = Some (PasswordResetToken.set_used true row)) as ->;
          [|done]
    end.
    unfold token_row in *.
    cbn [password_reset_tokens set_users set_password_reset_tokens].
    rewrite head_filter_fmap by (intros t; unfold mark_id; by case_decide).
    cbn [d1 password_reset_tokens set_password_reset_tokens] in Hrow.
    rewrite Hrow. cbn [fmap option_fmap option_map]. unfold mark_id.
    by rewrite decide_True.
Qed.

End password_reset.

(* ===================================================================== *)
(** * What a checkout leaves behind                                       *)
(* ===================================================================== *)

Lemma new_order_id_fresh db : orders db !! new_order_id db = None.
Proof.
  destruct (orders db !! new_order_id db) as [o|] eqn:Ho; [|done].
  apply elem_of_map_to_list in Ho.
  assert (new_order_id db < new_order_id db); [|lia].
  apply (next_key_fresh (fst <$> map_to_list (orders db)) (new_order_id db)).
  apply list_elem_of_fmap. by exists (new_order_id db, o).
Qed.

Lemma filter_none_elem {A} (P : A → Prop) `{∀ x, Decision (P x)} (l : list A) :
  (∀ x, x ∈ l → ¬ P x) → filter P l = [].
Proof.
  intros Hall. destruct (filter P l) as [|x l'] eqn:Hf; [done|].
  assert (x ∈ filter P l) as [HP Hin]%list_elem_of_filter by (rewrite Hf; by left).
  by destruct (Hall x Hin).
Qed.

(** X26.  What a checkout leaves behind.  After [create_order_from_cart]
    has returned, the user's cart is still there, with its coupon detached
    and no lines; the lines of the other carts and the coupons are
    unchanged; the order is the only new entry of [orders] and sits under
    a key that was free; and a second checkout fails with the empty-cart
    error and changes nothing. *)
Theorem checkout_consumes_the_cart be now uid db oid o db' :
  run_request (create_order_from_cart be now uid) db = (Return (oid, o), db') →
  ∃ cart,
    get_cart_by_user_id db uid = Some cart
    ∧ get_cart_by_user_id db' uid = Some (Cart.set_coupon_id None cart)
    ∧ Cart_items db' cart = []
    ∧ (∀ it, it ∈ cart_items db' ↔
             it ∈ cart_items db ∧ CartItem.cart_id it ≠ Cart.id cart)
    ∧ coupons db' = coupons db
    ∧ orders db !! oid = None
    ∧ orders db' = <[oid := o]> (orders db)
    ∧ ∀ now', run_request (create_order_from_cart be now' uid) db'
              = (Raise empty_cart_error, db').
Proof.
  unfold run_request.
  destruct (create_order_from_cart be now uid (open_session db)) as [r s'] eqn:Hc.
  intros [= -> <-]. rewrite create_order_run in Hc. cbn [live open_session] in Hc.
  destruct (get_cart_by_user_id db uid) as [cart|] eqn:Hcart; [|done].
  exists cart. split; [done|].
  assert (∀ items a d f,
            checkout_transaction be now uid cart items a d f (open_session db)
            = (Return (oid, o), s') →
            get_cart_by_user_id (stored s') uid = Some (Cart.set_coupon_id None cart)
            ∧ Cart_items (stored s') cart = []
            ∧ (∀ it, it ∈ cart_items (stored s') ↔
                     it ∈ cart_items db ∧ CartItem.cart_id it ≠ Cart.id cart)
            ∧ coupons (stored s') = coupons db
            ∧ orders db !! oid = None
            ∧ orders (stored s') = <[oid := o]> (orders db)
            ∧ ∀ now', (let '(r, s) := create_order_from_cart be now' uid
                                        (open_session (stored s')) in (r, stored s))
                      = (Raise empty_cart_error, stored s')) as Htx.
  { intros items a d f Htx.
    apply checkout_transaction_returns in Htx as (s1 & Hloop & _ & -> & -> & _).
    apply reserve_stock_frame in Hloop as [_ [m' Hlive]].
    cbn [live open_session] in Hlive. rewrite Hlive.
    cbn [stored open_session].
    set (db1 := after_checkout cart (new_order_id (set_products m' db)) o
                  (set_products m' db)).
    assert (get_cart_by_user_id db1 uid = Some (Cart.set_coupon_id None cart)) as Hc1.
    { unfold get_cart_by_user_id in *. cbn [db1 after_checkout carts set_cart_items
        set_carts set_orders set_products].
      rewrite head_filter_fmap by (intros c; by case_decide).
      rewrite Hcart. cbn [fmap option_fmap option_map]. by rewrite decide_True. }
    assert (Cart_items db1 (Cart.set_coupon_id None cart) = []) as Hitems.
    { unfold Cart_items. apply filter_none_elem.
      intros it Hin. cbn [db1 after_checkout cart_items set_cart_items] in Hin.
      by apply list_elem_of_filter in Hin as [Hne _]. }
    split_and!; [done|exact Hitems| |done| |done|].
    - intros it. cbn [db1 after_checkout cart_items set_cart_items set_carts
                      set_orders set_products]. rewrite list_elem_of_filter. tauto.
    - change (new_order_id (set_products m' db)) with (new_order_id db).
      apply new_order_id_fresh.
    - intros now'. rewrite create_order_run. cbn [live open_session].
      by rewrite Hc1, Hitems. }
  destruct (Cart_items db cart) as [|item0 rest]; [done|]. cbv zeta in Hc.
  destruct (Cart_coupon db cart) as [c|].
  - destruct (get_valid_coupon_by_code db now (Coupon.code c)) as [v|]; [|done].
    by apply Htx in Hc.
  - by apply Htx in Hc.
Qed.

(* ===================================================================== *)
(** * The cart, the routers and the password flow, run                    *)
(* ===================================================================== *)

Lemma shop_in_stock_well_formed : carts_well_formed shop_in_stock.
Proof.
  split_and!.
  - apply NoDup_singleton.
  - apply NoDup_singleton.
  - constructor; [simpl; lia|constructor].
  - intros it p ->%list_elem_of_singleton. vm_compute. intros [= <-]. discriminate.
Qed.

(** Three more units on a line of two, stock 5. *)
Lemma cart_operations_keep_carts_well_formed_witness :
  carts_well_formed
    (snd (run_request (add_item_to_cart sqlite_backend 1 (CartItemCreate.mk 1 3))
            shop_in_stock)).
Proof.
  destruct (cart_operations_keep_carts_well_formed sqlite_backend shop_in_stock
              shop_in_stock_well_formed) as (Hadd & _ & _).
  destruct (run_request (add_item_to_cart sqlite_backend 1 (CartItemCreate.mk 1 3))
              shop_in_stock) as [r db'] eqn:Hrun.
  cbn [snd]. eapply Hadd; [|exact Hrun]. simpl. lia.
Defined.

(** The line of two becomes a line of four, stock 5. *)
Lemma update_quantity_respects_stock_witness :
  match update_cart_item_quantity sqlite_backend 1 1 4 (open_session shop_in_stock) with
  | (Return (Some it'), s') => cart_line (live s') 1 1 = Some it'
  | _ => False
  end.
Proof.
  destruct (update_cart_item_quantity sqlite_backend 1 1 4 (open_session shop_in_stock))
    as [[[it'|]|e] s'] eqn:Hrun; [|by vm_compute in Hrun..].
  destruct (update_quantity_respects_stock sqlite_backend 1 1 4 _ _ _ ltac:(lia) Hrun)
    as (it & p & _ & _ & _ & _ & Hline & _).
  exact Hline.
Defined.

(** Quantity 0 removes the only line. *)
Lemma update_quantity_to_zero_removes_line_witness :
  cart_line (snd (run_request (update_cart_item_quantity sqlite_backend 1 1 0)
                    shop_in_stock)) 1 1 = None.
Proof.
  destruct (run_request (update_cart_item_quantity sqlite_backend 1 1 0) shop_in_stock)
    as [r db'] eqn:Hrun.
  pose proof (update_quantity_to_zero_removes_line sqlite_backend 1 1 0 shop_in_stock
                r db' ltac:(lia) (NoDup_singleton _) (NoDup_singleton _) Hrun) as H.
  destruct r as [o|e]; cbn [snd].
  - by destruct H as (_ & _ & Hline).
  - by vm_compute in Hrun.
Defined.

(** Two units added to an empty cart and removed again. *)
Lemma add_then_remove_restores_cart_witness :
  run_request (remove_cart_item sqlite_backend 1 1)
    (snd (run_request (add_item_to_cart sqlite_backend 1 (CartItemCreate.mk 1 2))
            shop_empty_cart_expired_coupon))
  = (Return (Some (CartItem.mk 1 1 1 2)), shop_empty_cart_expired_coupon).
Proof.
  destruct (run_request (add_item_to_cart sqlite_backend 1 (CartItemCreate.mk 1 2))
              shop_empty_cart_expired_coupon) as [[[it|]|e] db1] eqn:Hrun;
    [|by vm_compute in Hrun..].
  destruct (add_then_remove_restores_cart sqlite_backend 1 (CartItemCreate.mk 1 2)
              shop_empty_cart_expired_coupon it db1 eq_refl eq_refl Hrun)
    as (-> & _ & Hrm).
  exact Hrm.
Defined.

(** The customer applies PEDIDO20. *)
Lemma apply_coupon_attaches_only_valid_coupons_witness :
  match routers_cart.apply_coupon sqlite_backend 100 "PEDIDO20" customer
          (open_session (shop 10 2 [PEDIDO20] None)) with
  | (Return cart', s') =>
      get_cart_by_user_id (live s') 7 = Some cart'
      ∧ Cart.coupon_id cart' = Some (Coupon.id PEDIDO20)
  | _ => False
  end.
Proof.
  destruct (routers_cart.apply_coupon sqlite_backend 100 "PEDIDO20" customer
              (open_session (shop 10 2 [PEDIDO20] None))) as [[cart'|e] s'] eqn:Hrun;
    [|by vm_compute in Hrun].
  destruct (apply_coupon_attaches_only_valid_coupons sqlite_backend 100 "PEDIDO20"
              customer (open_session (shop 10 2 [PEDIDO20] None)) _ _
              (NoDup_singleton _) Hrun)
    as (cart & coupon & _ & Hin & _ & Heq & Hget & _).
  split; [exact Hget|].
  change (coupon ∈ [PEDIDO20]) in Hin. apply list_elem_of_singleton in Hin.
  by subst.
Defined.

(** The customer takes PEDIDO20 off the cart. *)
Lemma remove_coupon_leaves_no_coupon_witness :
  match routers_cart.remove_coupon sqlite_backend customer
          (open_session shop_pedido20) with
  | (Return cart', s') => Cart_coupon (live s') cart' = None
  | _ => False
  end.
Proof.
  destruct (routers_cart.remove_coupon sqlite_backend customer
              (open_session shop_pedido20)) as [[cart'|e] s'] eqn:Hrun;
    [|by vm_compute in Hrun].
  by destruct (remove_coupon_leaves_no_coupon sqlite_backend customer
                 (open_session shop_pedido20) _ _ (NoDup_singleton _) Hrun)
    as (_ & Hnone & _).
Defined.

(** The first visit creates the cart, the second finds it. *)
Lemma read_my_cart_creates_at_most_one_cart_witness :
  match run_request (routers_cart.read_my_cart sqlite_backend customer)
          shop_without_cart with
  | (Return cart, db1) =>
      run_request (routers_cart.read_my_cart sqlite_backend customer) db1
      = (Return cart, db1)
  | _ => False
  end.
Proof.
  destruct (run_request (routers_cart.read_my_cart sqlite_backend customer)
              shop_without_cart) as [[cart|e] db1] eqn:Hrun; [|by vm_compute in Hrun].
  by destruct (read_my_cart_creates_at_most_one_cart _ _ _ _ _ Hrun) as (_ & _ & _ & H).
Defined.

(** Two more units through the endpoint. *)
Lemma add_product_to_cart_outcomes_witness :
  match run_request (routers_cart.add_product_to_cart sqlite_backend
                       (CartItemCreate.mk 1 2) customer) shop_in_stock with
  | (Return it, db') => cart_line db' 1 1 = Some it ∧ CartItem.quantity it ≤ 5
  | _ => False
  end.
Proof.
  destruct (run_request (routers_cart.add_product_to_cart sqlite_backend
                           (CartItemCreate.mk 1 2) customer) shop_in_stock)
    as [[it|e] db'] eqn:Hrun; [|by vm_compute in Hrun].
  destruct (add_product_to_cart_outcomes _ _ _ _ _ _ Hrun)
    as (_ & cart & p & Hcart & Hp & _ & Hq & Hline).
  vm_compute in Hcart. injection Hcart as <-.
  vm_compute in Hp. injection Hp as <-. by split.
Defined.

(** Quantity 0 through the endpoint: status 204 and the line is gone. *)
Lemma update_cart_item_endpoint_removes_on_nonpositive_witness :
  run_request (routers_cart.update_cart_item sqlite_backend 1 0 customer) shop_in_stock
  = (Raise (HTTPException 204 "No Content"), set_cart_items [] shop_in_stock).
Proof.
  destruct (run_request (routers_cart.update_cart_item sqlite_backend 1 0 customer)
              shop_in_stock) as [r db'] eqn:Hrun.
  destruct (update_cart_item_endpoint_removes_on_nonpositive sqlite_backend 1 0
              customer (Cart.mk 1 7 None) shop_in_stock r db'
              ltac:(lia) eq_refl eq_refl (NoDup_singleton _) (NoDup_singleton _) Hrun)
    as [(-> & -> & _)|(-> & msg & ->)].
  - reflexivity.
  - by vm_compute in Hrun.
Defined.

(** Five units in the cart, stock 1: status 400 and nothing changes. *)
Lemma create_order_endpoint_outcomes_witness :
  match run_request (routers_orders.create_order sqlite_backend 100 customer)
          shop_short_stock with
  | (Raise (HTTPException status _), db') => status = 400 ∧ db' = shop_short_stock
  | _ => False
  end.
Proof.
  destruct (run_request (routers_orders.create_order sqlite_backend 100 customer)
              shop_short_stock) as [[o|e] db'] eqn:Hrun; [by vm_compute in Hrun|].
  destruct (create_order_endpoint_outcomes _ _ _ _ _ _ Hrun)
    as (-> & status & detail & -> & [[_ Hsu]|(_ & _ & [->|[-> _]])]).
  - discriminate Hsu.
  - done.
  - by vm_compute in Hrun.
Defined.

(** Another customer asks for order 1. *)
Lemma read_single_order_authorization_witness :
  run_request (routers_orders.read_single_order 1 stranger) (shop_with_history "paid")
  = (Raise (HTTPException 403 "Não autorizado a visualizar este pedido."),
     shop_with_history "paid").
Proof.
  destruct (run_request (routers_orders.read_single_order 1 stranger)
              (shop_with_history "paid")) as [r db'] eqn:Hrun.
  destruct (read_single_order_authorization _ _ _ _ _ Hrun) as [-> H].
  destruct r as [o|e].
  - by vm_compute in Hrun.
  - destruct H as [[Hnone _]|(o & _ & _ & _ & ->)]; [by vm_compute in Hnone|done].
Defined.

(** The administrator sets a delivered order back to pending. *)
Lemma update_order_status_admin_outcomes_witness :
  match run_request (routers_orders.update_order_status_admin sqlite_backend 1
                       "pending_payment" admin) (shop_with_history "delivered") with
  | (Return o, db') =>
      o = past_order "pending_payment" ∧ orders db' !! 1 = Some o
  | _ => False
  end.
Proof.
  destruct (run_request (routers_orders.update_order_status_admin sqlite_backend 1
                           "pending_payment" admin) (shop_with_history "delivered"))
    as [[o|e] db'] eqn:Hrun; [|by vm_compute in Hrun].
  destruct (update_order_status_admin_outcomes _ _ _ _ _ _ _ Hrun)
    as (_ & _ & o0 & Ho0 & -> & ->).
  vm_compute in Ho0. injection Ho0 as <-. split; [done|].
  cbn [orders set_orders]. apply lookup_insert_eq.
Defined.

(** The administrator deletes product 1. *)
Lemma delete_product_endpoint_outcomes_witness :
  match run_request (routers_products.delete_product_endpoint sqlite_backend 1 admin)
          (shop_with_history "paid") with
  | (Return _, db') => get_product db' 1 = None ∧ reviews db' = []
  | _ => False
  end.
Proof.
  destruct (run_request (routers_products.delete_product_endpoint sqlite_backend 1 admin)
              (shop_with_history "paid")) as [[msg|e] db'] eqn:Hrun;
    [|by vm_compute in Hrun].
  destruct (delete_product_endpoint_outcomes _ _ _ _ _ _ Hrun)
    as (_ & _ & -> & Hgone & _).
  by split.
Defined.

(** Opening a session for the pending order 1 leaves it pending. *)
Lemma checkout_session_changes_only_payment_intent_witness :
  ∃ o', orders (snd (run_request (create_checkout_session stripe_mock sqlite_backend 1)
                       (shop_with_history "pending_payment"))) !! 1 = Some o'
        ∧ Order.status o' = "pending_payment"
        ∧ Order.items o' = Order.items (past_order "pending_payment").
Proof.
  destruct (run_request (create_checkout_session stripe_mock sqlite_backend 1)
              (shop_with_history "pending_payment")) as [r db'] eqn:Hrun.
  destruct (checkout_session_changes_only_payment_intent _ _ _ _ _ _ Hrun)
    as (_ & _ & Hord & _).
  cbn [snd]. destruct (orders db' !! 1) as [o'|] eqn:Ho'.
  - destruct (Hord 1 o' Ho') as (o & Ho & (_ & _ & _ & _ & _ & Hitems) & Hst & _).
    vm_compute in Ho. injection Ho as <-. by exists o'.
  - vm_compute in Hrun. injection Hrun as _ <-. by vm_compute in Ho'.
Defined.

(** An [order_id] that [int] refuses, the file separator before the
    digit: the provider is asked to retry and order 1 stays pending. *)
Lemma webhook_answers_witness :
  run_request
    (stripe_webhook sqlite_backend
       (Verified (completed_event (String "028" "1") "paid")))
    (shop_with_history "pending_payment")
  = (Raise webhook_retry_error, shop_with_history "pending_payment").
Proof.
  destruct (run_request
              (stripe_webhook sqlite_backend
                 (Verified (completed_event (String "028" "1") "paid")))
              (shop_with_history "pending_payment")) as [r db'] eqn:Hrun.
  pose proof (webhook_answers _ _ _ _ _ Hrun) as H.
  destruct r as [a|e]; [by vm_compute in Hrun|].
  by destruct H as (-> & [[Hc _]|[[Hc _]|(-> & _)]]).
Defined.

(** The paid event for order 1, delivered twice. *)
Lemma webhook_redelivery_changes_nothing_witness :
  match run_request (stripe_webhook sqlite_backend (Verified (completed_event "1" "paid")))
          (shop_with_history "pending_payment") with
  | (Return a, db1) =>
      run_request (stripe_webhook sqlite_backend (Verified (completed_event "1" "paid")))
        db1 = (Return a, db1)
  | _ => False
  end.
Proof.
  destruct (run_request
              (stripe_webhook sqlite_backend (Verified (completed_event "1" "paid")))
              (shop_with_history "pending_payment")) as [[a|e] db1] eqn:Hrun;
    [|by vm_compute in Hrun].
  exact (webhook_redelivery_changes_nothing _ _ _ _ _ Hrun).
Defined.

(** The paid event for order 1 leaves catalogue and cart alone. *)
Lemma webhook_touches_only_payment_fields_witness :
  same_outside_orders (shop_with_history "pending_payment")
    (snd (run_request
            (stripe_webhook sqlite_backend (Verified (completed_event "1" "paid")))
            (shop_with_history "pending_payment"))).
Proof.
  destruct (run_request
              (stripe_webhook sqlite_backend (Verified (completed_event "1" "paid")))
              (shop_with_history "pending_payment")) as [r db'] eqn:Hrun.
  by destruct (webhook_touches_only_payment_fields _ _ _ _ _ Hrun) as [Hsame _].
Defined.

(** A session is opened for order 1 and Stripe reports the payment. *)
Lemma checkout_then_webhook_pays_the_order_witness :
  match run_request (create_checkout_session stripe_mock sqlite_backend 1)
          (shop_with_history "pending_payment") with
  | (Return _, db1) =>
      ∃ o2, orders (snd (run_request
                           (stripe_webhook sqlite_backend
                              (Verified (completed_event "1" "paid"))) db1)) !! 1
            = Some o2
            ∧ Order.status o2 = "paid"
  | _ => False
  end.
Proof.
  destruct (run_request (create_checkout_session stripe_mock sqlite_backend 1)
              (shop_with_history "pending_payment")) as [[checkout_url|e] db1] eqn:Hrun;
    [|by vm_compute in Hrun].
  destruct (checkout_then_webhook_pays_the_order stripe_mock sqlite_backend 1
              (shop_with_history "pending_payment") checkout_url db1
              (completed_event "1" "paid") Hrun eq_refl eq_refl eq_refl)
    as (o & o1 & _ & _ & _ & H).
  unfold sqlite_backend in H at 1. destruct H as [-> (o2 & Ho2 & Hst & _)].
  by exists o2.
Defined.

(** The token of the customer is accepted at 500 and refused at 600. *)
Lemma reset_token_is_single_use_witness :
  match accounts.run_request
          (accounts.get_user_by_password_reset_token accounts_sqlite 500 "tok-1")
          reset_requested with
  | (Return (Some _), db1) =>
      accounts.run_request
        (accounts.get_user_by_password_reset_token accounts_sqlite 600 "tok-1") db1
      = (Return None, db1)
  | _ => False
  end.
Proof.
  destruct (accounts.run_request
              (accounts.get_user_by_password_reset_token accounts_sqlite 500 "tok-1")
              reset_requested) as [[[u|]|e] db1] eqn:Hrun; [|by vm_compute in Hrun..].
  destruct (reset_token_is_single_use _ _ _ _ _ _ Hrun) as (_ & _ & H).
  apply H.
Defined.

(** A second token for the customer retires the first. *)
Lemma new_token_retires_earlier_tokens_witness :
  match accounts.run_request
          (accounts.create_password_reset_token accounts_sqlite 700
             "cliente@example.com" "tok-2") reset_requested with
  | (Return _, db1) =>
      accounts.run_request
        (accounts.get_user_by_password_reset_token accounts_sqlite 800 "tok-1") db1
      = (Return None, db1)
  | _ => False
  end.
Proof.
  destruct (accounts.run_request
              (accounts.create_password_reset_token accounts_sqlite 700
                 "cliente@example.com" "tok-2") reset_requested)
    as [[row|e] db1] eqn:Hrun; [|by vm_compute in Hrun].
  destruct (new_token_retires_earlier_tokens _ _ _ _ _ _ _ Hrun)
    as (_ & _ & _ & _ & _ & _ & _ & H).
  by apply (H "tok-1" (PasswordResetToken.mk 1 "cliente@example.com" "tok-1" 1000 false)).
Defined.

(** The token that expires at 1000, presented at 2000. *)
Lemma reset_password_outcomes_witness :
  accounts.run_request
    (accounts.reset_password toy_hash accounts_sqlite 2000 "tok-1" "nova-senha")
    reset_requested
  = (Raise (HTTPException 400 "Token de recuperação inválido ou expirado."),
     reset_requested).
Proof.
  destruct (accounts.run_request
              (accounts.reset_password toy_hash accounts_sqlite 2000 "tok-1" "nova-senha")
              reset_requested) as [r db'] eqn:Hrun.
  pose proof (reset_password_outcomes _ _ _ _ _ _ _ _ Hrun) as H.
  destruct r as [msg|e]; [by vm_compute in Hrun|].
  destruct H as (_ & [(-> & -> & _)|(msg & ->)]); [done|by vm_compute in Hrun].
Defined.

(** The customer asks for a token. *)
Lemma forgot_password_outcomes_witness :
  match accounts.run_request
          (accounts.forgot_password accounts_sqlite 0 "tok-1" "cliente@example.com")
          registered with
  | (Return resp, db') =>
      accounts.token resp = Some "tok-1" ∧ accounts.users db' = [customer; admin]
  | _ => False
  end.
Proof.
  destruct (accounts.run_request
              (accounts.forgot_password accounts_sqlite 0 "tok-1" "cliente@example.com")
              registered) as [[resp|e] db'] eqn:Hrun; [|by vm_compute in Hrun].
  destruct (forgot_password_outcomes _ _ _ _ _ _ _ Hrun) as (_ & Husers & H).
  change (accounts.get_user_by_email registered "cliente@example.com")
    with (Some customer) in H.
  by destruct H as [Htok _].
Defined.

(** The customer asks for a token at 0 and sets a new password at 100. *)
Lemma forgot_then_reset_sets_password_witness :
  match accounts.run_request
          (accounts.forgot_password accounts_sqlite 0 "tok-1" "cliente@example.com")
          registered with
  | (Return _, db1) =>
      match accounts.run_request
              (accounts.reset_password toy_hash accounts_sqlite 100 "tok-1" "nova-senha")
              db1 with
      | (Return _, db2) =>
          accounts.get_user_by_email db2 "cliente@example.com"
          = Some (User.set_hashed_password "hashed:nova-senha" customer)
      | _ => False
      end
  | _ => False
  end.
Proof.
  destruct (accounts.run_request
              (accounts.forgot_password accounts_sqlite 0 "tok-1" "cliente@example.com")
              registered) as [[resp|e] db1] eqn:Hforgot; [|by vm_compute in Hforgot].
  destruct (accounts.run_request
              (accounts.reset_password toy_hash accounts_sqlite 100 "tok-1" "nova-senha")
              db1) as [r db2] eqn:Hreset.
  assert (accounts.token resp = Some "tok-1") as Htok.
  { vm_compute in Hforgot. by injection Hforgot as <- _. }
  destruct (forgot_then_reset_sets_password toy_hash accounts_sqlite 0 100 "tok-1"
              "cliente@example.com" "nova-senha" registered resp db1 r db2
              eq_refl Hforgot Htok Hreset) as [_ H].
  specialize (H ltac:(vm_compute; discriminate)).
  destruct r as [msg|e].
  - destruct H as (u & Hu & Hu2 & _). vm_compute in Hu. injection Hu as <-. exact Hu2.
  - destruct H as [msg ->]. vm_compute in Hforgot. injection Hforgot as _ <-.
    by vm_compute in Hreset.
Defined.

(** After the checkout the cart is empty and a second checkout is refused. *)
Lemma checkout_consumes_the_cart_witness :
  match run_request (create_order_from_cart sqlite_backend 100 7) shop_in_stock with
  | (Return _, db') =>
      Cart_items db' (Cart.mk 1 7 None) = []
      ∧ run_request (create_order_from_cart sqlite_backend 200 7) db'
        = (Raise empty_cart_error, db')
  | _ => False
  end.
Proof.
  destruct (run_request (create_order_from_cart sqlite_backend 100 7) shop_in_stock)
    as [[[oid o]|e] db'] eqn:Hrun; [|by vm_compute in Hrun].
  destruct (checkout_consumes_the_cart _ _ _ _ _ _ _ Hrun)
    as (cart & Hcart & _ & Hitems & _ & _ & _ & _ & Hagain).
  vm_compute in Hcart. injection Hcart as <-. by split.
Defined.

(** The customer removes the only line of the cart. *)
Lemma remove_product_from_cart_outcomes_witness :
  match run_request (routers_cart.remove_product_from_cart sqlite_backend 1 customer)
          shop_in_stock with
  | (Return _, db') => cart_items db' = []
  | _ => False
  end.
Proof.
  destruct (run_request (routers_cart.remove_product_from_cart sqlite_backend 1 customer)
              shop_in_stock) as [[[]|e] db'] eqn:Hrun; [|by vm_compute in Hrun].
  destruct (remove_product_from_cart_outcomes sqlite_backend 1 customer shop_in_stock
              _ _ (NoDup_singleton _) (NoDup_singleton _) Hrun)
    as (_ & cart & it & Hcart & _ & -> & _).
  vm_compute in Hcart. by injection Hcart as <-.
Defined.
